(** * DogMailCreator: signup orchestrator and SMS-verification client

    A shallow embedding of [phone_verification.py], [account_creator.py],
    [user_manager.py] and [proxy_manager.py] (with the parts of
    [browser_manager.py] they call) as programs of a state-and-exception
    monad, and the properties of the specification stated over it.

    Conventions of the embedding.
    - The objects of the program ([PhoneVerificationManager],
      [BrowserManager], [AccountCreator], [UserManager]) are the fields of
      one record [world]; a method is a computation [M A] that reads and
      updates it.  What a [UserManager] has loaded is a record
      [Users.manager]; a [ProxyManager], which nothing else reads, has a
      state and a monad of its own.
    - What lies outside the program (the SMS provider, the browser and the
      page it shows, the random generator, the user database) is an
      environment [env] of oracles indexed by a call counter kept in the
      world.  A theorem quantified over [env] holds for every behaviour of
      the outside.
    - A Python exception is an outcome [Raise]; the state changes made
      before it are kept, as in Python.  [try]/[except] is [try_except].
    - Loops and recursions that the source does not bound take a [fuel]
      argument; [OutOfFuel] means the fuel given was not enough.  Where
      the interpreter itself bounds a recursion ([generate_username]), the
      argument is the depth it allows and running out raises
      [RecursionError].
    - Durations are rational numbers of seconds; [random.uniform] is
      computed exactly on them.  The program computes in floating point:
      a bound that depends on its rounding (the ends of
      [uniform(0.05, 0.2)] are not floating-point numbers) is not stated.
    - The orchestrator is the one [AccountCreator] builds without a proxy;
      what a proxy adds to [initialize_driver] is in [ProxyManager].
    - Strings are ASCII.  A log message keeps its fixed text only; the
      values an f-string splices into it are left out unless a claim reads
      them. *)

From Stdlib Require Import ZArith QArith List String Ascii Bool Lia Lqa Permutation.
From Stdlib Require Import DecimalString.
Import ListNotations.

Open Scope string_scope.
Open Scope Z_scope.

(** ** Python strings *)

Module PyStr.

(** [needle in hay] *)
Fixpoint contains (needle hay : string) : bool :=
  if String.prefix needle hay then true
  else match hay with
       | EmptyString => false
       | String _ rest => contains needle rest
       end.

(** [s.split(sep)] for a one-character separator: never the empty list. *)
Fixpoint split (sep : ascii) (s : string) : list string :=
  match s with
  | EmptyString => [EmptyString]
  | String c rest =>
      if Ascii.eqb c sep then EmptyString :: split sep rest
      else match split sep rest with
           | part :: parts => String c part :: parts
           | [] => [String c EmptyString]
           end
  end.

(** Truth value of a string, and of an attribute that is [None] or a string. *)
Definition truthy (s : string) : bool :=
  match s with EmptyString => false | _ => true end.

Definition truthy_opt (o : option string) : bool :=
  match o with None => false | Some s => truthy s end.

(** [c.lower()], [c.isalnum()] on ASCII letters and digits. *)
Definition lower_char (c : ascii) : ascii :=
  let n := nat_of_ascii c in
  if (65 <=? n)%nat && (n <=? 90)%nat then ascii_of_nat (n + 32) else c.

Definition isalnum (c : ascii) : bool :=
  let n := nat_of_ascii c in
  ((48 <=? n)%nat && (n <=? 57)%nat)
  || ((65 <=? n)%nat && (n <=? 90)%nat)
  || ((97 <=? n)%nat && (n <=? 122)%nat).

Fixpoint lower (s : string) : string :=
  match s with
  | EmptyString => EmptyString
  | String c rest => String (lower_char c) (lower rest)
  end.

Fixpoint filter (p : ascii -> bool) (s : string) : string :=
  match s with
  | EmptyString => EmptyString
  | String c rest => if p c then String c (filter p rest) else filter p rest
  end.

(** [str(n)] for an integer. *)
Definition of_Z (n : Z) : string := NilZero.string_of_int (Z.to_int n).

End PyStr.

(** ** Exceptions, provider requests, browser actions *)

Inductive exn : Type :=
| RequestException
| ValueError (msg : string)
| IndexError
| UnboundLocalError
| RuntimeError (msg : string)
| TimeoutException
| NoSuchElementException
| WebDriverException
| TypeError
| RecursionError.

Definition is_RequestException (e : exn) : bool :=
  match e with RequestException => true | _ => false end.

Definition is_TimeoutException (e : exn) : bool :=
  match e with TimeoutException => true | _ => false end.

Definition is_RequestException_or_ValueError (e : exn) : bool :=
  match e with RequestException | ValueError _ => true | _ => false end.

(** [except Exception] and a bare [except]: every exception of the model. *)
Definition any_exception (e : exn) : bool := true.

(** The query string of one call to the provider ([params] in the source). *)
Inductive params : Type :=
| getNumber (api_key country service : string)
| getStatus (api_key id : string)
| setStatus (api_key id : string) (status : Z)
| getBalance (api_key : string).

(** What [requests.get] gives: a response with its [.text], or a
    [requests.RequestException]. *)
Inductive reply : Type :=
| Text (data : string)
| RequestFails.

(** [Selectors] of config.py. *)
Inductive selector : Type :=
| CREATE_ACCOUNT_1 | CREATE_ACCOUNT_2
| FOR_PERSONAL_USE_1
| FIRST_NAME | LAST_NAME | USERNAME | PASSWORD | CONFIRM_PASSWORD
| NEXT_BUTTONS_1 | NEXT_BUTTONS_2 | NEXT_BUTTONS_3
| PHONE_NUMBER | CODE
| ACC_DAY | ACC_MONTH | ACC_YEAR | ACC_GENDER
| USERNAME_WARNING | USERNAME_SELECT
| GOOGLE_ACCOUNT_ARTICLE_LINK | MAIL_ARTICLE_LINK.

Definition CREATE_ACCOUNT : list selector := [CREATE_ACCOUNT_1; CREATE_ACCOUNT_2].
Definition FOR_PERSONAL_USE : list selector := [FOR_PERSONAL_USE_1].
Definition NEXT_BUTTONS : list selector :=
  [NEXT_BUTTONS_1; NEXT_BUTTONS_2; NEXT_BUTTONS_3].

Inductive script : Type :=
| ScrollTo (y : Z)
| ScrollIntoView (s : selector)
| JsClick (s : selector)
| ScrollPoint (x y : Z)
| SetBirthdayFields (day month year : string)
| ClickFirstButton
| HideWebdriver
| SpoofChrome.

(** One call into Selenium. *)
Inductive action : Type :=
| InitDriver
| Quit
| Get (url : string)
| Until (s : selector) (wait_time : Z) (clickable : bool)
| FindElement (s : selector)
| ExecuteScript (js : script)
| Click (s : selector)
| Clear (s : selector)
| SendKeys (s : selector) (char : ascii)
| SelectByValue (s : selector) (value : string)
| GetWindowSize
| SetWindowSize (width height : Z)
| SaveScreenshot (name_prefix : string).

Inductive event : Type :=
| EvRequest (p : params) (r : reply)
| EvSleep (seconds : Q)
| EvBrowser (a : action) (failure : option exn)
| EvWrite (line : string).

Inductive level : Type := DEBUG | INFO | WARNING | ERROR.

(** Python's [string] module: the constants [generate_password] draws from. *)
Module PyString.
Definition ascii_uppercase : string := "ABCDEFGHIJKLMNOPQRSTUVWXYZ".
Definition ascii_lowercase : string := "abcdefghijklmnopqrstuvwxyz".
Definition digits : string := "0123456789".
Definition punctuation : string :=
  "!" ++ String (ascii_of_nat 34) "#$%&'()*+,-./:;<=>?@[\]^_`{|}~".
End PyString.

(** ** Configuration ([Config] of config.py) *)

Module Config.
Definition INCLUDE_REFER_URL : bool := false.
Definition WAIT : Z := 4.
Definition REQUEST_MAX_TRY : Z := 10.
Definition API_KEY : string := "8e49fdB90d0209c085dd1df56cedf00e".
Definition COUNTRY_CODE : string := "175".
Definition SITE_LIST : list string :=
  ["https://google.com"; "https://wizardrytechnique.webflow.io/";
   "https://www.rachelbavaresco.com/"; "https://lightning-bolt.webflow.io/"].
Definition FIRST_NAMES_PATH : string := "./data/First_Name_DB.csv".
Definition LAST_NAMES_PATH : string := "./data/Last_Name_DB.csv".
Definition PASSWORD_MIN_LENGTH : Z := 8.
Definition PASSWORD_MAX_LENGTH : Z := 12.
Definition PASSWORD_CHARS : string :=
  PyString.ascii_uppercase ++ PyString.ascii_lowercase ++ PyString.digits
  ++ PyString.punctuation.
Definition BROWSER_WIDTH_MIN : Z := 1050.
Definition BROWSER_WIDTH_MAX : Z := 1200.
Definition BROWSER_HEIGHT_MIN : Z := 800.
Definition BROWSER_HEIGHT_MAX : Z := 900.
Definition PROXY_RETRIES : Z := 3.
Definition PROXY_TIMEOUT : Z := 1.
End Config.

Module URLS.
Definition support : string := "https://support.google.com/accounts/answer/27441?hl=en".
Definition direct : string :=
  "https://accounts.google.com/signup/v2/webcreateaccount?flowName=GlifWebSignIn&flowEntry=SignUp".
Definition accounts : string := "https://accounts.google.com".
Definition mail_help : string := "https://support.google.com/mail/answer/56256?hl=en".
End URLS.

(** ** The world *)

Record user_data : Type := mkUser {
  first_name : string;
  last_name : string;
  password : string;
  birthday : string;
  manual_username : string
}.

Record account_data : Type := mkAccount {
  acc_username : string;
  acc_password : string;
  acc_birthday : string;
  acc_phone_number : string
}.

Record world : Type := mkWorld {
  (* PhoneVerificationManager *)
  current_activation_id : option string;
  current_number : option string;
  (* BrowserManager: [self.driver is not None] *)
  driver : bool;
  (* AccountCreator *)
  current_index : Z;
  successful_accounts : Z;
  failed_accounts : Z;
  (* UserManager *)
  created_accounts : list account_data;
  (* the outside: calls made so far to each oracle, and what happened *)
  http_calls : nat;
  ticks : nat;
  draws : nat;
  trace : list event;
  log : list (level * string)
}.

(** What [UserManager.get_user_data] can do at one index: a dict, [None],
    or an exception (an empty CSV row in the name databases). *)
Inductive lookup : Type :=
| UserFound (u : user_data)
| UserMissing
| UserFails (e : exn).

Record env : Type := mkEnv {
  (** the provider's answer to the n-th request *)
  provider : nat -> params -> reply;
  (** whether the n-th Selenium call raises, and what *)
  browser : nat -> action -> option exn;
  (** the n-th value of the random generator *)
  entropy : nat -> Z;
  (** [UserManager.user_count] and [UserManager.get_user_data] *)
  user_count : Z;
  user_db : Z -> lookup;
  (** Python's [float(s)]: the number, or [None] for a [ValueError] *)
  py_float : string -> option Q;
  (** the size of the browser window, as [get_window_size] reports it *)
  window_size : Z * Z;
  (** [BrowserManager.browser_type], fixed when the manager is built *)
  browser_type : string
}.

Definition set_current_activation_id (v : option string) (w : world) : world :=
  mkWorld v (current_number w) (driver w) (current_index w)
          (successful_accounts w) (failed_accounts w) (created_accounts w)
          (http_calls w) (ticks w) (draws w) (trace w) (log w).

Definition set_current_number (v : option string) (w : world) : world :=
  mkWorld (current_activation_id w) v (driver w) (current_index w)
          (successful_accounts w) (failed_accounts w) (created_accounts w)
          (http_calls w) (ticks w) (draws w) (trace w) (log w).

Definition set_driver (v : bool) (w : world) : world :=
  mkWorld (current_activation_id w) (current_number w) v (current_index w)
          (successful_accounts w) (failed_accounts w) (created_accounts w)
          (http_calls w) (ticks w) (draws w) (trace w) (log w).

Definition set_current_index (v : Z) (w : world) : world :=
  mkWorld (current_activation_id w) (current_number w) (driver w) v
          (successful_accounts w) (failed_accounts w) (created_accounts w)
          (http_calls w) (ticks w) (draws w) (trace w) (log w).

Definition set_successful_accounts (v : Z) (w : world) : world :=
  mkWorld (current_activation_id w) (current_number w) (driver w) (current_index w)
          v (failed_accounts w) (created_accounts w)
          (http_calls w) (ticks w) (draws w) (trace w) (log w).

Definition set_failed_accounts (v : Z) (w : world) : world :=
  mkWorld (current_activation_id w) (current_number w) (driver w) (current_index w)
          (successful_accounts w) v (created_accounts w)
          (http_calls w) (ticks w) (draws w) (trace w) (log w).

Definition set_created_accounts (v : list account_data) (w : world) : world :=
  mkWorld (current_activation_id w) (current_number w) (driver w) (current_index w)
          (successful_accounts w) (failed_accounts w) v
          (http_calls w) (ticks w) (draws w) (trace w) (log w).

Definition set_http_calls (v : nat) (w : world) : world :=
  mkWorld (current_activation_id w) (current_number w) (driver w) (current_index w)
          (successful_accounts w) (failed_accounts w) (created_accounts w)
          v (ticks w) (draws w) (trace w) (log w).

Definition set_ticks (v : nat) (w : world) : world :=
  mkWorld (current_activation_id w) (current_number w) (driver w) (current_index w)
          (successful_accounts w) (failed_accounts w) (created_accounts w)
          (http_calls w) v (draws w) (trace w) (log w).

Definition set_draws (v : nat) (w : world) : world :=
  mkWorld (current_activation_id w) (current_number w) (driver w) (current_index w)
          (successful_accounts w) (failed_accounts w) (created_accounts w)
          (http_calls w) (ticks w) v (trace w) (log w).

Definition set_trace (v : list event) (w : world) : world :=
  mkWorld (current_activation_id w) (current_number w) (driver w) (current_index w)
          (successful_accounts w) (failed_accounts w) (created_accounts w)
          (http_calls w) (ticks w) (draws w) v (log w).

Definition set_log (v : list (level * string)) (w : world) : world :=
  mkWorld (current_activation_id w) (current_number w) (driver w) (current_index w)
          (successful_accounts w) (failed_accounts w) (created_accounts w)
          (http_calls w) (ticks w) (draws w) (trace w) v.

(** The world when the program starts: the three managers just built. *)
Definition initial_world : world :=
  mkWorld None None false 0 0 0 [] 0%nat 0%nat 0%nat [] [].

(** ** The monad *)

Inductive outcome (A : Type) : Type :=
| Ret (a : A)
| Raise (e : exn)
| OutOfFuel.

Arguments Ret {A} a.
Arguments Raise {A} e.
Arguments OutOfFuel {A}.

Definition M (A : Type) : Type := env -> world -> outcome A * world.

Definition ret {A} (a : A) : M A := fun _ w => (Ret a, w).

Definition bind {A B} (m : M A) (k : A -> M B) : M B :=
  fun E w =>
    match m E w with
    | (Ret a, w') => k a E w'
    | (Raise e, w') => (Raise e, w')
    | (OutOfFuel, w') => (OutOfFuel, w')
    end.

Definition raise {A} (e : exn) : M A := fun _ w => (Raise e, w).

Definition out_of_fuel {A} : M A := fun _ w => (OutOfFuel, w).

(** [sys.getrecursionlimit()], which the program never changes. *)
Definition recursion_limit : nat := 1000.

(** [try: body  except <class> as e: handler e] *)
Definition try_except {A} (body : M A) (class : exn -> bool) (handler : exn -> M A)
  : M A :=
  fun E w =>
    match body E w with
    | (Raise e, w') => if class e then handler e E w' else (Raise e, w')
    | r => r
    end.

Declare Scope py_scope.
Delimit Scope py_scope with py.
Notation "x <- m ;; k" := (bind m (fun x => k))
  (at level 100, m at next level, right associativity) : py_scope.
Notation "' pat <- m ;; k" := (bind m (fun x => match x with pat => k end))
  (at level 100, pat pattern, m at next level, right associativity) : py_scope.
Notation "m ;; k" := (bind m (fun _ => k))
  (at level 100, right associativity) : py_scope.
Open Scope py_scope.

Definition get {A} (f : world -> A) : M A := fun _ w => (Ret (f w), w).
Definition modify (f : world -> world) : M unit := fun _ w => (Ret tt, f w).
Definition ask {A} (f : env -> A) : M A := fun E w => (Ret (f E), w).

(** [self.logger.<level>(msg)] *)
Definition logger (l : level) (msg : string) : M unit :=
  modify (fun w => set_log (log w ++ [(l, msg)]) w).

Definition emit (ev : event) : M unit :=
  modify (fun w => set_trace (trace w ++ [ev]) w).

(** [time.sleep(seconds)]; [ValueError] on a negative duration. *)
Definition sleep (seconds : Q) : M unit :=
  if Qle_bool 0 seconds then emit (EvSleep seconds)
  else raise (ValueError "sleep length must be non-negative").

(** *** The random generator *)

Definition two53 : Z := 9007199254740992.

Definition next_entropy : M Z :=
  n <- get draws ;;
  raw <- ask (fun E => entropy E n) ;;
  modify (set_draws (S n)) ;;
  ret raw.

(** [random.random()]: a multiple of 2^-53 in [0, 1). *)
Definition random_random : M Q :=
  raw <- next_entropy ;;
  ret (Qmake (raw mod two53) (Z.to_pos two53)).

(** [random.uniform(a, b)] is [a + (b - a) * random()]. *)
Definition random_uniform (a b : Q) : M Q :=
  u <- random_random ;;
  ret (a + (b - a) * u)%Q.

(** [random.randint(a, b)]; [ValueError] on an empty range. *)
Definition random_randint (a b : Z) : M Z :=
  if b <? a then raise (ValueError "empty range for randrange()")
  else
    raw <- next_entropy ;;
    ret (a + raw mod (b - a + 1)).

(** [random.choice(seq)]; [IndexError] on an empty sequence. *)
Definition random_choice {A} (seq : list A) : M A :=
  match seq with
  | [] => raise IndexError
  | x :: _ =>
      raw <- next_entropy ;;
      ret (nth (Z.to_nat (raw mod Z.of_nat (List.length seq))) seq x)
  end.

(** ** phone_verification.py *)

Module PhoneVerificationManager.

(** [requests.get(self.api_url, params=params, timeout=10)] followed by
    [response.text]. *)
Definition requests_get (p : params) : M string :=
  n <- get http_calls ;;
  r <- ask (fun E => provider E n p) ;;
  modify (set_http_calls (S n)) ;;
  emit (EvRequest p r) ;;
  match r with
  | Text data => ret data
  | RequestFails => raise RequestException
  end.

(** The body of the [while] loop of [get_phone_number]; [Some v] in the
    result of the [try] block stands for [return v]. *)
Fixpoint get_phone_number_loop (fuel : nat) (max_attempts attempt : Z)
  : M (bool * option string) :=
  match fuel with
  | O => out_of_fuel
  | S fuel' =>
      if attempt <? max_attempts then
        let attempt := attempt + 1 in
        logger INFO "Phone number request attempt" ;;
        returned <-
          try_except
            (data <- requests_get (getNumber Config.API_KEY Config.COUNTRY_CODE "go") ;;
             logger DEBUG ("API response: " ++ data) ;;
             if PyStr.contains "ACCESS_NUMBER" data then
               let parts := PyStr.split ":" data in
               if (3 <=? List.length parts)%nat then
                 let id := nth 1 parts "" in
                 let number := nth 2 parts "" in
                 modify (set_current_activation_id (Some id)) ;;
                 modify (set_current_number (Some number)) ;;
                 let formatted_number := "+" ++ number in
                 logger INFO ("Successfully obtained phone number: " ++ formatted_number) ;;
                 ret (Some (true, Some formatted_number))
               else
                 logger WARNING ("Invalid API response format: " ++ data) ;;
                 ret None
             else if PyStr.contains "NO_NUMBERS" data then
               logger WARNING "No numbers available, retrying..." ;;
               sleep 2 ;;
               ret None
             else if PyStr.contains "NO_BALANCE" data then
               logger ERROR "Insufficient balance in SMS-Activate account" ;;
               ret (Some (false, Some "Insufficient balance in SMS-Activate account"))
             else if PyStr.contains "BAD_KEY" data then
               logger ERROR "Invalid API key provided" ;;
               ret (Some (false, Some "Invalid API key"))
             else
               logger WARNING ("Unexpected API response: " ++ data) ;;
               ret None)
            is_RequestException
            (fun e => logger ERROR "Request failed" ;; ret None) ;;
        match returned with
        | Some v => ret v
        | None =>
            sleep 3 ;;
            get_phone_number_loop fuel' max_attempts attempt
        end
      else
        logger ERROR "Failed to get phone number" ;;
        ret (false, None)
  end.

Definition get_phone_number (max_attempts : option Z) : M (bool * option string) :=
  let max_attempts :=
    match max_attempts with None => Config.REQUEST_MAX_TRY | Some n => n end in
  logger INFO "Getting phone number from SMS service" ;;
  get_phone_number_loop (S (Z.to_nat max_attempts)) max_attempts 0.

(** The loop of [get_verification_code].  [data] is the local variable of
    that name: [None] while it is unbound, and kept from one iteration to
    the next. *)
Fixpoint get_verification_code_loop (fuel : nat) (id : string)
    (max_attempts : Z) (polling_interval : Q) (attempt : Z) (data : option string)
  : M (bool * option string) :=
  match fuel with
  | O => out_of_fuel
  | S fuel' =>
      if attempt <? max_attempts then
        let attempt := attempt + 1 in
        logger INFO "Verification code check attempt" ;;
        '(data, returned) <-
          try_except
            (data <- requests_get (getStatus Config.API_KEY id) ;;
             logger DEBUG ("API response: " ++ data) ;;
             if PyStr.contains "STATUS_OK" data then
               let parts := PyStr.split ":" data in
               if (2 <=? List.length parts)%nat then
                 let code := nth 1 parts "" in
                 logger INFO ("Successfully received verification code: " ++ code) ;;
                 ret (Some data, Some (true, Some code))
               else
                 logger WARNING ("Invalid STATUS_OK response format: " ++ data) ;;
                 ret (Some data, None)
             else if PyStr.contains "STATUS_WAIT_CODE" data then
               logger INFO "SMS not received yet, waiting..." ;;
               ret (Some data, None)
             else if PyStr.contains "STATUS_CANCEL" data then
               logger WARNING "Activation was cancelled" ;;
               ret (Some data, Some (false, Some "Activation cancelled"))
             else
               logger WARNING ("Unexpected API response: " ++ data) ;;
               ret (Some data, None))
            is_RequestException
            (fun e => logger ERROR "Request failed" ;; ret (data, None)) ;;
        match returned with
        | Some v => ret v
        | None =>
            match data with
            | None => raise UnboundLocalError
            | Some d =>
                let attempt :=
                  if PyStr.contains "STATUS_WAIT_CODE" d then attempt - 1 else attempt in
                sleep polling_interval ;;
                get_verification_code_loop fuel' id max_attempts polling_interval
                                           attempt data
            end
        end
      else
        logger ERROR "Failed to get verification code" ;;
        ret (false, None)
  end.

Definition get_verification_code (fuel : nat) (max_attempts : option Z)
    (polling_interval : Q) : M (bool * option string) :=
  id <- get current_activation_id ;;
  if negb (PyStr.truthy_opt id) then
    logger ERROR "No active phone number session - call get_phone_number first" ;;
    ret (false, Some "No active phone number")
  else
    let max_attempts :=
      match max_attempts with None => Config.REQUEST_MAX_TRY | Some n => n end in
    logger INFO "Waiting for verification code" ;;
    get_verification_code_loop fuel (match id with Some s => s | None => "" end)
                               max_attempts polling_interval 0 None.

Definition cancel_current_activation : M bool :=
  id <- get current_activation_id ;;
  if negb (PyStr.truthy_opt id) then
    logger WARNING "No active phone number to cancel" ;;
    ret true
  else
    logger INFO "Cancelling activation" ;;
    try_except
      (data <- requests_get
                 (setStatus Config.API_KEY (match id with Some s => s | None => "" end) 8) ;;
       logger DEBUG ("API response: " ++ data) ;;
       if PyStr.contains "ACCESS_CANCEL" data
          || PyStr.contains "ACCESS_ACTIVATION_CANCEL" data then
         logger INFO "Activation cancelled successfully" ;;
         modify (set_current_activation_id None) ;;
         modify (set_current_number None) ;;
         ret true
       else
         logger WARNING ("Failed to cancel activation: " ++ data) ;;
         ret false)
      is_RequestException
      (fun e => logger ERROR "Request failed" ;; ret false).

Definition report_success : M bool :=
  id <- get current_activation_id ;;
  if negb (PyStr.truthy_opt id) then
    logger WARNING "No active phone number to report success for" ;;
    ret false
  else
    logger INFO "Reporting success" ;;
    try_except
      (data <- requests_get
                 (setStatus Config.API_KEY (match id with Some s => s | None => "" end) 6) ;;
       logger DEBUG ("API response: " ++ data) ;;
       if PyStr.contains "ACCESS_ACTIVATION_SUCCESS" data then
         logger INFO "Successfully reported activation success" ;;
         modify (set_current_activation_id None) ;;
         modify (set_current_number None) ;;
         ret true
       else
         logger WARNING ("Failed to report success: " ++ data) ;;
         ret false)
      is_RequestException
      (fun e => logger ERROR "Request failed" ;; ret false).

(** [check_balance]: the balance, or [None]. *)
Definition check_balance : M (option Q) :=
  logger INFO "Checking SMS service balance" ;;
  try_except
    (data <- requests_get (getBalance Config.API_KEY) ;;
     if PyStr.contains "ACCESS_BALANCE" data then
       match nth_error (PyStr.split ":" data) 1 with
       | None => raise IndexError
       | Some amount =>
           parsed <- ask (fun E => py_float E amount) ;;
           match parsed with
           | None => raise (ValueError "could not convert string to float")
           | Some balance =>
               logger INFO "Current balance" ;;
               ret (Some balance)
           end
       end
     else
       logger WARNING ("Failed to check balance: " ++ data) ;;
       ret None)
    is_RequestException_or_ValueError
    (fun e => logger ERROR "Balance check failed" ;; ret None).

End PhoneVerificationManager.

(** ** browser_manager.py *)

Module BrowserManager.

(** One Selenium call: the environment decides whether it raises. *)
Definition selenium (a : action) : M unit :=
  n <- get ticks ;;
  r <- ask (fun E => browser E n a) ;;
  modify (set_ticks (S n)) ;;
  emit (EvBrowser a r) ;;
  match r with
  | None => ret tt
  | Some e => raise e
  end.

(** [_setup_chrome_options] and [_setup_firefox_options]: what they draw;
    the options themselves go to the browser with [InitDriver]. *)
Definition _setup_chrome_options : M unit :=
  timezone <- random_choice ["America/New_York"; "Europe/London"; "Asia/Tokyo";
                             "Australia/Sydney"] ;;
  lang <- random_choice ["en-US,en;q=0.9"; "en-GB,en;q=0.8";
                         "es-ES,es;q=0.9,en;q=0.7"] ;;
  ret tt.

Definition _setup_firefox_options : M unit := ret tt.

Definition _apply_anti_detection : M unit :=
  try_except
    (selenium (ExecuteScript HideWebdriver) ;;
     width <- random_randint Config.BROWSER_WIDTH_MIN Config.BROWSER_WIDTH_MAX ;;
     height <- random_randint Config.BROWSER_HEIGHT_MIN Config.BROWSER_HEIGHT_MAX ;;
     selenium (SetWindowSize width height) ;;
     browser_type <- ask browser_type ;;
     if String.eqb browser_type "chrome" then selenium (ExecuteScript SpoofChrome)
     else ret tt)
    any_exception
    (fun e => logger WARNING "Error applying anti-detection measures").

(** [initialize_driver] of a manager built without a proxy (the proxy
    lines are [ProxyManager.initialize_driver_proxy]): building the driver
    is one call, [InitDriver]; [self.driver] is set last. *)
Definition initialize_driver : M unit :=
  logger INFO "Initializing driver" ;;
  browser_type <- ask browser_type ;;
  (if String.eqb browser_type "chrome" then
     _setup_chrome_options ;;
     selenium InitDriver
   else if String.eqb browser_type "firefox" then
     _setup_firefox_options ;;
     selenium InitDriver
   else raise (ValueError ("Unsupported browser type: " ++ browser_type))) ;;
  _apply_anti_detection ;;
  modify (set_driver true).

Definition human_like_delay (min_time max_time : Q) : M unit :=
  base_delay <- random_uniform min_time max_time ;;
  sleep (base_delay * inject_Z Config.WAIT)%Q.

(** The default arguments of [human_like_delay]. *)
Definition human_like_delay0 : M unit := human_like_delay (1 # 2) 2.

Fixpoint human_like_typing (element : selector) (text : string) : M unit :=
  match text with
  | EmptyString => ret tt
  | String char rest =>
      selenium (SendKeys element char) ;;
      d <- random_uniform (1 # 20) (1 # 5) ;;
      sleep d ;;
      human_like_typing element rest
  end.

Definition take_screenshot (name_prefix : string) : M unit :=
  d <- get driver ;;
  if negb d then ret tt
  else
    try_except
      (selenium (SaveScreenshot name_prefix) ;;
       logger INFO "Screenshot saved")
      any_exception
      (fun e => logger ERROR "Failed to take screenshot").

Fixpoint mouse_movement_loop (n : nat) (width height : Z) : M unit :=
  match n with
  | O => ret tt
  | S n' =>
      x <- random_randint 0 width ;;
      y <- random_randint 0 height ;;
      selenium (ExecuteScript (ScrollPoint x y)) ;;
      d <- random_uniform (1 # 2) (3 # 2) ;;
      sleep d ;;
      mouse_movement_loop n' width height
  end.

Definition mouse_movement_simulation : M unit :=
  d <- get driver ;;
  if negb d then ret tt
  else
    try_except
      (selenium GetWindowSize ;;
       '(width, height) <- ask window_size ;;
       mouse_movement_loop 3 width height)
      any_exception
      (fun e => logger DEBUG "Mouse movement simulation failed").

(** [wait_for_element(selector, wait_time=..., clickable=...)]; the element
    found is named by its selector. *)
Definition wait_for_element (s : selector) (wait_time : option Z) (clickable : bool)
  : M selector :=
  d <- get driver ;;
  if negb d then
    raise (RuntimeError "Driver not initialized. Call initialize_driver() first.")
  else
    let wait_time := match wait_time with None => Config.WAIT | Some t => t end in
    try_except
      (selenium (Until s wait_time clickable) ;;
       ret s)
      is_TimeoutException
      (fun _ =>
         try_except
           (logger WARNING "Element not found with normal wait, trying JavaScript fallback" ;;
            selenium (FindElement s) ;;
            selenium (ExecuteScript (ScrollIntoView s)) ;;
            (if clickable then selenium (ExecuteScript (JsClick s)) else ret tt) ;;
            ret s)
           any_exception
           (fun e =>
              logger ERROR "JavaScript fallback also failed" ;;
              take_screenshot "element_not_found" ;;
              raise e)).

Definition close : M unit :=
  d <- get driver ;;
  if d then
    try_except (selenium Quit)
               any_exception
               (fun e => logger WARNING "Error closing driver") ;;
    modify (set_driver false)
  else ret tt.

End BrowserManager.

(** ** user_manager.py *)

Module UserManager.

(** The first two assignments to [base] in [generate_username]:
    "first.last" in lower case, keeping letters, digits and dots. *)
Definition username_base (first_name last_name : string) : string :=
  let base := PyStr.lower first_name ++ "." ++ PyStr.lower last_name in
  PyStr.filter (fun c => PyStr.isalnum c || Ascii.eqb c ".") base.

(** [generate_username(first_name, last_name, existing_usernames)].  The
    function calls itself on a duplicate; [fuel] is the number of nested
    calls the interpreter's recursion limit still allows (1000 by default,
    less the frames already on the stack), and the call that would exceed
    it raises [RecursionError]. *)
Fixpoint generate_username (fuel : nat) (first_name last_name : string)
    (existing_usernames : option (list string)) : M string :=
  match fuel with
  | O => raise RecursionError
  | S fuel' =>
      let base := username_base first_name last_name in
      rand_digits <- random_randint 10000 99999 ;;
      let username := base ++ PyStr.of_Z rand_digits in
      match existing_usernames with
      | Some ((_ :: _) as l) =>
          if existsb (String.eqb username) l
          then generate_username fuel' first_name last_name existing_usernames
          else ret username
      | _ => ret username
      end
  end.

(** [get_user_data(index)]: the dict, or [None]; what the databases hold is
    the environment's. *)
Definition get_user_data (index : Z) : M (option user_data) :=
  r <- ask (fun E => user_db E index) ;;
  match r with
  | UserFound u =>
      logger INFO "Generated/loaded user data" ;;
      ret (Some u)
  | UserMissing =>
      logger ERROR "No user data at index" ;;
      ret None
  | UserFails e => raise e
  end.

Definition tab : string := String (ascii_of_nat 9) EmptyString.

Definition save_created_account (username password birthday phone_number : string)
  : M unit :=
  let account := mkAccount username password birthday phone_number in
  modify (fun w => set_created_accounts (created_accounts w ++ [account]) w) ;;
  emit (EvWrite (username ++ tab ++ password ++ tab ++ birthday ++ tab ++ phone_number)) ;;
  logger INFO ("Saved created account: " ++ username).

Definition get_user_count : M Z := ask user_count.

End UserManager.

(** ** account_creator.py *)

Module AccountCreator.

Import BrowserManager.

(** The [for selector in Selectors.NEXT_BUTTONS] loop of
    [_click_next_button]: [Some v] stands for [return v]. *)
Fixpoint _click_next_button_for (selectors : list selector) : M (option bool) :=
  match selectors with
  | [] => ret None
  | s :: rest =>
      returned <-
        try_except
          (button <- wait_for_element s (Some 5) true ;;
           selenium (Click button) ;;
           human_like_delay0 ;;
           ret (Some true))
          any_exception
          (fun _ => ret None) ;;
      match returned with
      | Some v => ret (Some v)
      | None => _click_next_button_for rest
      end
  end.

Definition _click_next_button : M bool :=
  logger INFO "Clicking next button" ;;
  returned <- _click_next_button_for NEXT_BUTTONS ;;
  match returned with
  | Some v => ret v
  | None =>
      try_except
        (logger WARNING "All next button selectors failed, trying JavaScript" ;;
         selenium (ExecuteScript ClickFirstButton) ;;
         human_like_delay0 ;;
         ret true)
        any_exception
        (fun e =>
           logger ERROR "JavaScript button click also failed" ;;
           raise (ValueError "Could not click next button"))
  end.

(** [for selector in selectors: try: wait_for_element(...).click(); break
    except Exception: continue] *)
Fixpoint click_first_available (selectors : list selector) : M unit :=
  match selectors with
  | [] => ret tt
  | s :: rest =>
      clicked <-
        try_except
          (el <- wait_for_element s None true ;;
           selenium (Click el) ;;
           ret true)
          any_exception
          (fun _ => ret false) ;;
      if clicked then ret tt else click_first_available rest
  end.

Definition _navigate_to_account_creation : M unit :=
  logger INFO "Navigating to account creation page" ;;
  mouse_movement_simulation ;;
  (if Config.INCLUDE_REFER_URL then
     random_url <- random_choice Config.SITE_LIST ;;
     selenium (Get random_url) ;;
     human_like_delay0 ;;
     y <- random_randint 100 500 ;;
     selenium (ExecuteScript (ScrollTo y)) ;;
     human_like_delay0
   else ret tt) ;;
  approach <- random_randint 1 4 ;;
  logger INFO "Using approach to access account creation" ;;
  (if approach =? 1 then
     selenium (Get URLS.support) ;;
     el <- wait_for_element GOOGLE_ACCOUNT_ARTICLE_LINK None true ;;
     selenium (Click el)
   else if approach =? 2 then
     selenium (Get URLS.accounts) ;;
     human_like_delay0 ;;
     click_first_available CREATE_ACCOUNT ;;
     human_like_delay0 ;;
     click_first_available FOR_PERSONAL_USE
   else if approach =? 3 then
     selenium (Get URLS.direct)
   else
     selenium (Get URLS.mail_help) ;;
     el <- wait_for_element MAIL_ARTICLE_LINK None true ;;
     selenium (Click el)) ;;
  human_like_delay0.

Definition _fill_first_step (user : user_data) : M unit :=
  logger INFO "Filling out first step: name fields" ;;
  first_name_field <- wait_for_element FIRST_NAME None false ;;
  selenium (Clear first_name_field) ;;
  human_like_typing first_name_field (first_name user) ;;
  human_like_delay0 ;;
  last_name_field <- wait_for_element LAST_NAME None false ;;
  selenium (Clear last_name_field) ;;
  human_like_typing last_name_field (last_name user) ;;
  mouse_movement_simulation ;;
  _click_next_button ;;
  logger INFO "First step completed".

(** In [_fill_second_step] the locals [month], [day], [year] are bound by
    [parts[0]], [parts[1]], [parts[2]] inside the [try]; the handler reads
    them, bound or not. *)
Definition _fill_second_step (user : user_data) : M unit :=
  logger INFO "Filling out second step: birthday and gender" ;;
  human_like_delay 2 3 ;;
  sleep 3 ;;
  take_screenshot "before_birthday" ;;
  let parts := PyStr.split "/" (birthday user) in
  let month := nth_error parts 0 in
  let day := nth_error parts 1 in
  let year := nth_error parts 2 in
  try_except
    (match month, day, year with
     | Some month, Some day, Some year =>
         day_field <- wait_for_element ACC_DAY (Some 8) false ;;
         selenium (Clear day_field) ;;
         human_like_typing day_field day ;;
         logger INFO "Day field filled" ;;
         human_like_delay0 ;;
         month_select <- wait_for_element ACC_MONTH None false ;;
         selenium (SelectByValue month_select month) ;;
         logger INFO "Month field filled" ;;
         human_like_delay0 ;;
         year_field <- wait_for_element ACC_YEAR None false ;;
         selenium (Clear year_field) ;;
         human_like_typing year_field year ;;
         logger INFO "Year field filled" ;;
         human_like_delay0 ;;
         gender_select <- wait_for_element ACC_GENDER None false ;;
         selenium (SelectByValue gender_select "1") ;;
         logger INFO "Gender field filled" ;;
         mouse_movement_simulation ;;
         _click_next_button ;;
         logger INFO "Second step completed"
     | _, _, _ => raise IndexError
     end)
    any_exception
    (fun e =>
       logger ERROR "Error in birthday step" ;;
       take_screenshot "error_birthday" ;;
       try_except
         (logger INFO "Attempting JavaScript fallback for birthday fields" ;;
          match day, month, year with
          | Some day, Some month, Some year =>
              selenium (ExecuteScript (SetBirthdayFields day month year)) ;;
              selenium (ExecuteScript ClickFirstButton) ;;
              sleep 3 ;;
              logger INFO "JavaScript form fill attempt completed"
          | _, _, _ => raise UnboundLocalError
          end)
         any_exception
         (fun js_error =>
            logger ERROR "JavaScript fallback also failed" ;;
            raise js_error)).

(** Lines 356-385 of [_fill_username_step]: choose the username, type it
    and submit.  The result is the local [username]. *)
Definition enter_username (user : user_data) : M string :=
  logger INFO "Filling out username step" ;;
  human_like_delay0 ;;
  username <-
    (if PyStr.truthy (manual_username user) then ret (manual_username user)
     else UserManager.generate_username 1 (first_name user) (last_name user) None) ;;
  try_except
    (el <- wait_for_element USERNAME_SELECT (Some 3) true ;;
     selenium (Click el))
    any_exception
    (fun _ => logger INFO "No username selection step, continuing") ;;
  username_field <- wait_for_element USERNAME None false ;;
  selenium (Clear username_field) ;;
  human_like_typing username_field username ;;
  logger INFO ("Username entered: " ++ username) ;;
  _click_next_button ;;
  ret username.

(** [{**user_data, 'manual_username': ""}] *)
Definition clear_manual_username (user : user_data) : user_data :=
  mkUser (first_name user) (last_name user) (password user) (birthday user) "".

(** [_fill_username_step]; the recursive call is inside the [try] whose
    bare [except] follows it. *)
Fixpoint _fill_username_step (fuel : nat) (user : user_data) : M string :=
  match fuel with
  | O => out_of_fuel
  | S fuel' =>
      username <- enter_username user ;;
      returned <-
        try_except
          (_ <- wait_for_element USERNAME_WARNING (Some 3) false ;;
           logger WARNING "Username was invalid or already taken" ;;
           again <- _fill_username_step fuel' (clear_manual_username user) ;;
           ret (Some again))
          any_exception
          (fun _ => logger INFO "Username accepted" ;; ret None) ;;
      match returned with
      | Some v => ret v
      | None => ret username
      end
  end.

Definition _fill_password_step (user : user_data) : M unit :=
  logger INFO "Filling out password step" ;;
  password_field <- wait_for_element PASSWORD None false ;;
  selenium (Clear password_field) ;;
  human_like_typing password_field (password user) ;;
  human_like_delay0 ;;
  confirm_field <- wait_for_element CONFIRM_PASSWORD None false ;;
  selenium (Clear confirm_field) ;;
  human_like_typing confirm_field (password user) ;;
  _click_next_button ;;
  logger INFO "Password step completed".

Definition _requires_phone_verification : M bool :=
  logger INFO "Checking if phone verification is required" ;;
  try_except
    (_ <- wait_for_element ACC_DAY (Some 3) false ;;
     logger INFO "Phone verification not required" ;;
     ret false)
    any_exception
    (fun _ =>
       try_except
         (_ <- wait_for_element PHONE_NUMBER (Some 5) false ;;
          logger INFO "Phone verification is required" ;;
          ret true)
         any_exception
         (fun _ =>
            logger WARNING "Could not determine verification requirement" ;;
            ret false)).

(** Typing a value that may be [None] ([for char in None] is a
    [TypeError]). *)
Definition human_like_typing_opt (element : selector) (text : option string) : M unit :=
  match text with
  | Some t => human_like_typing element t
  | None => raise TypeError
  end.

Definition _handle_phone_verification (fuel : nat) : M (bool * option string) :=
  logger INFO "Handling phone verification" ;;
  '(success, phone_number) <- PhoneVerificationManager.get_phone_number None ;;
  if negb success then
    logger ERROR "Failed to get phone number" ;;
    ret (false, Some "")
  else
    phone_field <- wait_for_element PHONE_NUMBER None false ;;
    human_like_typing_opt phone_field phone_number ;;
    _click_next_button ;;
    '(success, code) <- PhoneVerificationManager.get_verification_code fuel None 5 ;;
    if negb success then
      logger ERROR "Failed to get verification code" ;;
      PhoneVerificationManager.cancel_current_activation ;;
      ret (false, phone_number)
    else
      code_field <- wait_for_element CODE None false ;;
      human_like_typing_opt code_field code ;;
      _click_next_button ;;
      PhoneVerificationManager.report_success ;;
      logger INFO "Phone verification completed successfully" ;;
      ret (true, phone_number).

Definition _complete_final_steps : M bool :=
  logger INFO "Completing final steps" ;;
  try_except
    (_click_next_button ;;
     human_like_delay0 ;;
     selenium (ExecuteScript (ScrollTo 800)) ;;
     human_like_delay0 ;;
     _click_next_button ;;
     sleep 3 ;;
     logger INFO "Account creation completed" ;;
     ret true)
    any_exception
    (fun e => logger ERROR "Error in final steps" ;; ret false).

(** [save_created_account] formats [phone_number] into the line; the
    attempt passes the string it holds. *)
Definition str_of (o : option string) : string :=
  match o with Some s => s | None => "None" end.

(** The [try] block of [_create_single_account]. *)
Definition account_steps (fuel : nat) (user : user_data) : M bool :=
  _navigate_to_account_creation ;;
  _fill_first_step user ;;
  _fill_second_step user ;;
  username <- _fill_username_step fuel user ;;
  _fill_password_step user ;;
  required <- _requires_phone_verification ;;
  '(returned, phone_number) <-
    (if required then
       '(success, phone_number) <- _handle_phone_verification fuel ;;
       if negb success then
         logger ERROR "Phone verification failed" ;;
         ret (Some false, phone_number)
       else ret (None, phone_number)
     else ret (None, Some "")) ;;
  match returned with
  | Some v => ret v
  | None =>
      completed <- _complete_final_steps ;;
      if negb completed then
        logger ERROR "Failed to complete final steps" ;;
        ret false
      else
        UserManager.save_created_account username (password user) (birthday user)
                                         (str_of phone_number) ;;
        logger INFO ("Successfully created account: " ++ username) ;;
        ret true
  end.

Definition _create_single_account (fuel : nat) (user : user_data) : M bool :=
  try_except
    (account_steps fuel user)
    any_exception
    (fun e =>
       logger ERROR "Error creating account" ;;
       take_screenshot "error_create_account" ;;
       ret false).

(** One pass through the body of the [while] loop of [create_accounts]:
    the [try] block and its handler. *)
Definition attempt_body (fuel : nat) : M unit :=
  logger INFO "Processing account" ;;
  index <- get current_index ;;
  user <- UserManager.get_user_data index ;;
  match user with
  | None =>
      logger ERROR "Failed to get user data for index" ;;
      modify (fun w => set_failed_accounts (failed_accounts w + 1) w) ;;
      modify (fun w => set_current_index (current_index w + 1) w)
  | Some user =>
      initialize_driver ;;
      success <- _create_single_account fuel user ;;
      (if success : bool
       then modify (fun w => set_successful_accounts (successful_accounts w + 1) w)
       else modify (fun w => set_failed_accounts (failed_accounts w + 1) w)) ;;
      close ;;
      modify (fun w => set_current_index (current_index w + 1) w) ;;
      delay <- random_uniform 5 15 ;;
      logger INFO "Waiting before next account" ;;
      sleep delay
  end.

Definition attempt_handler (e : exn) : M unit :=
  logger ERROR "Unexpected error" ;;
  modify (fun w => set_failed_accounts (failed_accounts w + 1) w) ;;
  modify (fun w => set_current_index (current_index w + 1) w) ;;
  close ;;
  delay <- random_uniform 10 30 ;;
  sleep delay.

Definition attempt (fuel : nat) : M unit :=
  try_except (attempt_body fuel) any_exception attempt_handler.

Fixpoint create_accounts_loop (rounds fuel : nat) (user_count : Z) : M Z :=
  index <- get current_index ;;
  if index <? user_count then
    match rounds with
    | O => out_of_fuel
    | S rounds' =>
        attempt fuel ;;
        create_accounts_loop rounds' fuel user_count
    end
  else
    logger INFO "Account creation complete" ;;
    get successful_accounts.

Definition create_accounts (fuel : nat) : M Z :=
  user_count <- UserManager.get_user_count ;;
  logger INFO "Starting creation of accounts" ;;
  index <- get current_index ;;
  create_accounts_loop (Z.to_nat (user_count - index)) fuel user_count.

End AccountCreator.

(** ** user_manager.py: generation and loading of user data *)

Module Users.

(** [[random.choice(seq) for _ in range(n)]] *)
Fixpoint choices {A} (n : nat) (seq : list A) : M (list A) :=
  match n with
  | O => ret []
  | S n' =>
      c <- random_choice seq ;;
      rest <- choices n' seq ;;
      ret (c :: rest)
  end.

(** [x[i] = v] on a list, for [i] in range. *)
Fixpoint set_item {A} (x : list A) (i : nat) (v : A) : list A :=
  match x, i with
  | [], _ => []
  | _ :: rest, O => v :: rest
  | a :: rest, S i' => a :: set_item rest i' v
  end.

(** [x[i], x[j] = x[j], x[i]]: both right-hand sides are read first, then
    [x[i]] is assigned, then [x[j]]. *)
Definition swap {A} (x : list A) (i j : nat) : list A :=
  match nth_error x i, nth_error x j with
  | Some xi, Some xj => set_item (set_item x i xj) j xi
  | _, _ => x
  end.

(** [random.shuffle(x)]: for [i] from [len(x) - 1] down to 1, swap [x[i]]
    with [x[j]], [j] drawn below [i + 1]. *)
Fixpoint shuffle_loop {A} (i : nat) (x : list A) : M (list A) :=
  match i with
  | O => ret x
  | S i' =>
      raw <- next_entropy ;;
      let j := Z.to_nat (raw mod Z.of_nat (S i)) in
      shuffle_loop i' (swap x i j)
  end.

Definition random_shuffle {A} (x : list A) : M (list A) :=
  shuffle_loop (List.length x - 1) x.

Definition generate_password (min_length max_length : option Z) : M string :=
  let min_length :=
    match min_length with None => Config.PASSWORD_MIN_LENGTH | Some n => n end in
  let max_length :=
    match max_length with None => Config.PASSWORD_MAX_LENGTH | Some n => n end in
  size <- random_randint min_length max_length ;;
  let chars := Config.PASSWORD_CHARS in
  c1 <- random_choice (list_ascii_of_string PyString.ascii_uppercase) ;;
  c2 <- random_choice (list_ascii_of_string PyString.ascii_lowercase) ;;
  c3 <- random_choice (list_ascii_of_string PyString.digits) ;;
  c4 <- random_choice (list_ascii_of_string PyString.punctuation) ;;
  let password := [c1; c2; c3; c4] in
  more <- choices (Z.to_nat (size - 4)) (list_ascii_of_string chars) ;;
  let password := (password ++ more)%list in
  password <- random_shuffle password ;;
  ret (string_of_list_ascii password).

(** [month in [4, 6, 9, 11]] *)
Definition thirty_days (month : Z) : bool :=
  existsb (Z.eqb month) [4; 6; 9; 11].

Definition generate_random_birthday (min_year max_year : Z) : M string :=
  month <- random_randint 1 12 ;;
  day <- (if thirty_days month then random_randint 1 30
          else if month =? 2 then random_randint 1 28
          else random_randint 1 31) ;;
  year <- random_randint min_year max_year ;;
  ret (PyStr.of_Z month ++ "/" ++ PyStr.of_Z day ++ "/" ++ PyStr.of_Z year).

(** The state of a [UserManager]; what it has created is
    [created_accounts] of the world. *)
Record manager : Type := mkManager {
  auto_generate : bool;
  user_count : Z;
  first_names : list (list string);
  last_names : list (list string);
  user_infos : list (list string)
}.

(** [l[i]] for a Python list and an integer: negative indices count from
    the end; [None] stands for [IndexError]. *)
Definition item {A} (l : list A) (i : Z) : option A :=
  let n := Z.of_nat (List.length l) in
  if 0 <=? i then nth_error l (Z.to_nat i)
  else if - n <=? i then nth_error l (Z.to_nat (n + i))
  else None.

(** [csv.reader] over the file at a path gives its rows; [None] when the
    file cannot be opened.  The exception [open] raises is caught at once by
    the [except Exception] around it and only its text is logged: it is
    raised here as a [RuntimeError]. *)
Definition read_rows (files : string -> option (list (list string))) (path : string)
  : M (list (list string)) :=
  match files path with
  | Some rows => ret rows
  | None => raise (RuntimeError "No such file or directory")
  end.

Definition _load_name_files (files : string -> option (list (list string)))
    (self : manager) : M manager :=
  firsts <-
    try_except
      (logger INFO "Loading first names" ;;
       rows <- read_rows files Config.FIRST_NAMES_PATH ;;
       logger INFO "Loaded first names" ;;
       match rows with
       | [] => raise (ValueError "First name file is empty")
       | _ => ret rows
       end)
      any_exception
      (fun e =>
         logger ERROR "Error loading first names" ;;
         raise (ValueError
                  "Failed to load first name database. Please check if First_Name_DB.csv exists.")) ;;
  lasts <-
    try_except
      (logger INFO "Loading last names" ;;
       rows <- read_rows files Config.LAST_NAMES_PATH ;;
       logger INFO "Loaded last names" ;;
       match rows with
       | [] => raise (ValueError "Last name file is empty")
       | _ => ret rows
       end)
      any_exception
      (fun e =>
         logger ERROR "Error loading last names" ;;
         raise (ValueError
                  "Failed to load last name database. Please check if Last_Name_DB.csv exists.")) ;;
  ret (mkManager (auto_generate self) (user_count self) firsts lasts (user_infos self)).

(** [_load_user_info_file]; [path] is [Config.USER_INFO_PATH], which
    [main] may have replaced. *)
Definition _load_user_info_file (files : string -> option (list (list string)))
    (path : string) (self : manager) : M manager :=
  try_except
    (logger INFO "Loading user info" ;;
     rows <- read_rows files path ;;
     logger INFO "Loaded user records" ;;
     rows <-
       match rows with
       | [] => ret rows
       | first :: rest =>
           match first with
           | [] => raise IndexError
           | cell :: _ =>
               if PyStr.contains "Firstname" cell then ret rest else ret rows
           end
       end ;;
     match rows with
     | [] => raise (ValueError "User info file is empty")
     | _ =>
         ret (mkManager (auto_generate self) (Z.of_nat (List.length rows))
                        (first_names self) (last_names self) rows)
     end)
    any_exception
    (fun e =>
       logger ERROR "Error loading user info" ;;
       raise (ValueError ("Failed to load user information. Please check if "
                          ++ path ++ " exists."))).

(** [UserManager(auto_generate, user_count)] *)
Definition __init__ (files : string -> option (list (list string))) (path : string)
    (auto_generate : bool) (user_count : Z) : M manager :=
  let self := mkManager auto_generate user_count [] [] [] in
  if auto_generate then _load_name_files files self
  else _load_user_info_file files path self.

(** The dict [get_user_data] returns: the keys of [user_data], and the key
    ['username'] that only the generating branch sets. *)
Record user_dict : Type := mkDict {
  data : user_data;
  username : option string
}.

(** [random.choice(rows)[0]] *)
Definition choose_name (rows : list (list string)) : M string :=
  row <- random_choice rows ;;
  match row with
  | [] => raise IndexError
  | name :: _ => ret name
  end.

Definition get_user_data (fuel : nat) (self : manager) (index : Z)
  : M (option user_dict) :=
  if user_count self <=? index then
    logger ERROR "Requested user index exceeds available user count" ;;
    ret None
  else
    user <-
      (if auto_generate self then
         first <- choose_name (first_names self) ;;
         last <- choose_name (last_names self) ;;
         password <- generate_password None None ;;
         birthday <- generate_random_birthday 1980 1999 ;;
         existing_usernames <- get (fun w => map acc_username (created_accounts w)) ;;
         username <- UserManager.generate_username fuel first last
                       (Some existing_usernames) ;;
         ret (Some (mkDict (mkUser first last password birthday "") (Some username)))
       else
         try_except
           (match item (user_infos self) index with
            | None => raise IndexError
            | Some row =>
                match item row 0, item row 1, item row 2, item row 3 with
                | Some c0, Some c1, Some c2, Some c3 =>
                    let manual :=
                      if (4 <? Z.of_nat (List.length row))
                      then match item row 4 with Some c4 => c4 | None => "" end
                      else "" in
                    ret (Some (mkDict (mkUser c0 c1 c2 c3 manual) None))
                | _, _, _, _ => raise IndexError
                end
            end)
           (fun e => match e with IndexError => true | _ => false end)
           (fun e =>
              logger ERROR "Error accessing user data at index" ;;
              ret None)) ;;
    match user with
    | None => ret None
    | Some u =>
        logger INFO "Generated/loaded user data" ;;
        ret (Some u)
    end.

(** What [get_user_data] gives in the loading mode, as the orchestrator's
    environment holds it. *)
Definition lookup_in_file (self : manager) (index : Z) : lookup :=
  if user_count self <=? index then UserMissing
  else
    match item (user_infos self) index with
    | Some (c0 :: c1 :: c2 :: c3 :: rest) =>
        UserFound (mkUser c0 c1 c2 c3 (match rest with c4 :: _ => c4 | [] => "" end))
    | _ => UserMissing
    end.

End Users.

(** ** proxy_manager.py *)

Module ProxyManager.

(** What [FreeProxy(rand=True, timeout=...).get()] does: a proxy URL or
    [None], or an exception. *)
Inductive fetched : Type :=
| Fetched (proxy : option string)
| FetchRaises (e : exn).

(** What the test request through a proxy does: a response with its status
    code, or an exception. *)
Inductive probed : Type :=
| StatusCode (code : Z)
| ProbeRaises (e : exn).

(** The proxy service and the network, by call number. *)
Record net : Type := mkNet {
  free_proxy : nat -> fetched;
  probe : nat -> string -> probed
}.

Record state : Type := mkState {
  max_retries : Z;
  _current_proxy : option string;
  fetches : nat;
  probes : nat;
  journal : list (level * string)
}.

Definition P (A : Type) : Type := net -> state -> outcome A * state.

Definition pret {A} (a : A) : P A := fun _ s => (Ret a, s).

Definition pbind {A B} (m : P A) (k : A -> P B) : P B :=
  fun N s =>
    match m N s with
    | (Ret a, s') => k a N s'
    | (Raise e, s') => (Raise e, s')
    | (OutOfFuel, s') => (OutOfFuel, s')
    end.

Definition ptry {A} (body : P A) (class : exn -> bool) (handler : exn -> P A) : P A :=
  fun N s =>
    match body N s with
    | (Raise e, s') => if class e then handler e N s' else (Raise e, s')
    | r => r
    end.

Declare Scope proxy_scope.
Notation "x <- m ;; k" := (pbind m (fun x => k))
  (at level 100, m at next level, right associativity) : proxy_scope.
Notation "m ;; k" := (pbind m (fun _ => k))
  (at level 100, right associativity) : proxy_scope.
Local Open Scope proxy_scope.

Definition note (l : level) (msg : string) : P unit :=
  fun _ s =>
    (Ret tt, mkState (max_retries s) (_current_proxy s) (fetches s) (probes s)
                     (journal s ++ [(l, msg)])).

Definition set_proxy (p : option string) : P unit :=
  fun _ s => (Ret tt, mkState (max_retries s) p (fetches s) (probes s) (journal s)).

(** [FreeProxy(rand=True, timeout=self.timeout).get()] *)
Definition FreeProxy_get : P (option string) :=
  fun N s =>
    let s' := mkState (max_retries s) (_current_proxy s) (S (fetches s)) (probes s)
                      (journal s) in
    match free_proxy N (fetches s) with
    | Fetched proxy => (Ret proxy, s')
    | FetchRaises e => (Raise e, s')
    end.

(** [requests.get(test_url, proxies=..., ...).status_code] *)
Definition requests_get (proxy : string) : P Z :=
  fun N s =>
    let s' := mkState (max_retries s) (_current_proxy s) (fetches s) (S (probes s))
                      (journal s) in
    match probe N (probes s) proxy with
    | StatusCode code => (Ret code, s')
    | ProbeRaises e => (Raise e, s')
    end.

Definition __init__ : state := mkState Config.PROXY_RETRIES None 0 0 [].

Definition verify_proxy (proxy : string) : P bool :=
  ptry
    (status_code <- requests_get proxy ;;
     if status_code =? 200 then
       note INFO "Proxy verified working" ;;
       pret true
     else
       note WARNING "Proxy returned status code" ;;
       pret false)
    is_RequestException
    (fun e =>
       note WARNING "Proxy verification failed" ;;
       pret false).

(** The [for attempt in range(self.max_retries)] loop of
    [get_working_proxy], [n] iterations to go; [Some p] stands for
    [return p]. *)
Fixpoint get_working_proxy_loop (n : nat) : P (option string) :=
  match n with
  | O => pret None
  | S n' =>
      returned <-
        ptry
          (proxy <- FreeProxy_get ;;
           if negb (PyStr.truthy_opt proxy) then
             note WARNING "FreeProxy returned None" ;;
             pret None
           else
             let proxy := match proxy with Some u => u | None => "" end in
             note INFO "Testing proxy" ;;
             ok <- verify_proxy proxy ;;
             if ok then
               note INFO "Found working proxy" ;;
               pret (Some proxy)
             else
               note WARNING "Proxy verification failed for" ;;
               pret None)
          any_exception
          (fun e =>
             note ERROR "Error getting proxy" ;;
             pret None) ;;
      match returned with
      | Some proxy => pret (Some proxy)
      | None => get_working_proxy_loop n'
      end
  end.

Definition get_working_proxy : P (option string) :=
  note INFO "Attempting to get proxy from FreeProxy service" ;;
  retries <- (fun _ s => (Ret (max_retries s), s)) ;;
  returned <- get_working_proxy_loop (Z.to_nat retries) ;;
  match returned with
  | Some proxy => pret (Some proxy)
  | None =>
      note WARNING "All proxy attempts failed - proceeding without proxy" ;;
      pret None
  end.

(** The property [current_proxy]. *)
Definition current_proxy : P (option string) :=
  current <- (fun _ s => (Ret (_current_proxy s), s)) ;;
  if negb (PyStr.truthy_opt current) then
    found <- get_working_proxy ;;
    set_proxy found ;;
    pret found
  else pret current.

Definition reset_proxy : P (option string) :=
  set_proxy None ;;
  current_proxy.

(** [get_proxy_options]: the dict, as the list of its items in the order
    they were set. *)
Definition get_proxy_options : P (list (string * option string)) :=
  let proxy_options := [("no_proxy", Some "localhost,127.0.0.1")] in
  current <- current_proxy ;;
  if PyStr.truthy_opt current then
    http <- current_proxy ;;
    let proxy_options := (proxy_options ++ [("http", http)])%list in
    https <- current_proxy ;;
    let proxy_options := (proxy_options ++ [("https", https)])%list in
    pret proxy_options
  else pret proxy_options.

(** Lines 73 to 76 of [BrowserManager.initialize_driver]: the proxy options
    are asked for, then [current_proxy] is read again for the log. *)
Definition initialize_driver_proxy (use_proxy : bool)
  : P (option (list (string * option string))) :=
  if use_proxy then
    options <- get_proxy_options ;;
    current <- current_proxy ;;
    note INFO "Using proxy" ;;
    pret (Some options)
  else pret None.

End ProxyManager.

(** * Vocabulary of the statements, and scenarios *)

(** The query of [get_phone_number] and the events of one refused request. *)
Definition number_request : params :=
  getNumber Config.API_KEY Config.COUNTRY_CODE "go".

Definition no_numbers_round : list event :=
  [EvRequest number_request (Text "NO_NUMBERS"); EvSleep 2; EvSleep 3].

Definition status_request (id : string) : params := getStatus Config.API_KEY id.

(** A computation keeps a view of the world when running it, whatever its
    outcome, leaves the view as it was. *)
Definition keeps {X A : Type} (view : world -> X) (m : M A) : Prop :=
  forall E w, view (snd (m E w)) = view w.

(** The bookkeeping of [AccountCreator]. *)
Definition counters (w : world) : Z * Z * Z :=
  (current_index w, successful_accounts w, failed_accounts w).

(** The lease held by [PhoneVerificationManager]. *)
Definition lease (w : world) : option string * option string :=
  (current_activation_id w, current_number w).





(** The Selenium calls of a trace that raised, with what they raised. *)
Definition raised (t : list event) : list (action * exn) :=
  flat_map (fun ev => match ev with
                      | EvBrowser a (Some e) => [(a, e)]
                      | _ => []
                      end) t.

(** The requests of a trace, with their answers. *)
Definition requests (t : list event) : list (params * reply) :=
  flat_map (fun ev => match ev with
                      | EvRequest p r => [(p, r)]
                      | _ => []
                      end) t.

(** A string has a character of a class, and only characters of a class. *)
Definition has_char_of (class s : string) : bool :=
  existsb (fun c => existsb (Ascii.eqb c) (list_ascii_of_string class))
          (list_ascii_of_string s).

Definition all_chars_of (class s : string) : bool :=
  forallb (fun c => existsb (Ascii.eqb c) (list_ascii_of_string class))
          (list_ascii_of_string s).

(** No character of [s] is [c]. *)
Definition free_of (c : ascii) (s : string) : bool :=
  forallb (fun c' => negb (Ascii.eqb c' c)) (list_ascii_of_string s).

(** The days of a month in a year that is not a leap year. *)
Definition days_in_month (month : Z) : Z :=
  if month =? 2 then 28
  else if (month =? 4) || (month =? 6) || (month =? 9) || (month =? 11) then 30
  else 31.

(** The environment in which the orchestrator reads its users from a
    loaded [UserManager]. *)
Definition with_users (self : Users.manager) (E : env) : env :=
  mkEnv (provider E) (browser E) (entropy E) (Users.user_count self)
        (Users.lookup_in_file self) (py_float E) (window_size E) (browser_type E).

(** The characters a trace sent to elements, in order, and the Selenium
    calls of a trace. *)
Definition keys_sent (t : list event) : list (selector * ascii) :=
  flat_map (fun ev => match ev with
                      | EvBrowser (SendKeys el c) _ => [(el, c)]
                      | _ => []
                      end) t.

Definition calls (t : list event) : list action :=
  flat_map (fun ev => match ev with
                      | EvBrowser a _ => [a]
                      | _ => []
                      end) t.

(** The pauses of a trace. *)
Definition sleeps (t : list event) : list Q :=
  flat_map (fun ev => match ev with
                      | EvSleep d => [d]
                      | _ => []
                      end) t.


(** The accounts saved that were not counted as successes: none, all
    along. *)
Definition ledger (w : world) : Z :=
  Z.of_nat (Datatypes.length (created_accounts w)) - successful_accounts w.

(** A computation saves one account when it returns [True], and none
    otherwise. *)
Definition saves_when_true (m : M bool) : Prop :=
  forall E w,
    (fst (m E w) = Ret true ->
     exists account, created_accounts (snd (m E w)) = created_accounts w ++ [account])%list
    /\ (fst (m E w) <> Ret true -> created_accounts (snd (m E w)) = created_accounts w).

(** What the browser steps leave alone: the provider's call counter and
    the lease. *)
Definition billing (w : world) : nat * (option string * option string) :=
  (http_calls w, lease w).

(** What a search for a proxy leaves alone. *)
Definition settings (s : ProxyManager.state) : Z * option string :=
  (ProxyManager.max_retries s, ProxyManager._current_proxy s).

(** A request that settles a lease: [setStatus], whatever the status. *)
Definition settles (ev : event) : bool :=
  match ev with EvRequest (setStatus _ _ _) _ => true | _ => false end.

(** Every event but a settlement. *)
Definition quiet (ev : event) : bool := negb (settles ev).

(** A computation only adds to the trace, and only events of a class. *)
Definition emits_only (class : event -> bool) {A} (m : M A) : Prop :=
  forall E w,
    exists t, trace (snd (m E w)) = (trace w ++ t)%list /\ forallb class t = true.

(** An answer to [getNumber] that [get_phone_number] accepts, with the
    activation id and the number it reads in it. *)
Definition grants (data id number : string) : Prop :=
  PyStr.contains "ACCESS_NUMBER" data = true
  /\ (3 <= Datatypes.length (PyStr.split ":" data))%nat
  /\ id = nth 1 (PyStr.split ":" data) ""
  /\ number = nth 2 (PyStr.split ":" data) "".

(** Since [w0] the provider has given the answer [data], and no settlement
    was sent. *)
Definition unsettled_since (w0 : world) (data : string) (w : world) : Prop :=
  exists t, trace w = (trace w0 ++ t)%list
            /\ In (EvRequest number_request (Text data)) t
            /\ forallb quiet t = true.

(** The lease [l], granted by [data] since [w0], is stored and unsettled. *)
Definition held (w0 : world) (data : string) (l : option string * option string)
    (w : world) : Prop :=
  lease w = l /\ unsettled_since w0 data w.

(** Since [w0] the lease is as it was, and no settlement was sent. *)
Definition calm (w0 w : world) : Prop :=
  lease w = lease w0
  /\ exists t, trace w = (trace w0 ++ t)%list /\ forallb quiet t = true.

Module Scenario.

Definition no_failure : nat -> action -> option exn := fun _ _ => None.

Definition environment (p : nat -> params -> reply)
    (b : nat -> action -> option exn) (r : nat -> Z)
    (users : Z -> lookup) (count : Z) : env :=
  mkEnv p b r count users (fun _ => None) (1100, 850) "chrome".

(** Only the provider matters. *)
Definition provider_only (p : nat -> params -> reply) : env :=
  environment p no_failure (fun _ => 0) (fun _ => UserMissing) 0.

(** A client holding the lease of the specification's example. *)
Definition leased : world :=
  set_current_number (Some "611234567")
    (set_current_activation_id (Some "42") initial_world).

(** Two refusals, then a number. *)
Definition scarce (n : nat) (p : params) : reply :=
  if (n <? 2)%nat then Text "NO_NUMBERS" else Text "ACCESS_NUMBER:42:611234567".

Definition always (r : reply) (n : nat) (p : params) : reply := r.

(** One "not yet", then the network goes down. *)
Definition wait_then_fail (n : nat) (p : params) : reply :=
  match n with O => Text "STATUS_WAIT_CODE" | S _ => RequestFails end.

(** The page after the password step asks for a phone number: the day field
    is not there. *)
Definition phone_page (n : nat) (a : action) : option exn :=
  match a with
  | Until ACC_DAY _ _ => Some TimeoutException
  | FindElement ACC_DAY => Some NoSuchElementException
  | _ => None
  end.


Definition jane : user_data := mkUser "Jane" "Doe" "Abc123!@" "3/14/1990" "".

Definition jane_taken : user_data :=
  mkUser "Jane" "Doe" "Abc123!@" "3/14/1990" "taken.name".





(** The browser cannot be started. *)
Definition no_browser (n : nat) (a : action) : option exn :=
  match a with
  | InitDriver => Some WebDriverException
  | _ => None
  end.

Definition browser_down : env :=
  environment (always RequestFails) no_browser (fun _ => 0)
              (fun _ => UserFound jane) 1.

(** A signup that meets the phone challenge. *)
Definition phone_signup (n : nat) (a : action) : option exn :=
  match a with
  | Until ACC_DAY 3 _ => Some TimeoutException
  | FindElement ACC_DAY => Some NoSuchElementException
  | Until USERNAME_WARNING _ _ => Some TimeoutException
  | FindElement USERNAME_WARNING => Some NoSuchElementException
  | _ => None
  end.

(** The same, but the field for the code never shows. *)
Definition no_code_field (n : nat) (a : action) : option exn :=
  match a with
  | Until CODE _ _ => Some TimeoutException
  | FindElement CODE => Some NoSuchElementException
  | _ => phone_signup n a
  end.

(** A provider that leases a number and delivers the code at once; it
    acknowledges the settlement of the lease, or not. *)
Definition prompt_provider (acknowledging : bool) (n : nat) (p : params) : reply :=
  match p with
  | getNumber _ _ _ => Text "ACCESS_NUMBER:42:611234567"
  | getStatus _ _ => Text "STATUS_OK:998877"
  | setStatus _ _ status =>
      if acknowledging then
        if status =? 6 then Text "ACCESS_ACTIVATION_SUCCESS" else Text "ACCESS_CANCEL"
      else Text "BAD_STATUS"
  | getBalance _ => Text "ACCESS_BALANCE:10.50"
  end.



Definition code_field_missing : env :=
  environment (prompt_provider true) no_code_field (fun _ => 0)
              (fun _ => UserFound jane) 1.

(** A provider whose answer grants a number under an empty activation
    id. *)
Definition nameless_provider (n : nat) (p : params) : reply :=
  match p with
  | getNumber _ _ _ => Text "ACCESS_NUMBER::611234567"
  | _ => Text "BAD_STATUS"
  end.

Definition nameless_lease : env :=
  environment nameless_provider phone_signup (fun _ => 0)
              (fun _ => UserFound jane) 1.

(** Three "not yet", then the code. *)
Definition code_after_three (n : nat) (p : params) : reply :=
  if (n <? 3)%nat then Text "STATUS_WAIT_CODE" else Text "STATUS_OK:998877".

(** The random generator counts: its n-th value is n. *)
Definition counting : env :=
  environment (always RequestFails) no_failure Z.of_nat (fun _ => UserFound jane) 1.

(** A manager that has loaded two rows, the second one short, and one that
    generates its users from one first name and one last name. *)
Definition roster : Users.manager :=
  Users.mkManager false 2 [] []
    [["Jane"; "Doe"; "Abc123!@"; "3/14/1990"]; ["John"; "Roe"]].

Definition generator : Users.manager :=
  Users.mkManager true 1 [["Jane"]] [["Doe"]] [].

(** A proxy service that has nothing to give. *)
Definition no_proxies : ProxyManager.net :=
  ProxyManager.mkNet (fun _ => ProxyManager.Fetched None)
                     (fun _ _ => ProxyManager.ProbeRaises RequestException).

(** The first "Next" button is never clickable in time, but it is on the
    page. *)
Definition slow_button (n : nat) (a : action) : option exn :=
  match a with
  | Until NEXT_BUTTONS_1 _ _ => Some TimeoutException
  | _ => None
  end.

Definition slow_page : env :=
  environment (always RequestFails) slow_button (fun _ => 0)
              (fun _ => UserFound jane) 1.

(** A browser that is running. *)
Definition browsing : world := set_driver true initial_world.

(** A user whose birthday has no day and no year. *)
Definition undated : user_data := mkUser "Jane" "Doe" "Abc123!@" "1990" "".

(** The username is always refused, and the username field is gone when
    the step tries again (from the tenth Selenium call on). *)
Definition field_vanishes (n : nat) (a : action) : option exn :=
  match a with
  | Until USERNAME _ _ => if (n <? 10)%nat then None else Some TimeoutException
  | FindElement USERNAME => Some NoSuchElementException
  | _ => None
  end.

Definition vanishing_page : env :=
  environment (always RequestFails) field_vanishes (fun _ => 0)
              (fun _ => UserFound jane_taken) 1.

(** A signup page that never shows the phone field. *)
Definition no_phone_field (n : nat) (a : action) : option exn :=
  match a with
  | Until PHONE_NUMBER _ _ => Some TimeoutException
  | FindElement PHONE_NUMBER => Some NoSuchElementException
  | Until USERNAME_WARNING _ _ => Some TimeoutException
  | FindElement USERNAME_WARNING => Some NoSuchElementException
  | _ => None
  end.

Definition unchallenged : env :=
  environment (prompt_provider true) no_phone_field (fun _ => 0)
              (fun _ => UserFound jane) 1.

End Scenario.

(** * Properties *)

(** A pause that is not negative is a pause. *)
Lemma sleep_emit (seconds : Q) : (0 <= seconds)%Q -> sleep seconds = emit (EvSleep seconds).
Proof.
  intros H. unfold sleep. apply Qle_bool_iff in H. rewrite H. reflexivity.
Qed.

(** ** The provider client *)

Module PhoneFacts.

Import PhoneVerificationManager.

(** [k] answers "NO_NUMBERS" take the loop through [k] rounds: [k] more
    requests, each followed by the two fixed sleeps, and nothing else
    changes in the client. *)
Lemma no_numbers_rounds (E : env) (max_attempts : Z) (k : nat) :
  forall (fuel : nat) (attempt : Z) (w : world),
    attempt + Z.of_nat k <= max_attempts ->
    (forall i, (i < k)%nat ->
               provider E (http_calls w + i) number_request = Text "NO_NUMBERS") ->
    exists w',
      get_phone_number_loop (k + fuel) max_attempts attempt E w
      = get_phone_number_loop fuel max_attempts (attempt + Z.of_nat k) E w'
      /\ http_calls w' = (http_calls w + k)%nat
      /\ trace w' = (trace w ++ List.concat (repeat no_numbers_round k))%list
      /\ current_activation_id w' = current_activation_id w
      /\ current_number w' = current_number w.
Proof.
  induction k as [|k IH]; intros fuel attempt w Hle Hrep.
  - exists w. rewrite Z.add_0_r, Nat.add_0_r, app_nil_r. auto.
  - assert (Hlt : (attempt <? max_attempts) = true) by (apply Z.ltb_lt; lia).
    assert (H0 : provider E (http_calls w) number_request = Text "NO_NUMBERS").
    { rewrite <- (Nat.add_0_r (http_calls w)). apply Hrep. lia. }
    cbn [Nat.add get_phone_number_loop]. rewrite Hlt.
    unfold bind at 1. cbn [logger modify].
    unfold bind at 1. unfold try_except at 1. unfold bind at 1.
    unfold requests_get at 1. fold number_request.
    cbn [bind get ask modify emit set_log set_http_calls set_trace http_calls
         log trace ret ticks draws current_activation_id current_number driver
         current_index successful_accounts failed_accounts created_accounts].
    rewrite H0.
    cbn -[get_phone_number_loop Z.add Z.of_nat].
    match goal with
    | |- exists w', get_phone_number_loop _ _ _ _ ?w1 = _ /\ _ =>
        destruct (IH fuel (attempt + 1) w1) as (w' & Hrun & Hc & Ht & Hi & Hn)
    end.
    + lia.
    + intros i Hi. cbn. replace (S (http_calls w + i)) with (http_calls w + S i)%nat by lia.
      apply Hrep. lia.
    + exists w'. rewrite Hrun. cbn in Hc, Ht, Hi, Hn.
      repeat split.
      * f_equal. lia.
      * rewrite Hc. lia.
      * rewrite Ht. cbn [repeat List.concat no_numbers_round app].
        repeat rewrite <- app_assoc. reflexivity.
      * exact Hi.
      * exact Hn.
Qed.

(** The loop after [k] refused requests, in the form the claim uses. *)
Lemma get_phone_number_after (E : env) (w : world) (max_attempts : Z) (k : nat) :
  Z.of_nat k <= max_attempts ->
  (forall i, (i < k)%nat ->
             provider E (http_calls w + i) number_request = Text "NO_NUMBERS") ->
  exists w',
    get_phone_number (Some max_attempts) E w
    = get_phone_number_loop (S (Z.to_nat max_attempts - k)) max_attempts
                            (Z.of_nat k) E w'
    /\ http_calls w' = (http_calls w + k)%nat
    /\ trace w' = (trace w ++ List.concat (repeat no_numbers_round k))%list
    /\ current_activation_id w' = current_activation_id w
    /\ current_number w' = current_number w.
Proof.
  intros Hk Hrep.
  unfold get_phone_number. unfold bind at 1. cbn [logger modify].
  match goal with
  | |- exists w', get_phone_number_loop _ _ _ _ ?w1 = _ /\ _ =>
      destruct (no_numbers_rounds E max_attempts k
                  (S (Z.to_nat max_attempts - k)) 0 w1) as (w' & Hrun & H)
  end.
  - lia.
  - exact Hrep.
  - exists w'. split; [|exact H].
    replace (S (Z.to_nat max_attempts)) with (k + S (Z.to_nat max_attempts - k))%nat
      by lia.
    exact Hrun.
Qed.

(** C2. [get_phone_number] after [k] answers "NO_NUMBERS", each followed by
    the fixed sleeps of 2 and 3 seconds: if the budget [max_attempts] is
    used up it fails with [(False, None)] having made exactly [max_attempts]
    requests; if the next answer is "NO_BALANCE" or "BAD_KEY" it fails at
    once with that request as its last (one request in all when [k] is 0);
    if the next answer is "ACCESS_NUMBER:42:611234567" it succeeds on request
    [k+1] with phone "+611234567", storing activation id "42". *)
Theorem lease_number_protocol (E : env) (w : world) (max_attempts : Z) (k : nat) :
  Z.of_nat k <= max_attempts ->
  (forall i, (i < k)%nat ->
             provider E (http_calls w + i) number_request = Text "NO_NUMBERS") ->
  let run := get_phone_number (Some max_attempts) E w in
  let answer := provider E (http_calls w + k) number_request in
  let waited := (trace w ++ List.concat (repeat no_numbers_round k))%list in
  (Z.of_nat k = max_attempts ->
     fst run = Ret (false, None)
     /\ http_calls (snd run) = (http_calls w + k)%nat
     /\ trace (snd run) = waited)
  /\ (Z.of_nat k < max_attempts ->
      answer = Text "NO_BALANCE" \/ answer = Text "BAD_KEY" ->
      (exists reason, fst run = Ret (false, Some reason))
      /\ http_calls (snd run) = (http_calls w + k + 1)%nat
      /\ trace (snd run) = (waited ++ [EvRequest number_request answer])%list)
  /\ (Z.of_nat k < max_attempts ->
      answer = Text "ACCESS_NUMBER:42:611234567" ->
      fst run = Ret (true, Some "+611234567")
      /\ current_activation_id (snd run) = Some "42"
      /\ current_number (snd run) = Some "611234567"
      /\ http_calls (snd run) = (http_calls w + k + 1)%nat
      /\ trace (snd run) = (waited ++ [EvRequest number_request answer])%list).
Proof.
  intros Hk Hrep run answer waited.
  destruct (get_phone_number_after E w max_attempts k Hk Hrep)
    as (w' & Hrun & Hc & Ht & Hi & Hn).
  subst run answer waited. rewrite Hrun. rewrite <- Hc, <- Ht.
  clear Hrun Hrep Hc Ht Hi Hn.
  destruct (get_phone_number_loop (S (Z.to_nat max_attempts - k)) max_attempts
                                  (Z.of_nat k) E w') as [r w''] eqn:Hloop.
  cbn [get_phone_number_loop] in Hloop.
  split; [|split]; intros Hlt.
  - replace (Z.of_nat k <? max_attempts) with false in Hloop
      by (symmetry; apply Z.ltb_ge; lia).
    cbn in Hloop. inversion Hloop; subst; clear Hloop. cbn. auto.
  - intros Hans.
    replace (Z.of_nat k <? max_attempts) with true in Hloop
      by (symmetry; apply Z.ltb_lt; lia).
    unfold bind, try_except, requests_get in Hloop. fold number_request in Hloop.
    cbn [bind get ask modify emit logger set_log set_http_calls set_trace http_calls
         log trace ret ticks draws current_activation_id current_number driver
         current_index successful_accounts failed_accounts created_accounts]
      in Hloop.
    destruct Hans as [Hans|Hans]; rewrite Hans in *; cbn in Hloop;
      inversion Hloop; subst; clear Hloop; cbn;
      (split; [eexists; reflexivity | split; [lia | reflexivity]]).
  - intros Hans.
    replace (Z.of_nat k <? max_attempts) with true in Hloop
      by (symmetry; apply Z.ltb_lt; lia).
    unfold bind, try_except, requests_get in Hloop. fold number_request in Hloop.
    cbn [bind get ask modify emit logger set_log set_http_calls set_trace http_calls
         log trace ret ticks draws current_activation_id current_number driver
         current_index successful_accounts failed_accounts created_accounts]
      in Hloop.
    rewrite Hans in *; cbn in Hloop.
    inversion Hloop; subst; clear Hloop; cbn.
    repeat split; try reflexivity. lia.
Qed.

Lemma lease_number_protocol_witness :
  let run := get_phone_number (Some 10) (Scenario.provider_only Scenario.scarce)
                              initial_world in
  fst run = Ret (true, Some "+611234567")
  /\ current_activation_id (snd run) = Some "42"
  /\ http_calls (snd run) = 3%nat.
Proof.
  destruct (lease_number_protocol (Scenario.provider_only Scenario.scarce)
              initial_world 10 2) as (_ & _ & H).
  - lia.
  - intros i Hi. destruct i as [|[|i]]; [reflexivity|reflexivity|lia].
  - destruct H as (H1 & H2 & _ & H4 & _); [lia|reflexivity|]. auto.
Defined.

(** *** Polling for the code *)

(** One iteration of the polling loop on a text answer. *)
Ltac poll_once :=
  unfold bind at 1; cbn [logger modify];
  unfold bind at 1; unfold try_except at 1; unfold bind at 1;
  unfold requests_get at 1;
  cbn [bind get ask modify emit set_log set_http_calls set_trace http_calls
       log trace ret ticks draws current_activation_id current_number driver
       current_index successful_accounts failed_accounts created_accounts].



(** [n] answers "STATUS_WAIT_CODE" take the loop through [n] rounds without
    using up any attempt. *)
Lemma waiting_rounds (E : env) (id : string) (max_attempts : Z)
    (polling_interval : Q) (n : nat) :
  (0 <= polling_interval)%Q ->
  0 < max_attempts ->
  forall (fuel : nat) (data : option string) (w : world),
    (forall i, (i < n)%nat ->
               provider E (http_calls w + i) (status_request id)
               = Text "STATUS_WAIT_CODE") ->
    exists data' w',
      get_verification_code_loop (n + fuel) id max_attempts polling_interval 0 data E w
      = get_verification_code_loop fuel id max_attempts polling_interval 0 data' E w'
      /\ http_calls w' = (http_calls w + n)%nat
      /\ lease w' = lease w.
Proof.
  intros Hpos Hmax.
  induction n as [|n IH]; intros fuel data w Hwait.
  - exists data, w. rewrite Nat.add_0_r. auto.
  - assert (H0 : provider E (http_calls w) (status_request id) = Text "STATUS_WAIT_CODE").
    { rewrite <- (Nat.add_0_r (http_calls w)). apply Hwait. lia. }
    cbn [Nat.add get_verification_code_loop].
    rewrite (sleep_emit polling_interval Hpos).
    replace (0 <? max_attempts) with true by (symmetry; apply Z.ltb_lt; lia).
    poll_once. fold (status_request id). rewrite H0.
    cbn -[get_verification_code_loop].
    match goal with
    | |- exists data' w', get_verification_code_loop _ _ _ _ _ ?d _ ?w1 = _ /\ _ =>
        destruct (IH fuel d w1) as (data' & w' & Hrun & Hc & Hl)
    end.
    + intros i Hi. cbn.
      replace (S (http_calls w + i)) with (http_calls w + S i)%nat by lia.
      apply Hwait. lia.
    + exists data', w'. rewrite Hrun. cbn in Hc. split; [reflexivity|].
      split; [lia|exact Hl].
Qed.

(** X3.  After any number of "STATUS_WAIT_CODE" answers, "STATUS_OK:998877"
    ends the wait with the code 998877 and "STATUS_CANCEL" ends it with a
    failure, on that very poll, whatever the budget of attempts (at least
    one). *)
Theorem code_after_waiting (E : env) (w : world) (id : string)
    (max_attempts : Z) (n fuel : nat) :
  current_activation_id w = Some id ->
  PyStr.truthy id = true ->
  1 <= max_attempts ->
  (n < fuel)%nat ->
  (forall i, (i < n)%nat ->
             provider E (http_calls w + i) (status_request id)
             = Text "STATUS_WAIT_CODE") ->
  let run := get_verification_code fuel (Some max_attempts) 5 E w in
  let answer := provider E (http_calls w + n) (status_request id) in
  (answer = Text "STATUS_OK:998877" ->
   fst run = Ret (true, Some "998877")
   /\ http_calls (snd run) = (http_calls w + n + 1)%nat)
  /\ (answer = Text "STATUS_CANCEL" ->
      fst run = Ret (false, Some "Activation cancelled")
      /\ http_calls (snd run) = (http_calls w + n + 1)%nat).
Proof.
  intros Hid Htruthy Hmax Hfuel Hwait run answer. subst run answer.
  destruct (get_verification_code fuel (Some max_attempts) 5 E w) as [r wf] eqn:Hrun.
  cbn [fst snd].
  unfold get_verification_code in Hrun. unfold bind at 1 in Hrun. cbn [get] in Hrun.
  rewrite Hid in Hrun. cbn [PyStr.truthy_opt] in Hrun. rewrite Htruthy in Hrun.
  cbn [negb] in Hrun.
  unfold bind at 1 in Hrun. cbn [logger modify] in Hrun.
  replace fuel with (n + S (fuel - n - 1))%nat in Hrun by lia.
  match type of Hrun with
  | context [get_verification_code_loop _ _ _ _ _ ?d _ ?w1] =>
      destruct (waiting_rounds E id max_attempts 5 n ltac:(discriminate) ltac:(lia)
                  (S (fuel - n - 1)) d w1)
        as (data' & w' & Hw & Hc & _); [exact Hwait|]
  end.
  rewrite Hw in Hrun. cbn [http_calls set_log] in Hc. rewrite <- Hc.
  clear Hw Hwait Hc.
  cbn [get_verification_code_loop] in Hrun.
  replace (0 <? max_attempts) with true in Hrun by (symmetry; apply Z.ltb_lt; lia).
  unfold bind, try_except, requests_get in Hrun. fold (status_request id) in Hrun.
  cbn [bind get ask modify emit logger set_log set_http_calls set_trace http_calls
       log trace ret ticks draws current_activation_id current_number driver
       current_index successful_accounts failed_accounts created_accounts] in Hrun.
  split; intros Hans; rewrite Hans in Hrun; cbn in Hrun;
    inversion Hrun; subst; cbn; (split; [reflexivity|lia]).
Qed.

Lemma code_after_waiting_witness :
  fst (get_verification_code 20 (Some 1) 5
         (Scenario.provider_only Scenario.code_after_three) Scenario.leased)
  = Ret (true, Some "998877").
Proof.
  destruct (code_after_waiting (Scenario.provider_only Scenario.code_after_three)
              Scenario.leased "42" 1 3 20) as ((H & _) & _).
  - reflexivity.
  - reflexivity.
  - lia.
  - lia.
  - intros i Hi. destruct i as [|[|[|i]]]; [reflexivity|reflexivity|reflexivity|lia].
  - reflexivity.
  - exact H.
Defined.

(** [get_phone_number] always returns a pair, never raises, and makes at
    most [max_attempts] requests, whatever the provider does. *)
Lemma get_phone_number_loop_returns (E : env) (max_attempts : Z) :
  forall (fuel : nat) (attempt : Z) (w : world),
    (Z.to_nat (max_attempts - attempt) < fuel)%nat ->
    exists r w',
      get_phone_number_loop fuel max_attempts attempt E w = (Ret r, w')
      /\ (http_calls w' <= http_calls w + Z.to_nat (max_attempts - attempt))%nat.
Proof.
  induction fuel as [|fuel IH]; intros attempt w Hfuel; [lia|].
  cbn [get_phone_number_loop].
  destruct (attempt <? max_attempts) eqn:Hlt.
  2:{ cbn. eexists. eexists. split; [reflexivity|]. cbn. lia. }
  apply Z.ltb_lt in Hlt.
  assert (Hnext : forall w1,
             http_calls w1 = S (http_calls w) ->
             exists r w',
               get_phone_number_loop fuel max_attempts (attempt + 1) E w1 = (Ret r, w')
               /\ (http_calls w' <= http_calls w
                                    + Z.to_nat (max_attempts - attempt))%nat).
  { intros w1 Hc. destruct (IH (attempt + 1) w1) as (r & w' & Hrun & Hcalls); [lia|].
    exists r, w'. split; [exact Hrun|]. lia. }
  unfold bind at 1. cbn [logger modify].
  unfold bind at 1. unfold try_except at 1. unfold bind at 1.
  unfold requests_get at 1.
  cbn [bind get ask modify emit set_log set_http_calls set_trace http_calls
       log trace ret ticks draws current_activation_id current_number driver
       current_index successful_accounts failed_accounts created_accounts].
  destruct (provider E (http_calls w) _) as [data|].
  - cbn -[PyStr.contains PyStr.split Nat.leb Z.add get_phone_number_loop].
    destruct (PyStr.contains "ACCESS_NUMBER" data).
    + destruct (3 <=? Datatypes.length (PyStr.split ":" data))%nat.
      * cbn. eexists. eexists. split; [reflexivity|]. cbn. lia.
      * cbn -[get_phone_number_loop Z.add]. apply Hnext. reflexivity.
    + destruct (PyStr.contains "NO_NUMBERS" data).
      * cbn -[get_phone_number_loop Z.add]. apply Hnext. reflexivity.
      * destruct (PyStr.contains "NO_BALANCE" data).
        -- cbn. eexists. eexists. split; [reflexivity|]. cbn. lia.
        -- destruct (PyStr.contains "BAD_KEY" data).
           ++ cbn. eexists. eexists. split; [reflexivity|]. cbn. lia.
           ++ cbn -[get_phone_number_loop Z.add]. apply Hnext. reflexivity.
  - cbn -[get_phone_number_loop Z.add]. apply Hnext. reflexivity.
Qed.

(** X2.  [get_phone_number] always returns, after at most
    [max_attempts] requests, whatever the provider answers. *)
Theorem get_phone_number_returns (E : env) (w : world) (max_attempts : Z) :
  exists r w',
    get_phone_number (Some max_attempts) E w = (Ret r, w')
    /\ (http_calls w' <= http_calls w + Z.to_nat max_attempts)%nat.
Proof.
  unfold get_phone_number. unfold bind at 1. cbn [logger modify].
  match goal with
  | |- exists r w', get_phone_number_loop _ _ _ _ ?w1 = _ /\ _ =>
      destruct (get_phone_number_loop_returns E max_attempts
                  (S (Z.to_nat max_attempts)) 0 w1) as (r & w' & Hrun & Hc)
  end.
  - rewrite Z.sub_0_r. lia.
  - exists r, w'. split; [exact Hrun|]. rewrite Z.sub_0_r in Hc. exact Hc.
Qed.




(** C10. With no activation id stored, the three operations on a lease
    answer at once and send the provider nothing:
    [get_verification_code] gives [(False, "No active phone number")],
    [cancel_current_activation] gives [True], [report_success] gives
    [False]. *)
Theorem no_lease_short_circuits (E : env) (w : world) (fuel : nat)
    (max_attempts : option Z) (polling_interval : Q) :
  current_activation_id w = None ->
  let code := get_verification_code fuel max_attempts polling_interval E w in
  let cancel := cancel_current_activation E w in
  let report := report_success E w in
  (fst code = Ret (false, Some "No active phone number")
   /\ http_calls (snd code) = http_calls w /\ trace (snd code) = trace w)
  /\ (fst cancel = Ret true
      /\ http_calls (snd cancel) = http_calls w /\ trace (snd cancel) = trace w)
  /\ (fst report = Ret false
      /\ http_calls (snd report) = http_calls w /\ trace (snd report) = trace w).
Proof.
  intros Hid code cancel report. subst code cancel report.
  unfold get_verification_code, cancel_current_activation, report_success.
  unfold bind, get. rewrite Hid. cbn. auto 10.
Qed.

Lemma no_lease_short_circuits_witness :
  fst (get_verification_code 0 None 5 (Scenario.provider_only Scenario.scarce)
         initial_world)
  = Ret (false, Some "No active phone number")
  /\ fst (cancel_current_activation (Scenario.provider_only Scenario.scarce)
            initial_world) = Ret true
  /\ fst (report_success (Scenario.provider_only Scenario.scarce) initial_world)
     = Ret false.
Proof.
  destruct (no_lease_short_circuits (Scenario.provider_only Scenario.scarce)
              initial_world 0 None 5 eq_refl) as ((H1 & _) & (H2 & _) & (H3 & _)).
  auto.
Defined.

(** C3 fails on the code for request failures.  With a budget of one
    attempt: an unexpected text answer uses up the attempt, and the method
    returns [(False, None)] after one poll; but a request that fails on the
    first poll makes it raise [UnboundLocalError] (its local [data] was
    never bound); and after one "STATUS_WAIT_CODE", failed requests use up
    no attempt (the stale [data] still says waiting), so that twelve polls
    later the loop is still running. *)
Theorem request_failure_not_counted :
  (let run := get_verification_code 3 (Some 1) 5
                (Scenario.provider_only (Scenario.always (Text "ERROR_SQL")))
                Scenario.leased in
   fst run = Ret (false, None) /\ http_calls (snd run) = 1%nat)
  /\ fst (get_verification_code 3 (Some 1) 5
            (Scenario.provider_only (Scenario.always RequestFails)) Scenario.leased)
     = Raise UnboundLocalError
  /\ (let run := get_verification_code 12 (Some 1) 5
                   (Scenario.provider_only Scenario.wait_then_fail) Scenario.leased in
      fst run = OutOfFuel /\ http_calls (snd run) = 12%nat).
Proof.
  cbv zeta. split; [split|split; [|split]]; vm_compute; reflexivity.
Qed.

(** C8 fails on the code for [check_balance]: the answer "ACCESS_BALANCE"
    with no amount makes [data.split(':')[1]] raise [IndexError], which the
    handler for [RequestException] and [ValueError] lets through.  The two
    other parsers check the number of parts: on "ACCESS_NUMBER" and on
    "STATUS_OK" alone they go on to the next attempt and end with
    [(False, None)]. *)
Theorem check_balance_missing_amount_raises :
  fst (check_balance (Scenario.provider_only (Scenario.always (Text "ACCESS_BALANCE")))
         initial_world)
  = Raise IndexError
  /\ fst (get_phone_number (Some 3)
            (Scenario.provider_only (Scenario.always (Text "ACCESS_NUMBER")))
            initial_world)
     = Ret (false, None)
  /\ fst (get_verification_code 5 (Some 3) 5
            (Scenario.provider_only (Scenario.always (Text "STATUS_OK")))
            Scenario.leased)
     = Ret (false, None).
Proof.
  split; [reflexivity|]. split; vm_compute; reflexivity.
Qed.

End PhoneFacts.

(** ** Framing: what a computation leaves alone *)

Create HintDb frame.

Section Frame.

Context {X : Type} (view : world -> X).

Lemma keeps_ret {A} (a : A) : keeps view (ret a).
Proof. intros E w. reflexivity. Qed.

Lemma keeps_raise {A} (e : exn) : keeps view (@raise A e).
Proof. intros E w. reflexivity. Qed.

Lemma keeps_out_of_fuel {A} : keeps view (@out_of_fuel A).
Proof. intros E w. reflexivity. Qed.

Lemma keeps_get {A} (f : world -> A) : keeps view (get f).
Proof. intros E w. reflexivity. Qed.

Lemma keeps_ask {A} (f : env -> A) : keeps view (ask f).
Proof. intros E w. reflexivity. Qed.

Lemma keeps_modify (f : world -> world) :
  (forall w, view (f w) = view w) -> keeps view (modify f).
Proof. intros Hf E w. apply Hf. Qed.

Lemma keeps_bind {A B} (m : M A) (k : A -> M B) :
  keeps view m -> (forall a, keeps view (k a)) -> keeps view (bind m k).
Proof.
  intros Hm Hk E w. unfold bind.
  specialize (Hm E w).
  destruct (m E w) as [[a|e|] w1]; cbn in *; [|assumption|assumption].
  rewrite Hk. exact Hm.
Qed.

Lemma keeps_try_except {A} (m : M A) (class : exn -> bool) (h : exn -> M A) :
  keeps view m -> (forall e, keeps view (h e)) -> keeps view (try_except m class h).
Proof.
  intros Hm Hh E w. unfold try_except.
  specialize (Hm E w).
  destruct (m E w) as [[a|e|] w1]; cbn in *; [assumption| |assumption].
  destruct (class e); [|assumption].
  rewrite Hh. exact Hm.
Qed.

Hypothesis view_log : forall v w, view (set_log v w) = view w.
Hypothesis view_trace : forall v w, view (set_trace v w) = view w.
Hypothesis view_ticks : forall v w, view (set_ticks v w) = view w.
Hypothesis view_draws : forall v w, view (set_draws v w) = view w.
Hypothesis view_http : forall v w, view (set_http_calls v w) = view w.
Hypothesis view_driver : forall v w, view (set_driver v w) = view w.
Hypothesis view_created : forall v w, view (set_created_accounts v w) = view w.
Hypothesis view_id : forall v w, view (set_current_activation_id v w) = view w.
Hypothesis view_number : forall v w, view (set_current_number v w) = view w.

Ltac frame_step :=
  first
    [ apply keeps_ret | apply keeps_raise | apply keeps_out_of_fuel
    | apply keeps_get | apply keeps_ask
    | apply keeps_modify; intros; solve [auto]
    | assumption
    | solve [auto with nocore frame]
    | apply keeps_bind; [|intros ?]
    | apply keeps_try_except; [|intros ?]
    | match goal with
      | |- keeps _ (match ?x with _ => _ end) => destruct x
      end ].

Ltac frame := repeat frame_step.

Lemma keeps_logger l msg : keeps view (logger l msg).
Proof. unfold logger. frame. Qed.

Lemma keeps_emit ev : keeps view (emit ev).
Proof. unfold emit. frame. Qed.

Lemma keeps_sleep s : keeps view (sleep s).
Proof.
  unfold sleep. destruct (Qle_bool 0 s); [apply keeps_emit|apply keeps_raise].
Qed.

Local Hint Resolve keeps_logger keeps_emit keeps_sleep : frame.

Lemma keeps_next_entropy : keeps view next_entropy.
Proof. unfold next_entropy. frame. Qed.

Local Hint Resolve keeps_next_entropy : frame.

Lemma keeps_random_uniform a b : keeps view (random_uniform a b).
Proof. unfold random_uniform, random_random. frame. Qed.

Lemma keeps_random_randint a b : keeps view (random_randint a b).
Proof. unfold random_randint. frame. Qed.

Lemma keeps_random_choice {A} (l : list A) : keeps view (random_choice l).
Proof. unfold random_choice. frame. Qed.

Local Hint Resolve keeps_random_uniform keeps_random_randint keeps_random_choice : frame.

(** *** browser_manager.py *)

Import BrowserManager.

Lemma keeps_selenium a : keeps view (selenium a).
Proof. unfold selenium. frame. Qed.

Local Hint Resolve keeps_selenium : frame.

Lemma keeps__apply_anti_detection : keeps view _apply_anti_detection.
Proof. unfold _apply_anti_detection. frame. Qed.

Local Hint Resolve keeps__apply_anti_detection : frame.

Lemma keeps_initialize_driver : keeps view initialize_driver.
Proof.
  unfold initialize_driver, _setup_chrome_options, _setup_firefox_options.
  frame.
Qed.

Lemma keeps_human_like_delay a b : keeps view (human_like_delay a b).
Proof. unfold human_like_delay. frame. Qed.

Lemma keeps_human_like_delay0 : keeps view human_like_delay0.
Proof. apply keeps_human_like_delay. Qed.

Lemma keeps_human_like_typing el text : keeps view (human_like_typing el text).
Proof. induction text as [|c text IH]; cbn [human_like_typing]; frame. Qed.

Lemma keeps_take_screenshot name : keeps view (take_screenshot name).
Proof. unfold take_screenshot. frame. Qed.

Lemma keeps_mouse_movement_loop n width height :
  keeps view (mouse_movement_loop n width height).
Proof. induction n as [|n IH]; cbn [mouse_movement_loop]; frame. Qed.

Local Hint Resolve keeps_initialize_driver keeps_human_like_delay
  keeps_human_like_delay0 keeps_human_like_typing keeps_take_screenshot
  keeps_mouse_movement_loop : frame.

Lemma keeps_mouse_movement_simulation : keeps view mouse_movement_simulation.
Proof. unfold mouse_movement_simulation. frame. Qed.

Lemma keeps_wait_for_element s t c : keeps view (wait_for_element s t c).
Proof. unfold wait_for_element. frame. Qed.

Lemma keeps_close : keeps view close.
Proof. unfold close. frame. Qed.

Local Hint Resolve keeps_mouse_movement_simulation keeps_wait_for_element
  keeps_close : frame.

(** *** user_manager.py *)

Lemma keeps_generate_username fuel first last existing :
  keeps view (UserManager.generate_username fuel first last existing).
Proof.
  induction fuel as [|fuel IH]; cbn [UserManager.generate_username]; frame.
Qed.

Lemma keeps_get_user_data index : keeps view (UserManager.get_user_data index).
Proof. unfold UserManager.get_user_data. frame. Qed.

Lemma keeps_save_created_account u p b n :
  keeps view (UserManager.save_created_account u p b n).
Proof. unfold UserManager.save_created_account. frame. Qed.

Local Hint Resolve keeps_generate_username keeps_get_user_data
  keeps_save_created_account : frame.

(** *** phone_verification.py *)

Import PhoneVerificationManager.

Lemma keeps_requests_get p : keeps view (requests_get p).
Proof. unfold requests_get. frame. Qed.

Local Hint Resolve keeps_requests_get : frame.

Lemma keeps_get_verification_code_loop fuel id max_attempts interval :
  forall attempt data,
    keeps view (get_verification_code_loop fuel id max_attempts interval attempt data).
Proof.
  induction fuel as [|fuel IH]; intros attempt data;
    cbn [get_verification_code_loop]; frame.
Qed.

Local Hint Resolve keeps_get_verification_code_loop : frame.

Lemma keeps_get_verification_code fuel max_attempts interval :
  keeps view (get_verification_code fuel max_attempts interval).
Proof. unfold get_verification_code. frame. Qed.

Lemma keeps_get_phone_number_loop fuel max_attempts :
  forall attempt, keeps view (get_phone_number_loop fuel max_attempts attempt).
Proof.
  induction fuel as [|fuel IH]; intros attempt; cbn [get_phone_number_loop]; frame.
Qed.

Local Hint Resolve keeps_get_phone_number_loop : frame.

Lemma keeps_get_phone_number max_attempts :
  keeps view (get_phone_number max_attempts).
Proof. unfold get_phone_number. frame. Qed.

Lemma keeps_cancel_current_activation : keeps view cancel_current_activation.
Proof. unfold cancel_current_activation. frame. Qed.

Lemma keeps_report_success : keeps view report_success.
Proof. unfold report_success. frame. Qed.

Local Hint Resolve keeps_get_verification_code keeps_get_phone_number
  keeps_cancel_current_activation keeps_report_success : frame.

(** *** account_creator.py *)

Import AccountCreator.

Lemma keeps__click_next_button_for l : keeps view (_click_next_button_for l).
Proof. induction l as [|s l IH]; cbn [_click_next_button_for]; frame. Qed.

Local Hint Resolve keeps__click_next_button_for : frame.

Lemma keeps__click_next_button : keeps view _click_next_button.
Proof. unfold _click_next_button. frame. Qed.

Lemma keeps_click_first_available l : keeps view (click_first_available l).
Proof. induction l as [|s l IH]; cbn [click_first_available]; frame. Qed.

Local Hint Resolve keeps__click_next_button keeps_click_first_available : frame.

Lemma keeps__navigate_to_account_creation : keeps view _navigate_to_account_creation.
Proof. unfold _navigate_to_account_creation. frame. Qed.

Lemma keeps__fill_first_step u : keeps view (_fill_first_step u).
Proof. unfold _fill_first_step. frame. Qed.

Lemma keeps__fill_second_step u : keeps view (_fill_second_step u).
Proof. unfold _fill_second_step. frame. Qed.

Lemma keeps_enter_username u : keeps view (enter_username u).
Proof. unfold enter_username. frame. Qed.

Local Hint Resolve keeps_enter_username : frame.

Lemma keeps__fill_username_step fuel : forall u, keeps view (_fill_username_step fuel u).
Proof.
  induction fuel as [|fuel IH]; intros u; cbn [_fill_username_step]; frame.
Qed.

Lemma keeps__fill_password_step u : keeps view (_fill_password_step u).
Proof. unfold _fill_password_step. frame. Qed.

Lemma keeps__requires_phone_verification : keeps view _requires_phone_verification.
Proof. unfold _requires_phone_verification. frame. Qed.

Lemma keeps_human_like_typing_opt el text : keeps view (human_like_typing_opt el text).
Proof. unfold human_like_typing_opt. frame. Qed.

Local Hint Resolve keeps_human_like_typing_opt : frame.

Lemma keeps__handle_phone_verification fuel :
  keeps view (_handle_phone_verification fuel).
Proof. unfold _handle_phone_verification. frame. Qed.

Lemma keeps__complete_final_steps : keeps view _complete_final_steps.
Proof. unfold _complete_final_steps. frame. Qed.

Local Hint Resolve keeps__navigate_to_account_creation keeps__fill_first_step
  keeps__fill_second_step keeps__fill_username_step keeps__fill_password_step
  keeps__requires_phone_verification keeps__handle_phone_verification
  keeps__complete_final_steps : frame.

Lemma keeps_account_steps fuel u : keeps view (account_steps fuel u).
Proof. unfold account_steps. frame. Qed.

Local Hint Resolve keeps_account_steps : frame.

Lemma keeps__create_single_account fuel u : keeps view (_create_single_account fuel u).
Proof. unfold _create_single_account. frame. Qed.

End Frame.

(** ** What a computation adds to the trace *)

Create HintDb emits.

Section Emits.

Variable class : event -> bool.

Lemma emits_ret {A} (a : A) : emits_only class (ret a).
Proof. intros E w. exists []. rewrite app_nil_r. auto. Qed.

Lemma emits_raise {A} (e : exn) : emits_only class (@raise A e).
Proof. intros E w. exists []. rewrite app_nil_r. auto. Qed.

Lemma emits_out_of_fuel {A} : emits_only class (@out_of_fuel A).
Proof. intros E w. exists []. rewrite app_nil_r. auto. Qed.

Lemma emits_get {A} (f : world -> A) : emits_only class (get f).
Proof. intros E w. exists []. rewrite app_nil_r. auto. Qed.

Lemma emits_ask {A} (f : env -> A) : emits_only class (ask f).
Proof. intros E w. exists []. rewrite app_nil_r. auto. Qed.

Lemma emits_modify (f : world -> world) :
  (forall w, trace (f w) = trace w) -> emits_only class (modify f).
Proof. intros Hf E w. exists []. rewrite app_nil_r. cbn. auto. Qed.

Lemma emits_emit (ev : event) : class ev = true -> emits_only class (emit ev).
Proof. intros Hev E w. exists [ev]. cbn. rewrite Hev. auto. Qed.

Lemma emits_bind {A B} (m : M A) (k : A -> M B) :
  emits_only class m -> (forall a, emits_only class (k a)) ->
  emits_only class (bind m k).
Proof.
  intros Hm Hk E w. unfold bind.
  destruct (Hm E w) as (t1 & Ht1 & Hc1).
  destruct (m E w) as [[a|e|] w1]; cbn [snd] in *; [|exists t1; auto|exists t1; auto].
  destruct (Hk a E w1) as (t2 & Ht2 & Hc2).
  exists (t1 ++ t2)%list. rewrite Ht2, Ht1, app_assoc, forallb_app, Hc1, Hc2. auto.
Qed.

Lemma emits_try_except {A} (m : M A) (c : exn -> bool) (h : exn -> M A) :
  emits_only class m -> (forall e, emits_only class (h e)) ->
  emits_only class (try_except m c h).
Proof.
  intros Hm Hh E w. unfold try_except.
  destruct (Hm E w) as (t1 & Ht1 & Hc1).
  destruct (m E w) as [[a|e|] w1]; cbn [snd] in *; [exists t1; auto| |exists t1; auto].
  destruct (c e); [|exists t1; auto].
  destruct (Hh e E w1) as (t2 & Ht2 & Hc2).
  exists (t1 ++ t2)%list. rewrite Ht2, Ht1, app_assoc, forallb_app, Hc1, Hc2. auto.
Qed.

Hypothesis class_sleep : forall d, class (EvSleep d) = true.
Hypothesis class_browser : forall a r, class (EvBrowser a r) = true.
Hypothesis class_write : forall line, class (EvWrite line) = true.
Hypothesis class_status :
  forall key id r, class (EvRequest (getStatus key id) r) = true.

Ltac emits_step :=
  first
    [ apply emits_ret | apply emits_raise | apply emits_out_of_fuel
    | apply emits_get | apply emits_ask
    | apply emits_modify; intros; reflexivity
    | apply emits_emit; solve [auto]
    | assumption
    | solve [auto with nocore emits]
    | apply emits_bind; [|intros ?]
    | apply emits_try_except; [|intros ?]
    | match goal with
      | |- emits_only _ (match ?x with _ => _ end) => destruct x
      end ].

Ltac emits := repeat emits_step.

Lemma emits_logger l msg : emits_only class (logger l msg).
Proof. unfold logger. emits. Qed.

Lemma emits_sleep s : emits_only class (sleep s).
Proof. unfold sleep. emits. Qed.

Local Hint Resolve emits_logger emits_sleep : emits.

Lemma emits_next_entropy : emits_only class next_entropy.
Proof. unfold next_entropy. emits. Qed.

Local Hint Resolve emits_next_entropy : emits.

Lemma emits_random_uniform a b : emits_only class (random_uniform a b).
Proof. unfold random_uniform, random_random. emits. Qed.

Lemma emits_random_randint a b : emits_only class (random_randint a b).
Proof. unfold random_randint. emits. Qed.

Local Hint Resolve emits_random_uniform emits_random_randint : emits.

(** *** browser_manager.py *)

Import BrowserManager.

Lemma emits_selenium a : emits_only class (selenium a).
Proof. unfold selenium. emits. Qed.

Local Hint Resolve emits_selenium : emits.

Lemma emits_human_like_delay a b : emits_only class (human_like_delay a b).
Proof. unfold human_like_delay. emits. Qed.

Lemma emits_human_like_delay0 : emits_only class human_like_delay0.
Proof. apply emits_human_like_delay. Qed.

Lemma emits_human_like_typing el text : emits_only class (human_like_typing el text).
Proof. induction text as [|c text IH]; cbn [human_like_typing]; emits. Qed.

Lemma emits_take_screenshot name : emits_only class (take_screenshot name).
Proof. unfold take_screenshot. emits. Qed.

Lemma emits_mouse_movement_loop n width height :
  emits_only class (mouse_movement_loop n width height).
Proof. induction n as [|n IH]; cbn [mouse_movement_loop]; emits. Qed.

Local Hint Resolve emits_human_like_delay emits_human_like_delay0
  emits_human_like_typing emits_take_screenshot emits_mouse_movement_loop : emits.

Lemma emits_mouse_movement_simulation : emits_only class mouse_movement_simulation.
Proof. unfold mouse_movement_simulation. emits. Qed.

Lemma emits_wait_for_element s t c : emits_only class (wait_for_element s t c).
Proof. unfold wait_for_element. emits. Qed.

Local Hint Resolve emits_mouse_movement_simulation emits_wait_for_element : emits.

(** *** user_manager.py *)

Lemma emits_generate_username fuel first last existing :
  emits_only class (UserManager.generate_username fuel first last existing).
Proof.
  induction fuel as [|fuel IH]; cbn [UserManager.generate_username]; emits.
Qed.

Lemma emits_save_created_account u p b n :
  emits_only class (UserManager.save_created_account u p b n).
Proof. unfold UserManager.save_created_account. emits. Qed.

Local Hint Resolve emits_generate_username emits_save_created_account : emits.

(** *** phone_verification.py *)

Import PhoneVerificationManager.

Lemma emits_requests_get p :
  (forall r, class (EvRequest p r) = true) -> emits_only class (requests_get p).
Proof. intros Hp. unfold requests_get. emits. Qed.

Lemma emits_get_verification_code_loop fuel id max_attempts interval :
  forall attempt data,
    emits_only class
      (get_verification_code_loop fuel id max_attempts interval attempt data).
Proof.
  induction fuel as [|fuel IH]; intros attempt data;
    cbn [get_verification_code_loop]; emits;
    apply emits_requests_get; intros; apply class_status.
Qed.

Local Hint Resolve emits_get_verification_code_loop : emits.

Lemma emits_get_verification_code fuel max_attempts interval :
  emits_only class (get_verification_code fuel max_attempts interval).
Proof. unfold get_verification_code. emits. Qed.

(** *** account_creator.py *)

Import AccountCreator.

Lemma emits__click_next_button_for l : emits_only class (_click_next_button_for l).
Proof. induction l as [|s l IH]; cbn [_click_next_button_for]; emits. Qed.

Local Hint Resolve emits__click_next_button_for : emits.

Lemma emits__click_next_button : emits_only class _click_next_button.
Proof. unfold _click_next_button. emits. Qed.

Lemma emits_click_first_available l : emits_only class (click_first_available l).
Proof. induction l as [|s l IH]; cbn [click_first_available]; emits. Qed.

Local Hint Resolve emits__click_next_button emits_click_first_available : emits.

Lemma emits__navigate_to_account_creation :
  emits_only class _navigate_to_account_creation.
Proof. unfold _navigate_to_account_creation. emits. Qed.

Lemma emits__fill_first_step u : emits_only class (_fill_first_step u).
Proof. unfold _fill_first_step. emits. Qed.

Lemma emits__fill_second_step u : emits_only class (_fill_second_step u).
Proof. unfold _fill_second_step. emits. Qed.

Lemma emits_enter_username u : emits_only class (enter_username u).
Proof. unfold enter_username. emits. Qed.

Local Hint Resolve emits_enter_username : emits.

Lemma emits__fill_username_step fuel :
  forall u, emits_only class (_fill_username_step fuel u).
Proof.
  induction fuel as [|fuel IH]; intros u; cbn [_fill_username_step]; emits.
Qed.

Lemma emits__fill_password_step u : emits_only class (_fill_password_step u).
Proof. unfold _fill_password_step. emits. Qed.

Lemma emits__requires_phone_verification :
  emits_only class _requires_phone_verification.
Proof. unfold _requires_phone_verification. emits. Qed.

Lemma emits_human_like_typing_opt el text :
  emits_only class (human_like_typing_opt el text).
Proof. unfold human_like_typing_opt. emits. Qed.

Lemma emits__complete_final_steps : emits_only class _complete_final_steps.
Proof. unfold _complete_final_steps. emits. Qed.

End Emits.

(** ** Reading a run backwards *)

Lemma bind_Ret_inv {A B} (m : M A) (k : A -> M B) (E : env) (w w' : world) (b : B) :
  bind m k E w = (Ret b, w') ->
  exists a w1, m E w = (Ret a, w1) /\ k a E w1 = (Ret b, w').
Proof.
  unfold bind. destruct (m E w) as [[a|e|] w1]; intros H; try discriminate.
  exists a, w1. auto.
Qed.


(** The step of a run that raised. *)
Lemma bind_Raise_inv {A B} (m : M A) (k : A -> M B) (E : env) (w w' : world) (e : exn) :
  bind m k E w = (Raise e, w') ->
  (fst (m E w) = Raise e /\ snd (m E w) = w')
  \/ exists a w1, m E w = (Ret a, w1) /\ k a E w1 = (Raise e, w').
Proof.
  unfold bind. destruct (m E w) as [[a|e0|] w1]; intros H; try discriminate.
  - right. exists a, w1. auto.
  - left. inversion H; subst. auto.
Qed.



(** ** Randomness *)

Lemma random_random_unit (raw : Z) :
  (0 <= Qmake (raw mod two53) (Z.to_pos two53) /\
   Qmake (raw mod two53) (Z.to_pos two53) < 1)%Q.
Proof.
  assert (H : 0 <= raw mod two53 < two53) by (apply Z.mod_pos_bound; reflexivity).
  unfold Qle, Qlt. cbn [Qnum Qden]. change (Z.pos (Z.to_pos two53)) with two53.
  lia.
Qed.

Lemma random_uniform_range (a b : Q) (E : env) (w : world) :
  (a < b)%Q ->
  exists d,
    random_uniform a b E w = (Ret d, set_draws (S (draws w)) w)
    /\ (a <= d /\ d < b)%Q.
Proof.
  intros Hab.
  unfold random_uniform, random_random, next_entropy, bind, get, ask, modify, ret.
  eexists. split; [reflexivity|].
  destruct (random_random_unit (entropy E (draws w))) as [H0 H1].
  set (u := Qmake (entropy E (draws w) mod two53) (Z.to_pos two53)) in *.
  split; nra.
Qed.

Lemma random_randint_range (a b : Z) (E : env) (w : world) :
  a <= b ->
  exists n,
    random_randint a b E w = (Ret n, set_draws (S (draws w)) w) /\ a <= n <= b.
Proof.
  intros Hab. unfold random_randint.
  replace (b <? a) with false by (symmetry; apply Z.ltb_ge; lia).
  unfold next_entropy, bind, get, ask, modify, ret.
  eexists. split; [reflexivity|].
  pose proof (Z.mod_pos_bound (entropy E (draws w)) (b - a + 1)). lia.
Qed.

Lemma random_choice_run {A} (seq : list A) (E : env) (w : world) :
  seq <> [] ->
  exists x, random_choice seq E w = (Ret x, set_draws (S (draws w)) w) /\ In x seq.
Proof.
  intros Hne. destruct seq as [|a seq]; [congruence|].
  unfold random_choice, next_entropy, bind, get, ask, modify, ret.
  eexists. split; [reflexivity|].
  apply nth_In.
  pose proof (Z.mod_pos_bound (entropy E (draws w))
                (Z.of_nat (Datatypes.length (a :: seq)))) as Hb.
  cbn [Datatypes.length] in *. lia.
Qed.

(** ** The browser *)

Module BrowserFacts.

Import BrowserManager.

Lemma selenium_run (a : action) (E : env) (w : world) :
  selenium a E w
  = (match browser E (ticks w) a with None => Ret tt | Some e => Raise e end,
     set_trace (trace w ++ [EvBrowser a (browser E (ticks w) a)])
               (set_ticks (S (ticks w)) w)).
Proof.
  unfold selenium, bind, get, ask, modify, emit, ret, raise.
  destruct (browser E (ticks w) a); reflexivity.
Qed.

Lemma take_screenshot_returns (name : string) (E : env) (w : world) :
  exists w', take_screenshot name E w = (Ret tt, w').
Proof.
  unfold take_screenshot, bind, get. destruct (driver w); cbn [negb].
  - unfold try_except, bind. rewrite selenium_run.
    destruct (browser E (ticks w) (SaveScreenshot name)); cbn; eexists; reflexivity.
  - eexists. reflexivity.
Qed.

(** [wait_for_element] has no loop of its own: it returns or raises. *)
Lemma wait_for_element_settles (s : selector) (t : option Z) (c : bool)
    (E : env) (w : world) :
  fst (wait_for_element s t c E w) <> OutOfFuel.
Proof.
  unfold wait_for_element, bind, try_except, get, logger, modify, ret, raise.
  destruct (driver w); cbn [negb]; [|discriminate].
  repeat first
    [ discriminate
    | rewrite selenium_run
    | match goal with
      | |- context [take_screenshot ?n E ?w1] =>
          let w2 := fresh "w" in
          let H := fresh "H" in
          destruct (take_screenshot_returns n E w1) as [w2 H]; rewrite H
      | |- context [match browser E ?n ?a with _ => _ end] =>
          destruct (browser E n a)
      | |- context [if ?b then _ else _] => destruct b
      end
    | progress cbn [fst snd any_exception] ].
Qed.


Lemma close_returns (E : env) (w : world) :
  exists w', close E w = (Ret tt, w') /\ driver w' = false
             /\ counters w' = counters w
             /\ exists t, trace w' = (trace w ++ t)%list.
Proof.
  unfold close, bind, get. destruct (driver w) eqn:Hd.
  - unfold try_except. rewrite selenium_run.
    destruct (browser E (ticks w) Quit); cbn;
      (eexists; split; [reflexivity|]; cbn; repeat split; eexists; reflexivity).
  - exists w. repeat split; auto. exists []. rewrite app_nil_r. reflexivity.
Qed.


(** [_apply_anti_detection] swallows what its calls raise. *)
Lemma apply_anti_detection_returns (E : env) (w : world) :
  exists w', _apply_anti_detection E w = (Ret tt, w').
Proof.
  unfold _apply_anti_detection, try_except. unfold bind at 1.
  rewrite selenium_run.
  destruct (browser E (ticks w) (ExecuteScript HideWebdriver));
    [cbn; eexists; reflexivity|].
  unfold bind at 1.
  match goal with
  | |- context [random_randint ?a ?b E ?w1] =>
      destruct (random_randint_range a b E w1) as (width & Hw & _);
      [unfold Config.BROWSER_WIDTH_MIN, Config.BROWSER_WIDTH_MAX; lia|rewrite Hw]
  end.
  unfold bind at 1.
  match goal with
  | |- context [random_randint ?a ?b E ?w1] =>
      destruct (random_randint_range a b E w1) as (height & Hh & _);
      [unfold Config.BROWSER_HEIGHT_MIN, Config.BROWSER_HEIGHT_MAX; lia|rewrite Hh]
  end.
  unfold bind at 1. rewrite selenium_run.
  match goal with
  | |- context [browser E ?n (SetWindowSize width height)] =>
      destruct (browser E n (SetWindowSize width height)); [cbn; eexists; reflexivity|]
  end.
  unfold bind at 1. cbn [ask].
  destruct (String.eqb (browser_type E) "chrome"); [|cbn; eexists; reflexivity].
  rewrite selenium_run.
  match goal with
  | |- context [browser E ?n (ExecuteScript SpoofChrome)] =>
      destruct (browser E n (ExecuteScript SpoofChrome)); cbn; eexists; reflexivity
  end.
Qed.

(** [initialize_driver] raises before the driver is stored, or returns
    with the driver stored. *)
Lemma initialize_driver_cases (E : env) (w : world) :
  counters (snd (initialize_driver E w)) = counters w
  /\ ((exists e, fst (initialize_driver E w) = Raise e
                 /\ driver (snd (initialize_driver E w)) = driver w)
      \/ (fst (initialize_driver E w) = Ret tt
          /\ driver (snd (initialize_driver E w)) = true)).
Proof.
  split; [apply keeps_initialize_driver; intros; reflexivity|].
  assert (Hstart : forall w1,
             (exists e w2, selenium InitDriver E w1 = (Raise e, w2)
                           /\ driver w2 = driver w1)
             \/ (exists w2, selenium InitDriver E w1 = (Ret tt, w2)
                            /\ driver w2 = driver w1)).
  { intros w1. rewrite selenium_run.
    destruct (browser E (ticks w1) InitDriver) as [e|];
      [left; exists e|right]; eexists; split; reflexivity. }
  assert (Hrest : forall w2,
             exists w3,
               (_apply_anti_detection ;; modify (set_driver true)) E w2 = (Ret tt, w3)
               /\ driver w3 = true).
  { intros w2. unfold bind.
    destruct (apply_anti_detection_returns E w2) as [w3 H3]. rewrite H3.
    eexists. split; reflexivity. }
  destruct (initialize_driver E w) as [r w'] eqn:Hrun. cbn [fst snd].
  unfold initialize_driver in Hrun. unfold bind at 1 in Hrun.
  cbn [logger modify] in Hrun.
  unfold bind at 1 in Hrun. cbn [ask] in Hrun.
  unfold bind at 1 in Hrun.
  destruct (String.eqb (browser_type E) "chrome").
  - unfold _setup_chrome_options in Hrun. unfold bind at 1 in Hrun.
    unfold bind at 1 in Hrun.
    match type of Hrun with
    | context [random_choice ?l E ?w1] =>
        destruct (random_choice_run l E w1) as (timezone & Ht & _);
        [discriminate|rewrite Ht in Hrun]
    end.
    unfold bind at 1 in Hrun.
    match type of Hrun with
    | context [random_choice ?l E ?w1] =>
        destruct (random_choice_run l E w1) as (lang & Hl & _);
        [discriminate|rewrite Hl in Hrun]
    end.
    cbn [ret] in Hrun.
    match type of Hrun with
    | context [selenium InitDriver E ?w1] =>
        destruct (Hstart w1) as [(e & w2 & H2 & Hd2)|(w2 & H2 & Hd2)];
        rewrite H2 in Hrun
    end.
    + left. exists e. inversion Hrun; subst r w'. split; [reflexivity|].
      rewrite Hd2. reflexivity.
    + right. destruct (Hrest w2) as (w3 & H3 & Hd3). rewrite H3 in Hrun.
      inversion Hrun; subst r w'. auto.
  - destruct (String.eqb (browser_type E) "firefox").
    + unfold _setup_firefox_options in Hrun. unfold bind at 1 in Hrun.
      cbn [ret] in Hrun.
      match type of Hrun with
      | context [selenium InitDriver E ?w1] =>
          destruct (Hstart w1) as [(e & w2 & H2 & Hd2)|(w2 & H2 & Hd2)];
          rewrite H2 in Hrun
      end.
      * left. exists e. inversion Hrun; subst r w'. split; [reflexivity|].
        rewrite Hd2. reflexivity.
      * right. destruct (Hrest w2) as (w3 & H3 & Hd3). rewrite H3 in Hrun.
        inversion Hrun; subst r w'. auto.
    + left. inversion Hrun; subst r w'. eexists. split; reflexivity.
Qed.

End BrowserFacts.

(** ** The signup steps *)

Module StepFacts.

Import BrowserManager AccountCreator.

(** C7. [_requires_phone_verification] always returns a boolean, decided by
    two waits made in this order: [False] when the day field of the birth
    date is found; otherwise [True] when the phone-number field is found;
    otherwise [False], after logging the warning "Could not determine
    verification requirement". *)
Theorem phone_requirement_detection (E : env) (w : world) :
  let w0 := snd (logger INFO "Checking if phone verification is required" E w) in
  let day := wait_for_element ACC_DAY (Some 3) false E w0 in
  let phone := wait_for_element PHONE_NUMBER (Some 5) false E (snd day) in
  let result := _requires_phone_verification E w in
  (exists required, fst result = Ret required)
  /\ (forall el, fst day = Ret el -> fst result = Ret false)
  /\ (forall e el, fst day = Raise e -> fst phone = Ret el -> fst result = Ret true)
  /\ (forall e e', fst day = Raise e -> fst phone = Raise e' ->
      fst result = Ret false
      /\ exists l, log (snd result)
                   = (l ++ [(WARNING, "Could not determine verification requirement")])%list).
Proof.
  intros w0 day phone result.
  assert (Hresult :
            result
            = match day with
              | (Ret _, w1) =>
                  (Ret false, snd (logger INFO "Phone verification not required" E w1))
              | (Raise _, w1) =>
                  match phone with
                  | (Ret _, w2) =>
                      (Ret true, snd (logger INFO "Phone verification is required" E w2))
                  | (Raise _, w2) =>
                      (Ret false,
                       snd (logger WARNING "Could not determine verification requirement"
                                   E w2))
                  | (OutOfFuel, w2) => (OutOfFuel, w2)
                  end
              | (OutOfFuel, w1) => (OutOfFuel, w1)
              end).
  { subst result phone day w0.
    unfold _requires_phone_verification. unfold bind at 1. cbn [logger modify snd].
    unfold try_except at 1. unfold bind at 1.
    destruct (wait_for_element ACC_DAY (Some 3) false E _) as [[el|e|] w1];
      cbn [snd any_exception]; try reflexivity.
    unfold try_except at 1. unfold bind at 1.
    destruct (wait_for_element PHONE_NUMBER (Some 5) false E w1) as [[el|e'|] w2];
      reflexivity. }
  pose proof (BrowserFacts.wait_for_element_settles ACC_DAY (Some 3) false E w0) as Hday.
  pose proof (BrowserFacts.wait_for_element_settles PHONE_NUMBER (Some 5) false E (snd day))
    as Hphone.
  fold day in Hday. fold phone in Hphone.
  rewrite Hresult. clear Hresult.
  destruct day as [[el|e|] w1]; cbn [fst snd] in *; [| |congruence].
  - repeat split; try (intros; discriminate). eexists; reflexivity.
  - destruct phone as [[el|e'|] w2]; cbn [fst snd] in *; [| |congruence].
    + repeat split; try (intros; discriminate). eexists; reflexivity.
    + split; [eexists; reflexivity|].
      split; [intros; discriminate|]. split; [intros; discriminate|].
      intros _ _ _ _. split; [reflexivity|]. eexists. reflexivity.
Qed.

Lemma phone_requirement_detection_witness :
  fst (_requires_phone_verification
         (Scenario.environment (Scenario.always RequestFails) Scenario.phone_page
                               (fun _ => 0) (fun _ => UserMissing) 0)
         (set_driver true initial_world))
  = Ret true.
Proof.
  destruct (phone_requirement_detection
              (Scenario.environment (Scenario.always RequestFails) Scenario.phone_page
                                    (fun _ => 0) (fun _ => UserMissing) 0)
              (set_driver true initial_world)) as (_ & _ & H & _).
  apply (H NoSuchElementException PHONE_NUMBER); reflexivity.
Defined.

(** *** The username step *)





End StepFacts.

(** ** One attempt of the multi-account loop *)

Module AttemptFacts.

Import BrowserManager AccountCreator.

Lemma create_single_account_keeps_counters (fuel : nat) (user : user_data) :
  keeps counters (_create_single_account fuel user).
Proof. apply keeps__create_single_account; intros; reflexivity. Qed.

(** [_create_single_account] turns every exception of its steps into the
    result [False]. *)
Lemma create_single_account_catches (fuel : nat) (user : user_data) (E : env)
    (w : world) :
  (forall e, fst (_create_single_account fuel user E w) <> Raise e)
  /\ (forall e, fst (account_steps fuel user E w) = Raise e ->
                fst (_create_single_account fuel user E w) = Ret false).
Proof.
  unfold _create_single_account, try_except.
  destruct (account_steps fuel user E w) as [[b|e|] w1]; cbn [fst any_exception].
  - split; intros; discriminate.
  - unfold bind. cbn [logger modify].
    match goal with
    | |- context [take_screenshot ?n E ?w2] =>
        destruct (BrowserFacts.take_screenshot_returns n E w2) as [w3 H3]; rewrite H3
    end.
    cbn. split; intros; [discriminate|reflexivity].
  - split; intros; discriminate.
Qed.

(** What one pass through the [try] block of the loop can do. *)
Lemma attempt_body_cases (fuel : nat) (E : env) (w : world) :
  let run := attempt_body fuel E w in
  let index := current_index w in
  let done := successful_accounts w in
  let failed := failed_accounts w in
  (fst run = Ret tt /\ user_db E index = UserMissing
   /\ counters (snd run) = (index + 1, done, failed + 1)
   /\ trace (snd run) = trace w /\ driver (snd run) = driver w)
  \/ (exists e, fst run = Raise e /\ counters (snd run) = counters w
                /\ user_db E index <> UserMissing)
  \/ (exists user created t d,
         fst run = Ret tt /\ user_db E index = UserFound user
         /\ counters (snd run)
            = (index + 1, (if created : bool then done + 1 else done),
               (if created then failed else failed + 1))
         /\ driver (snd run) = false
         /\ trace (snd run) = (t ++ [EvSleep d])%list
         /\ (5 <= d /\ d < 15)%Q)
  \/ fst run = OutOfFuel.
Proof.
  intros run index done failed. subst run.
  destruct (attempt_body fuel E w) as [r w'] eqn:Hrun. cbn [fst snd].
  unfold attempt_body, UserManager.get_user_data in Hrun.
  unfold bind in Hrun.
  cbn [logger modify get ask ret raise current_index set_log] in Hrun.
  fold index in Hrun.
  destruct (user_db E index) as [user| |e] eqn:Hdb.
  - (* a user: the driver is started and the account attempted *)
    cbn [logger modify get ask ret raise] in Hrun.
    match type of Hrun with
    | context [initialize_driver E ?w0] =>
        destruct (BrowserFacts.initialize_driver_cases E w0) as (Hc0 & Hinit);
        destruct (initialize_driver E w0) as [[[]|e|] w2]; cbn [fst snd] in Hc0, Hinit
    end.
    + destruct Hinit as [(e & He & _)|(_ & Hd2)]; [discriminate He|].
      match type of Hrun with
      | context [_create_single_account fuel user E w2] =>
          pose proof (create_single_account_keeps_counters fuel user E w2) as Hkeep;
          pose proof (proj1 (create_single_account_catches fuel user E w2)) as Hcatch;
          destruct (_create_single_account fuel user E w2) as [[created|e|] w3]
      end.
      * right. right. left.
        cbn [fst snd] in Hkeep.
        set (w4 := snd ((if created
                         then modify (fun w => set_successful_accounts
                                                 (successful_accounts w + 1) w)
                         else modify (fun w => set_failed_accounts
                                                 (failed_accounts w + 1) w)) E w3)).
        assert (H4 : (if created
                      then modify (fun w => set_successful_accounts
                                              (successful_accounts w + 1) w)
                      else modify (fun w => set_failed_accounts
                                              (failed_accounts w + 1) w)) E w3
                     = (Ret tt, w4)) by (subst w4; destruct created; reflexivity).
        rewrite H4 in Hrun.
        assert (Hc4 : counters w4
                      = (index, (if created then done + 1 else done),
                         (if created then failed else failed + 1))).
        { subst w4. unfold counters in *. cbn in Hc0. rewrite Hc0 in Hkeep.
          inversion Hkeep as [[Hi Hs Hf]].
          destruct created; cbn; rewrite Hi, Hs, Hf; reflexivity. }
        destruct (BrowserFacts.close_returns E w4) as (w5 & Hclose & Hd5 & Hc5 & t5 & Ht5).
        rewrite Hclose in Hrun.
        match type of Hrun with
        | context [random_uniform 5 15 E ?w6] =>
            destruct (random_uniform_range 5 15 E w6) as (d & Hd & Hrange);
            [reflexivity|rewrite Hd in Hrun]
        end.
        rewrite (sleep_emit d) in Hrun by lra.
        exists user, created, (trace w5), d.
        cbn in Hrun. unfold emit, modify in Hrun.
        apply pair_equal_spec in Hrun. destruct Hrun as [Hr Hw'].
        rewrite <- Hr, <- Hw'. clear Hr Hw'.
        cbn. unfold counters in Hc4, Hc5 |- *.
        injection Hc5 as Hi5 Hs5 Hf5. injection Hc4 as Hi4 Hs4 Hf4.
        repeat split; try assumption; try apply Hrange.
        cbn. rewrite Hi5, Hs5, Hf5, Hi4, Hs4, Hf4. reflexivity.
      * exfalso. apply (Hcatch e). reflexivity.
      * right. right. right. inversion Hrun. reflexivity.
    + right. left. exists e. inversion Hrun; subst r w'; clear Hrun.
      split; [reflexivity|]. split; [|congruence].
      rewrite Hc0. reflexivity.
    + destruct Hinit as [(e & He & _)|(He & _)]; discriminate He.
  - left. inversion Hrun; subst; clear Hrun. cbn. repeat split.
  - right. left. exists e. inversion Hrun; subst; clear Hrun.
    cbn. repeat split; congruence.
Qed.

(** The handler of the loop: one failure more, the index advanced, the
    browser closed, then a pause drawn from 10 to 30 seconds. *)
Lemma attempt_handler_run (e : exn) (E : env) (w : world) :
  exists w' t d,
    attempt_handler e E w = (Ret tt, w')
    /\ counters w' = (current_index w + 1, successful_accounts w, failed_accounts w + 1)
    /\ driver w' = false
    /\ trace w' = (t ++ [EvSleep d])%list
    /\ (10 <= d /\ d < 30)%Q.
Proof.
  destruct (attempt_handler e E w) as [r w'] eqn:Hrun.
  unfold attempt_handler in Hrun. unfold bind in Hrun.
  cbn [logger modify get ask ret raise] in Hrun.
  match type of Hrun with
  | context [close E ?w1] =>
      destruct (BrowserFacts.close_returns E w1) as (w2 & Hclose & Hd2 & Hc2 & t2 & Ht2);
      rewrite Hclose in Hrun
  end.
  match type of Hrun with
  | context [random_uniform 10 30 E ?w3] =>
      destruct (random_uniform_range 10 30 E w3) as (d & Hd & Hrange);
      [reflexivity|rewrite Hd in Hrun]
  end.
  rewrite (sleep_emit d) in Hrun by lra.
  cbn in Hrun. unfold emit, modify in Hrun. inversion Hrun; subst r w'; clear Hrun.
  exists (set_trace (trace w2 ++ [EvSleep d]) (set_draws (S (draws w2)) w2)),
         (trace w2), d.
  unfold counters in Hc2 |- *. cbn in Hc2 |- *. injection Hc2 as Hi Hs Hf.
  repeat split; try assumption; try apply Hrange.
  rewrite Hi, Hs, Hf. reflexivity.
Qed.












End AttemptFacts.

(** ** The lease during the phone challenge *)

Module LeaseFacts.

Import PhoneVerificationManager BrowserManager AccountCreator.

Ltac lease_frame :=
  intros; reflexivity.

Lemma wait_for_element_keeps_lease s t c : keeps lease (wait_for_element s t c).
Proof. apply keeps_wait_for_element; lease_frame. Qed.

Lemma human_like_typing_opt_keeps_lease el text :
  keeps lease (human_like_typing_opt el text).
Proof. apply keeps_human_like_typing_opt; lease_frame. Qed.

Lemma click_next_button_keeps_lease : keeps lease _click_next_button.
Proof. apply keeps__click_next_button; lease_frame. Qed.

Lemma get_verification_code_keeps_lease fuel max_attempts interval :
  keeps lease (get_verification_code fuel max_attempts interval).
Proof. apply keeps_get_verification_code; lease_frame. Qed.

(** A step that returned left the lease as it was. *)
Lemma kept {A} (m : M A) (E : env) (w w' : world) (r : outcome A) :
  keeps lease m -> m E w = (r, w') -> lease w' = lease w.
Proof. intros Hk Hrun. specialize (Hk E w). rewrite Hrun in Hk. exact Hk. Qed.

(** [get_phone_number]: a success stores the id and the number read in the
    provider's answer, which is the last event; a failure stores nothing.
    No request of either settles a lease. *)
Lemma get_phone_number_loop_grant (E : env) (max_attempts : Z) :
  forall (fuel : nat) (attempt : Z) (w w' : world) (r : bool * option string),
    get_phone_number_loop fuel max_attempts attempt E w = (Ret r, w') ->
    (fst r = true
     /\ exists data id number t,
         grants data id number
         /\ lease w' = (Some id, Some number) /\ snd r = Some ("+" ++ number)
         /\ trace w' = (trace w ++ t ++ [EvRequest number_request (Text data)])%list
         /\ forallb quiet t = true)
    \/ (fst r = false /\ lease w' = lease w
        /\ exists t, trace w' = (trace w ++ t)%list /\ forallb quiet t = true).
Proof.
  induction fuel as [|fuel IH]; intros attempt w w' r Hrun; [discriminate|].
  assert (Hnext : forall (pre : list event) (w1 : world),
             lease w1 = lease w ->
             trace w1 = (trace w ++ pre)%list ->
             forallb quiet pre = true ->
             get_phone_number_loop fuel max_attempts (attempt + 1) E w1 = (Ret r, w') ->
             (fst r = true
              /\ exists data id number t,
                  grants data id number
                  /\ lease w' = (Some id, Some number) /\ snd r = Some ("+" ++ number)
                  /\ trace w' = (trace w ++ t ++ [EvRequest number_request (Text data)])%list
                  /\ forallb quiet t = true)
             \/ (fst r = false /\ lease w' = lease w
                 /\ exists t, trace w' = (trace w ++ t)%list /\ forallb quiet t = true)).
  { intros pre w1 Hl1 Ht1 Hqp Hrec. apply IH in Hrec.
    destruct Hrec as [(Hr & data & id & number & t & Hg & Hl & Hs & Ht & Hq)
                     |(Hr & Hl & t & Ht & Hq)].
    - left. split; [exact Hr|]. exists data, id, number, (pre ++ t)%list.
      split; [exact Hg|]. split; [exact Hl|]. split; [exact Hs|].
      split.
      + rewrite Ht, Ht1, <- !app_assoc. reflexivity.
      + rewrite forallb_app, Hqp, Hq. reflexivity.
    - right. split; [exact Hr|]. split; [congruence|].
      exists (pre ++ t)%list. split.
      + rewrite Ht, Ht1, <- !app_assoc. reflexivity.
      + rewrite forallb_app, Hqp, Hq. reflexivity. }
  cbn [get_phone_number_loop] in Hrun.
  destruct (attempt <? max_attempts).
  2:{ cbn in Hrun. inversion Hrun; subst. right. split; [reflexivity|].
      split; [reflexivity|]. exists []. rewrite app_nil_r. auto. }
  unfold bind, try_except, requests_get in Hrun.
  cbn [bind get ask modify emit logger ret raise] in Hrun.
  match type of Hrun with
  | context [provider E ?n ?p] => destruct (provider E n p) as [data|]
  end.
  - cbn -[PyStr.contains PyStr.split Nat.leb Z.add get_phone_number_loop] in Hrun.
    destruct (PyStr.contains "ACCESS_NUMBER" data) eqn:Haccess.
    + destruct (3 <=? Datatypes.length (PyStr.split ":" data))%nat eqn:Hparts.
      * cbn in Hrun. inversion Hrun; subst. left. split; [reflexivity|].
        exists data. eexists. eexists. exists [].
        split; [|split; [reflexivity|split; [reflexivity|split; reflexivity]]].
        split; [exact Haccess|]. split; [apply Nat.leb_le; exact Hparts|].
        split; reflexivity.
      * cbn -[get_phone_number_loop Z.add] in Hrun.
        eapply Hnext; [| | |exact Hrun];
          [reflexivity|cbn; rewrite <- ?app_assoc; reflexivity|reflexivity].
    + destruct (PyStr.contains "NO_NUMBERS" data).
      * cbn -[get_phone_number_loop Z.add] in Hrun.
        eapply Hnext; [| | |exact Hrun];
      [reflexivity|cbn; rewrite <- ?app_assoc; reflexivity|reflexivity].
      * destruct (PyStr.contains "NO_BALANCE" data).
        -- cbn in Hrun. inversion Hrun; subst. right. split; [reflexivity|].
           split; [reflexivity|]. eexists [_]. split; reflexivity.
        -- destruct (PyStr.contains "BAD_KEY" data).
           ++ cbn in Hrun. inversion Hrun; subst. right. split; [reflexivity|].
              split; [reflexivity|]. eexists [_]. split; reflexivity.
           ++ cbn -[get_phone_number_loop Z.add] in Hrun.
              eapply Hnext; [| | |exact Hrun];
      [reflexivity|cbn; rewrite <- ?app_assoc; reflexivity|reflexivity].
  - cbn -[get_phone_number_loop Z.add] in Hrun.
    eapply Hnext; [| | |exact Hrun];
      [reflexivity|cbn; rewrite <- ?app_assoc; reflexivity|reflexivity].
Qed.


Lemma get_phone_number_grant (E : env) (max_attempts : option Z) (w w' : world)
    (r : bool * option string) :
  get_phone_number max_attempts E w = (Ret r, w') ->
  (fst r = true
   /\ exists data id number t,
       grants data id number
       /\ lease w' = (Some id, Some number) /\ snd r = Some ("+" ++ number)
       /\ trace w' = (trace w ++ t ++ [EvRequest number_request (Text data)])%list
       /\ forallb quiet t = true)
  \/ (fst r = false /\ lease w' = lease w
      /\ exists t, trace w' = (trace w ++ t)%list /\ forallb quiet t = true).
Proof.
  unfold get_phone_number. unfold bind at 1. cbn [logger modify]. intros Hrun.
  apply get_phone_number_loop_grant in Hrun. exact Hrun.
Qed.

Lemma get_phone_number_never_raises (E : env) (w : world) (e : exn) :
  fst (get_phone_number None E w) <> Raise e.
Proof.
  unfold get_phone_number. unfold bind at 1. cbn [logger modify].
  match goal with
  | |- fst (get_phone_number_loop ?f ?m 0 E ?w1) <> _ =>
      destruct (PhoneFacts.get_phone_number_loop_returns E m f 0 w1)
        as (r & w' & Hrun & _); [lia|rewrite Hrun]
  end.
  discriminate.
Qed.

Lemma cancel_current_activation_returns (E : env) (w : world) :
  exists b w', cancel_current_activation E w = (Ret b, w').
Proof.
  unfold cancel_current_activation, bind, try_except, requests_get.
  cbn [bind get ask modify emit logger ret raise].
  destruct (negb (PyStr.truthy_opt (current_activation_id w))).
  - eexists. eexists. reflexivity.
  - cbn -[PyStr.contains].
    match goal with
    | |- context [provider E ?n ?p] => destruct (provider E n p) as [data|]
    end.
    + cbn -[PyStr.contains].
      destruct (PyStr.contains "ACCESS_CANCEL" data
                || PyStr.contains "ACCESS_ACTIVATION_CANCEL" data);
        cbn; eexists; eexists; reflexivity.
    + cbn. eexists. eexists. reflexivity.
Qed.

Lemma report_success_returns (E : env) (w : world) :
  exists b w', report_success E w = (Ret b, w').
Proof.
  unfold report_success, bind, try_except, requests_get.
  cbn [bind get ask modify emit logger ret raise].
  destruct (negb (PyStr.truthy_opt (current_activation_id w))).
  - eexists. eexists. reflexivity.
  - cbn -[PyStr.contains].
    match goal with
    | |- context [provider E ?n ?p] => destruct (provider E n p) as [data|]
    end.
    + cbn -[PyStr.contains].
      destruct (PyStr.contains "ACCESS_ACTIVATION_SUCCESS" data);
        cbn; eexists; eexists; reflexivity.
    + cbn. eexists. eexists. reflexivity.
Qed.





(** The steps of the signup leave the lease alone and send no settlement. *)
Lemma navigate_keeps_lease : keeps lease _navigate_to_account_creation.
Proof. apply keeps__navigate_to_account_creation; lease_frame. Qed.

Lemma fill_first_step_keeps_lease u : keeps lease (_fill_first_step u).
Proof. apply keeps__fill_first_step; lease_frame. Qed.

Lemma fill_second_step_keeps_lease u : keeps lease (_fill_second_step u).
Proof. apply keeps__fill_second_step; lease_frame. Qed.

Lemma fill_username_step_keeps_lease fuel u : keeps lease (_fill_username_step fuel u).
Proof. apply keeps__fill_username_step; lease_frame. Qed.

Lemma fill_password_step_keeps_lease u : keeps lease (_fill_password_step u).
Proof. apply keeps__fill_password_step; lease_frame. Qed.

Lemma requires_phone_verification_keeps_lease :
  keeps lease _requires_phone_verification.
Proof. apply keeps__requires_phone_verification; lease_frame. Qed.

Lemma take_screenshot_keeps_lease name : keeps lease (take_screenshot name).
Proof. apply keeps_take_screenshot; lease_frame. Qed.

Lemma quiet_wait_for_element s t c : emits_only quiet (wait_for_element s t c).
Proof. apply emits_wait_for_element; reflexivity. Qed.

Lemma quiet_human_like_typing_opt el text :
  emits_only quiet (human_like_typing_opt el text).
Proof. apply emits_human_like_typing_opt; reflexivity. Qed.

Lemma quiet_click_next_button : emits_only quiet _click_next_button.
Proof. apply emits__click_next_button; reflexivity. Qed.

Lemma quiet_get_verification_code fuel max_attempts interval :
  emits_only quiet (get_verification_code fuel max_attempts interval).
Proof. apply emits_get_verification_code; reflexivity. Qed.

Lemma quiet_navigate : emits_only quiet _navigate_to_account_creation.
Proof. apply emits__navigate_to_account_creation; reflexivity. Qed.

Lemma quiet_fill_first_step u : emits_only quiet (_fill_first_step u).
Proof. apply emits__fill_first_step; reflexivity. Qed.

Lemma quiet_fill_second_step u : emits_only quiet (_fill_second_step u).
Proof. apply emits__fill_second_step; reflexivity. Qed.

Lemma quiet_fill_username_step fuel u : emits_only quiet (_fill_username_step fuel u).
Proof. apply emits__fill_username_step; reflexivity. Qed.

Lemma quiet_fill_password_step u : emits_only quiet (_fill_password_step u).
Proof. apply emits__fill_password_step; reflexivity. Qed.

Lemma quiet_requires_phone_verification : emits_only quiet _requires_phone_verification.
Proof. apply emits__requires_phone_verification; reflexivity. Qed.

Lemma quiet_take_screenshot name : emits_only quiet (take_screenshot name).
Proof. apply emits_take_screenshot; reflexivity. Qed.

Create HintDb lease_steps.

#[local] Hint Resolve wait_for_element_keeps_lease human_like_typing_opt_keeps_lease
  click_next_button_keeps_lease get_verification_code_keeps_lease
  navigate_keeps_lease fill_first_step_keeps_lease fill_second_step_keeps_lease
  fill_username_step_keeps_lease fill_password_step_keeps_lease
  requires_phone_verification_keeps_lease take_screenshot_keeps_lease
  quiet_wait_for_element quiet_human_like_typing_opt quiet_click_next_button
  quiet_get_verification_code quiet_navigate quiet_fill_first_step
  quiet_fill_second_step quiet_fill_username_step quiet_fill_password_step
  quiet_requires_phone_verification quiet_take_screenshot : lease_steps.

Lemma unsettled_step {A} (m : M A) (E : env) (w0 w : world) (data : string) :
  emits_only quiet m ->
  unsettled_since w0 data w -> unsettled_since w0 data (snd (m E w)).
Proof.
  intros Hm (t & Ht & Hin & Hq). destruct (Hm E w) as (t' & Ht' & Hq').
  exists (t ++ t')%list. rewrite Ht', Ht, app_assoc, forallb_app, Hq, Hq'.
  split; [reflexivity|]. split; [apply in_or_app; auto|reflexivity].
Qed.

Lemma held_step {A} (m : M A) (E : env) (w0 w : world) (data : string)
    (l : option string * option string) :
  keeps lease m -> emits_only quiet m ->
  held w0 data l w -> held w0 data l (snd (m E w)).
Proof.
  intros Hk Hq (Hl & Hu). split.
  - rewrite Hk. exact Hl.
  - apply unsettled_step; assumption.
Qed.

Lemma calm_refl (w : world) : calm w w.
Proof. split; [reflexivity|]. exists []. rewrite app_nil_r. auto. Qed.

Lemma calm_step {A} (m : M A) (E : env) (w0 w : world) :
  keeps lease m -> emits_only quiet m ->
  calm w0 w -> calm w0 (snd (m E w)).
Proof.
  intros Hk Hm (Hl & t & Ht & Hq). destruct (Hm E w) as (t' & Ht' & Hq').
  split; [rewrite Hk; exact Hl|].
  exists (t ++ t')%list. rewrite Ht', Ht, app_assoc, forallb_app, Hq, Hq'. auto.
Qed.

Lemma held_after_calm (w0 w1 w : world) (data : string)
    (l : option string * option string) :
  calm w0 w1 -> held w1 data l w -> held w0 data l w.
Proof.
  intros (_ & t & Ht & Hq) (Hl & t' & Ht' & Hin & Hq'). split; [exact Hl|].
  exists (t ++ t')%list. rewrite Ht', Ht, app_assoc, forallb_app, Hq, Hq'.
  split; [reflexivity|]. split; [apply in_or_app; auto|reflexivity].
Qed.


(** One more step of a run that raised: the step raised, which closes the
    goal, or it returned. *)
Ltac advance_raise Hrun Hheld :=
  let a := fresh "a" in
  let w := fresh "w" in
  let Hstep := fresh "Hstep" in
  apply bind_Raise_inv in Hrun;
  destruct Hrun as [[_ Hrun]|(a & w & Hstep & Hrun)];
  [ subst; try left;
    first [apply held_step | apply calm_step];
    [solve [auto with nocore lease_steps]..|exact Hheld]
  | match type of Hstep with
    | ?m ?E ?wa = _ =>
        first [apply (held_step m E) in Hheld | apply (calm_step m E) in Hheld];
        [|solve [auto with nocore lease_steps]..];
        rewrite Hstep in Hheld; cbn [snd] in Hheld
    end ].


(** What it has done when it raises: the lease was granted and is still
    held, unsettled. *)
Lemma handle_phone_verification_raise (fuel : nat) (E : env) (w w' : world) (e : exn) :
  _handle_phone_verification fuel E w = (Raise e, w') ->
  exists data id number,
    grants data id number /\ held w data (Some id, Some number) w'.
Proof.
  intros Hrun. unfold _handle_phone_verification in Hrun.
  apply bind_Raise_inv in Hrun. destruct Hrun as [[Hlog _]|(u0 & w0 & Hlog & Hrun)];
    [discriminate Hlog|].
  cbn [logger modify] in Hlog. inversion Hlog; subst u0 w0; clear Hlog.
  apply bind_Raise_inv in Hrun.
  destruct Hrun as [[Hraise _]|([leased number] & w1 & Hlease & Hrun)];
    [exfalso; exact (get_phone_number_never_raises _ _ _ Hraise)|].
  apply get_phone_number_grant in Hlease. cbn [fst snd] in Hlease.
  destruct Hlease as [(-> & data & id & digits & t1 & Hg & Hl1 & -> & Ht1 & Hq1)
                     |(-> & _)]; cbn [negb] in Hrun;
    [|discriminate Hrun].
  exists data, id, digits. split; [exact Hg|].
  assert (Hheld : held w data (Some id, Some digits) w1).
  { split; [exact Hl1|]. exists (t1 ++ [EvRequest number_request (Text data)])%list.
    split; [exact Ht1|]. split; [apply in_or_app; right; left; reflexivity|].
    rewrite forallb_app, Hq1. reflexivity. }
  clear Hl1 Ht1 Hq1 t1.
  advance_raise Hrun Hheld. advance_raise Hrun Hheld. advance_raise Hrun Hheld.
  apply bind_Raise_inv in Hrun.
  destruct Hrun as [[_ Hrun]|([received code] & w5 & Hcode & Hrun)];
    [subst; apply held_step; [solve [auto with nocore lease_steps]..|exact Hheld]|].
  apply (held_step (PhoneVerificationManager.get_verification_code fuel None 5) E)
    in Hheld; [|solve [auto with nocore lease_steps]..].
  rewrite Hcode in Hheld. cbn [snd] in Hheld.
  destruct received; cbn [negb] in Hrun.
  - advance_raise Hrun Hheld. advance_raise Hrun Hheld. advance_raise Hrun Hheld.
    exfalso.
    match type of Hrun with
    | bind report_success _ E ?wc = _ =>
        destruct (report_success_returns E wc) as (b & wr & Hr)
    end.
    unfold bind at 1 in Hrun. rewrite Hr in Hrun. discriminate Hrun.
  - exfalso.
    unfold bind at 1 in Hrun. cbn [logger modify] in Hrun.
    match type of Hrun with
    | bind cancel_current_activation _ E ?wc = _ =>
        destruct (cancel_current_activation_returns E wc) as (b & wr & Hr)
    end.
    unfold bind at 1 in Hrun. rewrite Hr in Hrun. discriminate Hrun.
Qed.


(** [_complete_final_steps] has a handler for everything. *)
Lemma complete_final_steps_never_raises (E : env) (w : world) (e : exn) :
  fst (_complete_final_steps E w) <> Raise e.
Proof.
  unfold _complete_final_steps, bind, try_except. cbn [logger modify].
  match goal with
  | |- context [match ?run with _ => _ end] => destruct run as [[b|e0|] w1]
  end; cbn; discriminate.
Qed.

(** An exception leaves [account_steps] before the lease is settled: it is
    raised before a number is asked for, or while the lease is held. *)
Lemma account_steps_raise (fuel : nat) (user : user_data) (E : env) (w w' : world)
    (e : exn) :
  account_steps fuel user E w = (Raise e, w') ->
  calm w w'
  \/ exists data id number,
       grants data id number /\ held w data (Some id, Some number) w'.
Proof.
  intros Hrun. unfold account_steps in Hrun.
  pose proof (calm_refl w) as Hcalm.
  advance_raise Hrun Hcalm. advance_raise Hrun Hcalm. advance_raise Hrun Hcalm.
  advance_raise Hrun Hcalm. advance_raise Hrun Hcalm. advance_raise Hrun Hcalm.
  assert (Htail : forall (phone : option string) (wx : world),
             (completed <- _complete_final_steps ;;
              if negb completed then
                logger ERROR "Failed to complete final steps" ;;
                ret false
              else
                UserManager.save_created_account a2 (password user) (birthday user)
                                                 (str_of phone) ;;
                logger INFO ("Successfully created account: " ++ a2) ;;
                ret true) E wx <> (Raise e, w')).
  { intros phone wx H. apply bind_Raise_inv in H.
    destruct H as [[H _]|(completed & wy & _ & H)].
    - exact (complete_final_steps_never_raises _ _ _ H).
    - destruct completed; cbn [negb] in H.
      + unfold UserManager.save_created_account, bind, modify, emit, logger, ret in H.
        discriminate H.
      + unfold bind, modify, logger, ret in H. discriminate H. }
  apply bind_Raise_inv in Hrun.
  destruct Hrun as [[Hraise Hw]|([returned phone] & w7 & Hphone & Hrun)].
  - destruct a4; [|discriminate Hraise].
    match type of Hraise with
    | fst (?m E ?wa) = _ => destruct (m E wa) as [r wb] eqn:Hinner
    end.
    cbn [fst snd] in Hraise, Hw. subst r wb.
    apply bind_Raise_inv in Hinner.
    destruct Hinner as [[Hraise Hw]|([ok phone] & w7 & _ & Hrest)].
    + right.
      match type of Hraise with
      | fst (?m E ?wa) = _ => destruct (m E wa) as [r wb] eqn:Hhandle
      end.
      cbn [fst snd] in Hraise, Hw. subst r wb.
      apply handle_phone_verification_raise in Hhandle.
      destruct Hhandle as (data & id & number & Hg & Hheld).
      exists data, id, number. split; [exact Hg|].
      exact (held_after_calm _ _ _ _ _ Hcalm Hheld).
    + destruct ok; cbn [negb] in Hrest.
      * discriminate Hrest.
      * unfold bind, modify, logger, ret in Hrest. discriminate Hrest.
  - destruct returned as [v|].
    + discriminate Hrun.
    + exfalso. exact (Htail _ _ Hrun).
Qed.

(** An attempt that returns has advanced the index by one and counted
    itself once, as a success or as a failure. *)
Lemma attempt_counts_once (fuel : nat) (E : env) (w : world) :
  fst (attempt fuel E w) = Ret tt ->
  current_index (snd (attempt fuel E w)) = current_index w + 1
  /\ ((successful_accounts (snd (attempt fuel E w)) = successful_accounts w + 1
       /\ failed_accounts (snd (attempt fuel E w)) = failed_accounts w)
      \/ (successful_accounts (snd (attempt fuel E w)) = successful_accounts w
          /\ failed_accounts (snd (attempt fuel E w)) = failed_accounts w + 1)).
Proof.
  intros Hret.
  pose proof (AttemptFacts.attempt_body_cases fuel E w) as Hcases.
  cbv zeta in Hcases.
  unfold attempt, try_except in Hret |- *.
  destruct (attempt_body fuel E w) as [r w1]; cbn [fst snd] in Hcases.
  destruct Hcases
    as [(-> & _ & Hc & _)
       |[(e & -> & Hc & _)
        |[(u & created & t & d & -> & _ & Hc & _)| ->]]].
  - cbn [fst snd]. unfold counters in Hc. injection Hc as Hi Hs Hf. auto.
  - cbn [any_exception].
    destruct (AttemptFacts.attempt_handler_run e E w1) as (w' & t & d & Hh & Hc' & _).
    rewrite Hh. cbn [fst snd].
    unfold counters in Hc, Hc'. injection Hc as Hi Hs Hf. injection Hc' as Hi' Hs' Hf'.
    rewrite Hi', Hs', Hf', Hi, Hs, Hf. auto.
  - cbn [fst snd]. unfold counters in Hc. injection Hc as Hi Hs Hf.
    destruct created; auto.
  - discriminate.
Qed.




(** The third case of C1 at work: the provider grants a number under an
    empty activation id; one request is made, nothing is settled, and the
    empty id and the number stay stored. *)
Lemma nameless_lease_stays :
  let run := _handle_phone_verification 1 Scenario.nameless_lease
               (set_driver true initial_world) in
  fst run = Ret (false, Some "+611234567")
  /\ requests (trace (snd run))
     = [(number_request, Text "ACCESS_NUMBER::611234567")]
  /\ lease (snd run) = (Some "", Some "611234567").
Proof.
  cbv zeta. repeat split; vm_compute; reflexivity.
Qed.

(** X1.  An exception between the lease and its settlement leaves the lease
    unsettled.  When [_handle_phone_verification] raises, the provider has
    granted a number, the client still stores its lease and no settlement
    (report or cancellation) was sent.  [_create_single_account] turns
    every exception of its steps into [False] and sends no settlement
    either: the lease is the one held before, or the one granted during the
    attempt. *)
Theorem exception_leaves_lease_unsettled (fuel : nat) (user : user_data) (E : env) :
  (forall (w0 : world) (e : exn),
      let phone := _handle_phone_verification fuel E w0 in
      fst phone = Raise e ->
      exists data id number t,
        grants data id number
        /\ lease (snd phone) = (Some id, Some number)
        /\ trace (snd phone) = (trace w0 ++ t)%list
        /\ In (EvRequest number_request (Text data)) t
        /\ forallb quiet t = true)
  /\ (forall (w : world) (e : exn),
        let run := _create_single_account fuel user E w in
        fst (account_steps fuel user E w) = Raise e ->
        fst run = Ret false
        /\ exists t,
             trace (snd run) = (trace w ++ t)%list
             /\ forallb quiet t = true
             /\ (lease (snd run) = lease w
                 \/ exists data id number,
                      grants data id number
                      /\ In (EvRequest number_request (Text data)) t
                      /\ lease (snd run) = (Some id, Some number))).
Proof.
  split.
  - intros w0 e phone Hraise. subst phone.
    destruct (_handle_phone_verification fuel E w0) as [r w'] eqn:Hrun.
    cbn [fst snd] in *. subst r.
    apply handle_phone_verification_raise in Hrun.
    destruct Hrun as (data & id & number & Hg & Hl & t & Ht & Hin & Hq).
    exists data, id, number, t. auto.
  - intros w e run Hraise.
    set (handler := (logger ERROR "Error creating account" ;;
                     take_screenshot "error_create_account" ;;
                     ret false) : M bool).
    assert (Hkeeps : keeps lease handler).
    { apply keeps_bind; [apply keeps_logger; lease_frame|intros _].
      apply keeps_bind; [apply take_screenshot_keeps_lease|intros _].
      apply keeps_ret. }
    assert (Hquiet : emits_only quiet handler).
    { apply emits_bind; [apply emits_logger|intros _].
      apply emits_bind; [apply quiet_take_screenshot|intros _].
      apply emits_ret. }
    assert (Hreturns : forall w1, fst (handler E w1) = Ret false).
    { intros w1. subst handler. unfold bind at 1. cbn [logger modify].
      unfold bind at 1.
      match goal with
      | |- context [take_screenshot ?n E ?w2] =>
          destruct (BrowserFacts.take_screenshot_returns n E w2) as [w3 H3]; rewrite H3
      end.
      reflexivity. }
    destruct (account_steps fuel user E w) as [r w1] eqn:Hsteps.
    cbn [fst] in Hraise. subst r.
    assert (Hrun : run = handler E w1).
    { subst run. unfold _create_single_account, try_except. rewrite Hsteps.
      reflexivity. }
    rewrite Hrun. split; [apply Hreturns|].
    apply account_steps_raise in Hsteps.
    destruct Hsteps as [Hcalm|(data & id & number & Hg & Hheld)].
    + apply (calm_step handler E) in Hcalm; [|assumption..].
      destruct Hcalm as (Hl & t & Ht & Hq). exists t. auto.
    + apply (held_step handler E) in Hheld; [|assumption..].
      destruct Hheld as (Hl & t & Ht & Hin & Hq). exists t.
      split; [exact Ht|]. split; [exact Hq|]. right. exists data, id, number. auto.
Qed.

Lemma exception_leaves_lease_unsettled_witness :
  let run := attempt 1 Scenario.code_field_missing initial_world in
  let w0 := set_driver true initial_world in
  let phone := _handle_phone_verification 1 Scenario.code_field_missing w0 in
  (fst run = Ret tt
   /\ counters (snd run) = (1, 0, 1)
   /\ requests (trace (snd run))
      = [(number_request, Text "ACCESS_NUMBER:42:611234567");
         (status_request "42", Text "STATUS_OK:998877")]
   /\ lease (snd run) = (Some "42", Some "611234567"))
  /\ exists data id number t,
       grants data id number
       /\ lease (snd phone) = (Some id, Some number)
       /\ trace (snd phone) = (trace w0 ++ t)%list
       /\ In (EvRequest number_request (Text data)) t
       /\ forallb quiet t = true.
Proof.
  cbv zeta. split.
  - repeat split; vm_compute; reflexivity.
  - eapply (proj1 (exception_leaves_lease_unsettled 1 Scenario.jane
                     Scenario.code_field_missing)).
    vm_compute. reflexivity.
Defined.

End LeaseFacts.

(** ** user_manager.py *)

Module UsersFacts.

Import Users.

Lemma choices_run {A} (seq : list A) (E : env) :
  seq <> [] ->
  forall (n : nat) (w : world),
  exists l, choices n seq E w = (Ret l, set_draws (draws w + n) w)
            /\ Datatypes.length l = n /\ Forall (fun c => In c seq) l.
Proof.
  intros Hne. induction n as [|n IH]; intros w.
  - exists []. cbn. rewrite Nat.add_0_r. repeat split; auto.
    unfold ret. destruct w; reflexivity.
  - cbn [choices]. unfold bind at 1.
    destruct (random_choice_run seq E w Hne) as (x & Hx & Hin). rewrite Hx.
    unfold bind at 1.
    destruct (IH (set_draws (S (draws w)) w)) as (l & Hl & Hlen & Hall).
    rewrite Hl. exists (x :: l). cbn [Datatypes.length]. repeat split; auto.
    unfold ret. change (draws (set_draws (S (draws w)) w)) with (S (draws w)).
    replace (S (draws w) + n)%nat with (draws w + S n)%nat by lia.
    reflexivity.
Qed.

Lemma set_item_perm {A} (a : A) :
  forall (x : list A) (j : nat) (xj : A),
    nth_error x j = Some xj -> Permutation (a :: x) (xj :: set_item x j a).
Proof.
  induction x as [|b x IH]; intros [|j] xj H; cbn in H; try discriminate.
  - inversion H; subst. cbn. apply perm_swap.
  - cbn. eapply perm_trans; [apply perm_swap|].
    eapply perm_trans; [apply perm_skip, (IH _ _ H)|]. apply perm_swap.
Qed.

Lemma swap_perm {A} : forall (x : list A) (i j : nat), Permutation x (swap x i j).
Proof.
  induction x as [|a x IH]; intros i j.
  - unfold swap. destruct (nth_error (@nil A) i), (nth_error (@nil A) j); reflexivity.
  - destruct i as [|i], j as [|j].
    + reflexivity.
    + unfold swap. cbn [nth_error].
      destruct (nth_error x j) as [xj|] eqn:Hj; [|reflexivity].
      cbn. apply set_item_perm, Hj.
    + unfold swap. cbn [nth_error].
      destruct (nth_error x i) as [xi|] eqn:Hi; [|reflexivity].
      cbn. apply set_item_perm, Hi.
    + specialize (IH i j). unfold swap in *. cbn [nth_error].
      destruct (nth_error x i), (nth_error x j); cbn; try reflexivity.
      apply perm_skip, IH.
Qed.

Lemma shuffle_loop_run {A} (E : env) :
  forall (i : nat) (x : list A) (w : world),
  exists y, shuffle_loop i x E w = (Ret y, set_draws (draws w + i)%nat w)
            /\ Permutation x y.
Proof.
  induction i as [|i IH]; intros x w.
  - exists x. cbn. split; [|reflexivity].
    unfold ret. rewrite Nat.add_0_r. destruct w; reflexivity.
  - cbn [shuffle_loop]. unfold next_entropy, bind, get, ask, modify, ret.
    cbn beta iota.
    match goal with
    | |- context [shuffle_loop i ?x1 E ?w1] =>
        destruct (IH x1 w1) as (y & Hy & Hp)
    end.
    exists y. rewrite Hy. split.
    + rewrite Nat.add_succ_r. destruct w; reflexivity.
    + eapply perm_trans; [apply swap_perm|exact Hp].
Qed.


Lemma length_string_of_list_ascii (l : list ascii) :
  String.length (string_of_list_ascii l) = Datatypes.length l.
Proof. induction l as [|c l IH]; cbn; congruence. Qed.

Lemma in_class (class : string) (c : ascii) :
  In c (list_ascii_of_string class) ->
  existsb (Ascii.eqb c) (list_ascii_of_string class) = true.
Proof.
  intros H. apply existsb_exists. exists c. split; [exact H|apply Ascii.eqb_refl].
Qed.

Lemma class_in (class : string) (c : ascii) :
  existsb (Ascii.eqb c) (list_ascii_of_string class) = true ->
  In c (list_ascii_of_string class).
Proof.
  intros H. apply existsb_exists in H. destruct H as (c' & Hin & Heq).
  apply Ascii.eqb_eq in Heq. congruence.
Qed.

Lemma has_char_of_perm (class : string) (c : ascii) (x y : list ascii) :
  In c (list_ascii_of_string class) -> In c x -> Permutation x y ->
  has_char_of class (string_of_list_ascii y) = true.
Proof.
  intros Hc Hx Hp. unfold has_char_of.
  rewrite list_ascii_of_string_of_list_ascii.
  apply existsb_exists. exists c. split.
  - apply (Permutation_in _ Hp Hx).
  - apply in_class, Hc.
Qed.

Lemma password_chars_include (class : string) :
  forallb (fun c => existsb (Ascii.eqb c) (list_ascii_of_string Config.PASSWORD_CHARS))
          (list_ascii_of_string class) = true ->
  forall c, In c (list_ascii_of_string class) ->
            In c (list_ascii_of_string Config.PASSWORD_CHARS).
Proof.
  intros H c Hc. rewrite forallb_forall in H. apply class_in, H, Hc.
Qed.

(** A run of [generate_password]: the characters drawn, and the password
    as a rearrangement of them. *)
Lemma generate_password_run (min_length max_length : option Z) (E : env) (w : world) :
  let lo := match min_length with None => Config.PASSWORD_MIN_LENGTH | Some n => n end in
  let hi := match max_length with None => Config.PASSWORD_MAX_LENGTH | Some n => n end in
  lo <= hi ->
  exists size c1 c2 c3 c4 more y w',
    generate_password min_length max_length E w = (Ret (string_of_list_ascii y), w')
    /\ lo <= size <= hi
    /\ In c1 (list_ascii_of_string PyString.ascii_uppercase)
    /\ In c2 (list_ascii_of_string PyString.ascii_lowercase)
    /\ In c3 (list_ascii_of_string PyString.digits)
    /\ In c4 (list_ascii_of_string PyString.punctuation)
    /\ Datatypes.length more = Z.to_nat (size - 4)
    /\ Forall (fun c => In c (list_ascii_of_string Config.PASSWORD_CHARS)) more
    /\ Permutation ([c1; c2; c3; c4] ++ more)%list y
    /\ set_draws 0 w' = set_draws 0 w.
Proof.
  intros lo hi Hle. unfold generate_password. fold lo hi.
  destruct (random_randint_range lo hi E w Hle) as (size & Hsize & Hrange).
  unfold bind at 1. rewrite Hsize.
  set (w0 := set_draws (S (draws w)) w).
  destruct (random_choice_run (list_ascii_of_string PyString.ascii_uppercase) E w0)
    as (c1 & H1 & Hc1); [discriminate|].
  unfold bind at 1. rewrite H1.
  set (w1 := set_draws (S (draws w0)) w0).
  destruct (random_choice_run (list_ascii_of_string PyString.ascii_lowercase) E w1)
    as (c2 & H2 & Hc2); [discriminate|].
  unfold bind at 1. rewrite H2.
  set (w2 := set_draws (S (draws w1)) w1).
  destruct (random_choice_run (list_ascii_of_string PyString.digits) E w2)
    as (c3 & H3 & Hc3); [discriminate|].
  unfold bind at 1. rewrite H3.
  set (w3 := set_draws (S (draws w2)) w2).
  destruct (random_choice_run (list_ascii_of_string PyString.punctuation) E w3)
    as (c4 & H4 & Hc4); [discriminate|].
  unfold bind at 1. rewrite H4.
  set (w4 := set_draws (S (draws w3)) w3).
  assert (Hchars : list_ascii_of_string Config.PASSWORD_CHARS <> []) by discriminate.
  destruct (choices_run _ E Hchars (Z.to_nat (size - 4)) w4)
    as (more & Hmore & Hlen & Hall).
  unfold bind at 1. rewrite Hmore.
  set (w5 := set_draws (draws w4 + Z.to_nat (size - 4)) w4).
  unfold random_shuffle.
  destruct (shuffle_loop_run E (Datatypes.length ([c1; c2; c3; c4] ++ more)%list - 1)
              ([c1; c2; c3; c4] ++ more)%list w5) as (y & Hy & Hperm).
  unfold bind at 1. rewrite Hy.
  exists size, c1, c2, c3, c4, more, y. eexists. split; [reflexivity|].
  repeat (split; [assumption|]). reflexivity.
Qed.

(** X4.  [generate_password], called with bounds in order, returns a password
    whose length is the size drawn between the bounds, or 4 when that size
    is smaller: the four characters put in first (an upper-case letter, a
    lower-case letter, a digit, a punctuation mark) are always there.  Every
    character is one of [Config.PASSWORD_CHARS]. *)
Theorem generate_password_policy (min_length max_length : option Z) (E : env)
    (w : world) :
  let lo := match min_length with None => Config.PASSWORD_MIN_LENGTH | Some n => n end in
  let hi := match max_length with None => Config.PASSWORD_MAX_LENGTH | Some n => n end in
  lo <= hi ->
  exists pw size w',
    generate_password min_length max_length E w = (Ret pw, w')
    /\ lo <= size <= hi
    /\ Z.of_nat (String.length pw) = Z.max 4 size
    /\ has_char_of PyString.ascii_uppercase pw = true
    /\ has_char_of PyString.ascii_lowercase pw = true
    /\ has_char_of PyString.digits pw = true
    /\ has_char_of PyString.punctuation pw = true
    /\ all_chars_of Config.PASSWORD_CHARS pw = true.
Proof.
  intros lo hi Hle.
  destruct (generate_password_run min_length max_length E w Hle)
    as (size & c1 & c2 & c3 & c4 & more & y & w' & Hrun & Hrange & Hc1 & Hc2 & Hc3
        & Hc4 & Hlen & Hall & Hperm & _).
  fold lo hi in Hrange.
  exists (string_of_list_ascii y), size, w'. split; [exact Hrun|].
  split; [exact Hrange|].
  split.
  { rewrite length_string_of_list_ascii, <- (Permutation_length Hperm).
    cbn [Datatypes.length app]. rewrite Hlen. lia. }
  split; [eapply has_char_of_perm; [exact Hc1| |exact Hperm]; cbn; auto|].
  split; [eapply has_char_of_perm; [exact Hc2| |exact Hperm]; cbn; auto|].
  split; [eapply has_char_of_perm; [exact Hc3| |exact Hperm]; cbn; auto|].
  split; [eapply has_char_of_perm; [exact Hc4| |exact Hperm]; cbn; auto|].
  unfold all_chars_of. rewrite list_ascii_of_string_of_list_ascii.
  apply forallb_forall. intros c Hc. apply in_class.
  apply (Permutation_in _ (Permutation_sym Hperm)) in Hc.
  destruct Hc as [<-|[<-|[<-|[<-|Hc]]]].
  - apply (password_chars_include PyString.ascii_uppercase); [reflexivity|exact Hc1].
  - apply (password_chars_include PyString.ascii_lowercase); [reflexivity|exact Hc2].
  - apply (password_chars_include PyString.digits); [reflexivity|exact Hc3].
  - apply (password_chars_include PyString.punctuation); [reflexivity|exact Hc4].
  - rewrite Forall_forall in Hall. apply Hall, Hc.
Qed.

Lemma generate_password_policy_witness :
  exists pw size w',
    generate_password None None Scenario.counting initial_world = (Ret pw, w')
    /\ 8 <= size <= 12
    /\ Z.of_nat (String.length pw) = Z.max 4 size
    /\ has_char_of PyString.ascii_uppercase pw = true
    /\ has_char_of PyString.ascii_lowercase pw = true
    /\ has_char_of PyString.digits pw = true
    /\ has_char_of PyString.punctuation pw = true
    /\ all_chars_of Config.PASSWORD_CHARS pw = true.
Proof.
  apply (generate_password_policy None None Scenario.counting initial_world).
  unfold Config.PASSWORD_MIN_LENGTH, Config.PASSWORD_MAX_LENGTH. lia.
Defined.


Lemma split_free (sep : ascii) (a : string) :
  free_of sep a = true -> PyStr.split sep a = [a].
Proof.
  unfold free_of. induction a as [|c a IH]; cbn; [reflexivity|].
  intros H. apply andb_true_iff in H. destruct H as [Hc Ha].
  destruct (Ascii.eqb c sep); [discriminate|].
  rewrite (IH Ha). reflexivity.
Qed.

Lemma split_app (sep : ascii) (a rest : string) :
  free_of sep a = true ->
  PyStr.split sep (a ++ String sep rest) = a :: PyStr.split sep rest.
Proof.
  unfold free_of. induction a as [|c a IH]; cbn -[PyStr.split].
  - intros _. cbn. rewrite Ascii.eqb_refl. reflexivity.
  - intros H. apply andb_true_iff in H. destruct H as [Hc Ha].
    cbn. destruct (Ascii.eqb c sep); [discriminate|].
    rewrite (IH Ha). reflexivity.
Qed.

Lemma string_of_uint_free (d : Decimal.uint) :
  free_of "/" (NilEmpty.string_of_uint d) = true.
Proof. unfold free_of. induction d; cbn; auto. Qed.

Lemma of_Z_free (n : Z) : free_of "/" (PyStr.of_Z n) = true.
Proof.
  assert (H : forall d, free_of "/" (NilZero.string_of_uint d) = true).
  { intros d. unfold NilZero.string_of_uint.
    destruct d; try reflexivity; apply string_of_uint_free. }
  unfold PyStr.of_Z, NilZero.string_of_int.
  destruct (Z.to_int n) as [d|d]; [apply H|].
  specialize (H d). unfold free_of in *. cbn. exact H.
Qed.

(** A run of [generate_random_birthday]. *)
Lemma generate_random_birthday_run (min_year max_year : Z) (E : env) (w : world) :
  min_year <= max_year ->
  exists month day year,
    generate_random_birthday min_year max_year E w
    = (Ret (PyStr.of_Z month ++ "/" ++ PyStr.of_Z day ++ "/" ++ PyStr.of_Z year),
       set_draws (draws w + 3)%nat w)
    /\ 1 <= month <= 12
    /\ 1 <= day <= days_in_month month
    /\ min_year <= year <= max_year.
Proof.
  intros Hle. unfold generate_random_birthday.
  destruct (random_randint_range 1 12 E w) as (month & Hm & Hmonth); [lia|].
  unfold bind at 1. rewrite Hm.
  set (w1 := set_draws (S (draws w)) w).
  assert (Hday : exists day,
             (if thirty_days month then random_randint 1 30
              else if month =? 2 then random_randint 1 28
              else random_randint 1 31) E w1
             = (Ret day, set_draws (S (draws w1)) w1)
             /\ 1 <= day <= days_in_month month).
  { assert (Hcases : month = 1 \/ month = 2 \/ month = 3 \/ month = 4 \/ month = 5
                     \/ month = 6 \/ month = 7 \/ month = 8 \/ month = 9
                     \/ month = 10 \/ month = 11 \/ month = 12) by lia.
    repeat destruct Hcases as [->|Hcases]; try subst month;
      cbn [thirty_days existsb Z.eqb Pos.eqb orb days_in_month];
      match goal with
      | |- exists day, random_randint 1 ?b E w1 = _ /\ _ =>
          destruct (random_randint_range 1 b E w1) as (day & Hd & Hr); [lia|];
          exists day; split; [exact Hd|exact Hr]
      end. }
  destruct Hday as (day & Hd & Hday).
  unfold bind at 1. rewrite Hd.
  set (w2 := set_draws (S (draws w1)) w1).
  destruct (random_randint_range min_year max_year E w2 Hle) as (year & Hy & Hyear).
  unfold bind at 1. rewrite Hy.
  exists month, day, year. split; [|auto].
  unfold ret. f_equal. subst w2 w1. cbn.
  replace (draws w + 3)%nat with (S (S (S (draws w)))) by lia.
  destruct w; reflexivity.
Qed.

Lemma split_birthday (month day year : Z) :
  PyStr.split "/" (PyStr.of_Z month ++ "/" ++ PyStr.of_Z day ++ "/" ++ PyStr.of_Z year)
  = [PyStr.of_Z month; PyStr.of_Z day; PyStr.of_Z year].
Proof.
  change (PyStr.of_Z month ++ "/" ++ PyStr.of_Z day ++ "/" ++ PyStr.of_Z year)
    with (PyStr.of_Z month ++ String "/" (PyStr.of_Z day ++ String "/" (PyStr.of_Z year))).
  rewrite (split_app _ _ _ (of_Z_free month)), (split_app _ _ _ (of_Z_free day)),
    (split_free _ _ (of_Z_free year)).
  reflexivity.
Qed.

(** X5.  [generate_random_birthday], called with years in order, returns
    "month/day/year" for a date that exists in every year: the month is
    between 1 and 12, the day between 1 and the length of that month in a
    year that is not a leap year, the year between the bounds.  Splitting
    the string at "/", as [_fill_second_step] does, gives back the three
    numbers. *)
Theorem generate_random_birthday_valid (min_year max_year : Z) (E : env) (w : world) :
  min_year <= max_year ->
  exists month day year w',
    generate_random_birthday min_year max_year E w
    = (Ret (PyStr.of_Z month ++ "/" ++ PyStr.of_Z day ++ "/" ++ PyStr.of_Z year), w')
    /\ 1 <= month <= 12
    /\ 1 <= day <= days_in_month month
    /\ min_year <= year <= max_year
    /\ PyStr.split "/" (PyStr.of_Z month ++ "/" ++ PyStr.of_Z day ++ "/" ++ PyStr.of_Z year)
       = [PyStr.of_Z month; PyStr.of_Z day; PyStr.of_Z year].
Proof.
  intros Hle.
  destruct (generate_random_birthday_run min_year max_year E w Hle)
    as (month & day & year & Hrun & Hm & Hd & Hy).
  exists month, day, year. eexists. split; [exact Hrun|].
  repeat (split; [assumption|]). apply split_birthday.
Qed.

Lemma generate_random_birthday_valid_witness :
  exists month day year w',
    generate_random_birthday 1980 1999 Scenario.counting initial_world
    = (Ret (PyStr.of_Z month ++ "/" ++ PyStr.of_Z day ++ "/" ++ PyStr.of_Z year), w')
    /\ 1 <= month <= 12
    /\ 1 <= day <= days_in_month month
    /\ 1980 <= year <= 1999
    /\ PyStr.split "/" (PyStr.of_Z month ++ "/" ++ PyStr.of_Z day ++ "/" ++ PyStr.of_Z year)
       = [PyStr.of_Z month; PyStr.of_Z day; PyStr.of_Z year].
Proof.
  apply (generate_random_birthday_valid 1980 1999 Scenario.counting initial_world).
  lia.
Defined.


(** A run of [generate_username] that returns: the name has the form the
    source gives it, is none of the existing ones, and only the random
    generator has moved. *)
Lemma generate_username_inv (fuel : nat) (first last : string)
    (existing : option (list string)) (E : env) :
  forall (w w' : world) (name : string),
    UserManager.generate_username fuel first last existing E w = (Ret name, w') ->
    (exists digits,
        10000 <= digits <= 99999
        /\ name = UserManager.username_base first last ++ PyStr.of_Z digits)
    /\ (forall l, existing = Some l -> ~ In name l)
    /\ (draws w < draws w')%nat
    /\ set_draws 0 w' = set_draws 0 w.
Proof.
  induction fuel as [|fuel IH]; intros w w' name Hrun; [discriminate Hrun|].
  cbn [UserManager.generate_username] in Hrun.
  apply bind_Ret_inv in Hrun. destruct Hrun as (digits & w1 & Hm & Hrun).
  destruct (random_randint_range 10000 99999 E w) as (n & Hn & Hrange); [lia|].
  rewrite Hn in Hm. inversion Hm; subst n w1; clear Hm Hn.
  assert (Hhere : forall w2 name2,
             @ret string (UserManager.username_base first last ++ PyStr.of_Z digits)
                  E (set_draws (S (draws w)) w) = (Ret name2, w2) ->
             (exists digits,
                 10000 <= digits <= 99999
                 /\ name2 = UserManager.username_base first last ++ PyStr.of_Z digits)
             /\ (draws w < draws w2)%nat
             /\ set_draws 0 w2 = set_draws 0 w).
  { intros w2 name2 H. inversion H; subst. split; [exists digits; auto|].
    cbn. split; [lia|reflexivity]. }
  destruct existing as [[|u l]|].
  - destruct (Hhere _ _ Hrun) as (Hf & Hd & Hw).
    repeat split; auto. intros l Hl. inversion Hl; subst. intros [].
  - destruct (existsb (String.eqb (UserManager.username_base first last
                                    ++ PyStr.of_Z digits)) (u :: l)) eqn:Hin.
    + destruct (IH _ _ _ Hrun) as (Hform & Hfresh & Hd & Hw).
      split; [exact Hform|]. split; [exact Hfresh|].
      split; [cbn in Hd; lia|rewrite Hw; reflexivity].
    + destruct (Hhere _ _ Hrun) as (Hf & Hd & Hw).
      repeat split; auto. intros l' Hl. inversion Hl; subst l'. intros Hmem.
      inversion Hrun; subst name.
      assert (Ht : existsb (String.eqb (UserManager.username_base first last
                                          ++ PyStr.of_Z digits)) (u :: l) = true).
      { apply existsb_exists. eexists. split; [exact Hmem|apply String.eqb_refl]. }
      congruence.
  - destruct (Hhere _ _ Hrun) as (Hf & Hd & Hw).
    repeat split; auto. intros l Hl. discriminate Hl.
Qed.



(** The first candidate that is free is returned, if the recursion gets
    that far. *)
Lemma generate_username_returns (first last : string) (existing : list string)
    (E : env) (k : nat) :
  forall (fuel : nat) (w : world),
    let candidate (i : nat) :=
      UserManager.username_base first last
      ++ PyStr.of_Z (10000 + entropy E (draws w + i) mod 90000) in
    (forall i, (i < k)%nat -> In (candidate i) existing) ->
    ~ In (candidate k) existing ->
    (k < fuel)%nat ->
    UserManager.generate_username fuel first last (Some existing) E w
    = (Ret (candidate k), set_draws (draws w + S k) w).
Proof.
  induction k as [|k IH]; intros fuel w candidate Htaken Hfresh Hfuel;
    (destruct fuel as [|fuel]; [lia|]); cbn [UserManager.generate_username];
    unfold random_randint, next_entropy, bind, get, ask, modify, ret;
    cbn [Z.ltb Z.compare Pos.compare Pos.compare_cont];
    change (99999 - 10000 + 1) with 90000.
  - subst candidate. cbn beta in Hfresh. rewrite Nat.add_0_r in Hfresh.
    assert (Hno : existsb (String.eqb (UserManager.username_base first last
                    ++ PyStr.of_Z (10000 + entropy E (draws w) mod 90000))) existing
                  = false).
    { apply not_true_is_false. intros H. apply Hfresh.
      apply existsb_exists in H. destruct H as (u & Hin & Heq).
      apply String.eqb_eq in Heq. congruence. }
    rewrite Hno. rewrite Nat.add_0_r.
    replace (draws w + 1)%nat with (S (draws w)) by lia.
    destruct existing; reflexivity.
  - assert (H0 : In (UserManager.username_base first last
                     ++ PyStr.of_Z (10000 + entropy E (draws w) mod 90000)) existing).
    { specialize (Htaken 0%nat). subst candidate. cbn beta in Htaken.
      rewrite Nat.add_0_r in Htaken. apply Htaken. lia. }
    assert (Hyes : existsb (String.eqb (UserManager.username_base first last
                    ++ PyStr.of_Z (10000 + entropy E (draws w) mod 90000))) existing
                   = true).
    { apply existsb_exists. eexists. split; [exact H0|apply String.eqb_refl]. }
    destruct existing as [|u l]; [destruct H0|].
    rewrite Hyes.
    rewrite (IH fuel (set_draws (S (draws w)) w)).
    + subst candidate. cbv beta.
      change (draws (set_draws (S (draws w)) w)) with (S (draws w)).
      replace (S (draws w) + k)%nat with (draws w + S k)%nat by lia.
      replace (S (draws w) + S k)%nat with (draws w + S (S k))%nat by lia.
      reflexivity.
    + intros i Hi. change (draws (set_draws (S (draws w)) w)) with (S (draws w)).
      replace (S (draws w) + i)%nat with (draws w + S i)%nat by lia.
      apply Htaken. lia.
    + change (draws (set_draws (S (draws w)) w)) with (S (draws w)).
      replace (S (draws w) + k)%nat with (draws w + S k)%nat by lia.
      exact Hfresh.
    + lia.
Qed.

(** A recursion that meets only taken names ends in [RecursionError]. *)
Lemma generate_username_too_deep (first last : string) (existing : list string)
    (E : env) :
  forall (fuel : nat) (w : world),
    (forall i, (i < fuel)%nat ->
       In (UserManager.username_base first last
           ++ PyStr.of_Z (10000 + entropy E (draws w + i) mod 90000)) existing) ->
    fst (UserManager.generate_username fuel first last (Some existing) E w)
    = Raise RecursionError.
Proof.
  induction fuel as [|fuel IH]; intros w Htaken; [reflexivity|].
  cbn [UserManager.generate_username].
  unfold random_randint, next_entropy, bind, get, ask, modify, ret.
  cbn [Z.ltb Z.compare Pos.compare Pos.compare_cont].
  change (99999 - 10000 + 1) with 90000.
  assert (H0 : In (UserManager.username_base first last
                   ++ PyStr.of_Z (10000 + entropy E (draws w) mod 90000)) existing).
  { specialize (Htaken 0%nat). rewrite Nat.add_0_r in Htaken. apply Htaken. lia. }
  assert (Hyes : existsb (String.eqb (UserManager.username_base first last
                  ++ PyStr.of_Z (10000 + entropy E (draws w) mod 90000))) existing
                 = true).
  { apply existsb_exists. eexists. split; [exact H0|apply String.eqb_refl]. }
  destruct existing as [|u l]; [destruct H0|].
  rewrite Hyes. apply IH.
  intros i Hi. change (draws (set_draws (S (draws w)) w)) with (S (draws w)).
  replace (S (draws w) + i)%nat with (draws w + S i)%nat by lia.
  apply Htaken. lia.
Qed.

(** X6.  [generate_username] returns the first candidate that is not among the
    existing usernames, as long as the interpreter lets the recursion get
    there: when the first [k] draws give names that are taken and the next
    one a name that is not, a call that may nest [depth] calls (at most the
    interpreter's limit) returns that name after [k + 1] draws if
    [k < depth], and raises [RecursionError] otherwise. *)
Theorem generate_username_first_fresh (first last : string) (existing : list string)
    (E : env) (k depth : nat) (w : world) :
  let candidate (i : nat) :=
    UserManager.username_base first last
    ++ PyStr.of_Z (10000 + entropy E (draws w + i) mod 90000) in
  let run := UserManager.generate_username depth first last (Some existing) E w in
  (forall i, (i < k)%nat -> In (candidate i) existing) ->
  ~ In (candidate k) existing ->
  (depth <= recursion_limit)%nat ->
  ((k < depth)%nat -> run = (Ret (candidate k), set_draws (draws w + S k) w))
  /\ ((depth <= k)%nat -> fst run = Raise RecursionError).
Proof.
  intros candidate run Htaken Hfresh _. split; intros Hdepth; subst run.
  - apply generate_username_returns; assumption.
  - apply generate_username_too_deep. intros i Hi. apply Htaken. lia.
Qed.

Lemma generate_username_first_fresh_witness :
  UserManager.generate_username 2 "Jane" "Doe" (Some ["jane.doe10000"])
    Scenario.counting initial_world
  = (Ret "jane.doe10001", set_draws 2 initial_world)
  /\ fst (UserManager.generate_username 1 "Jane" "Doe" (Some ["jane.doe10000"])
            Scenario.counting initial_world)
     = Raise RecursionError.
Proof.
  split.
  - apply (generate_username_first_fresh "Jane" "Doe" ["jane.doe10000"]
             Scenario.counting 1 2 initial_world).
    + intros i Hi. assert (i = 0)%nat as -> by lia. left. reflexivity.
    + intros [H|[]]. discriminate H.
    + unfold recursion_limit. lia.
    + lia.
  - reflexivity.
Defined.


(** X7.  [_load_user_info_file] has two outcomes.  It returns when the file can
    be read and rows are left once a heading row (one whose first cell
    contains "Firstname") is dropped: these rows become [user_infos] and
    their number [user_count], whatever count the manager was built with.
    Everything else (no file, no row, a first row without a cell, a heading
    row alone) raises the same [ValueError]. *)
Theorem load_user_info_file_cases (files : string -> option (list (list string)))
    (path : string) (self : manager) (E : env) (w : world) :
  let run := _load_user_info_file files path self E w in
  (exists rows self',
      fst run = Ret self'
      /\ files path = Some rows
      /\ user_infos self' <> []
      /\ user_count self' = Z.of_nat (Datatypes.length (user_infos self'))
      /\ auto_generate self' = auto_generate self
      /\ ((exists cell cells rest,
              rows = (cell :: cells) :: rest
              /\ PyStr.contains "Firstname" cell = false
              /\ user_infos self' = rows)
          \/ (exists cell cells,
                 rows = (cell :: cells) :: user_infos self'
                 /\ PyStr.contains "Firstname" cell = true)))
  \/ (fst run = Raise (ValueError ("Failed to load user information. Please check if "
                                    ++ path ++ " exists."))
      /\ (files path = None
          \/ files path = Some []
          \/ (exists rest, files path = Some ([] :: rest))
          \/ (exists cell cells,
                 files path = Some [cell :: cells]
                 /\ PyStr.contains "Firstname" cell = true))).
Proof.
  intros run. subst run.
  unfold _load_user_info_file, try_except, read_rows, bind, logger, modify, ret, raise.
  destruct (files path) as [[|[|cell cells] rest]|]; cbn [fst snd any_exception].
  - right. split; [reflexivity|]. auto.
  - right. split; [reflexivity|]. right. right. left. exists rest. reflexivity.
  - destruct (PyStr.contains "Firstname" cell) eqn:Hhead; cbn [fst snd any_exception].
    + destruct rest as [|row rest]; cbn [fst snd any_exception].
      * right. split; [reflexivity|]. right. right. right.
        exists cell, cells. auto.
      * left. eexists. eexists. split; [reflexivity|]. split; [reflexivity|].
        cbn [user_infos user_count auto_generate].
        split; [discriminate|]. split; [reflexivity|]. split; [reflexivity|].
        right. exists cell, cells. auto.
    + left. eexists. eexists. split; [reflexivity|]. split; [reflexivity|].
      cbn [user_infos user_count auto_generate].
      split; [discriminate|]. split; [reflexivity|]. split; [reflexivity|].
      left. exists cell, cells, rest. auto.
  - right. split; [reflexivity|]. auto.
Qed.

(** X8.  [_load_name_files] reads the first names, then the last names.  It
    returns when both files can be read and have a row, and then holds
    their rows.  A first-name file that cannot be read or is empty raises
    the first [ValueError], whatever the last-name file is; with the first
    names loaded, a last-name file that cannot be read or is empty raises
    the second. *)
Theorem load_name_files_cases (files : string -> option (list (list string)))
    (self : manager) (E : env) (w : world) :
  let run := _load_name_files files self E w in
  let unusable (path : string) := files path = None \/ files path = Some [] in
  (exists firsts lasts self',
      fst run = Ret self'
      /\ files Config.FIRST_NAMES_PATH = Some firsts /\ firsts <> []
      /\ files Config.LAST_NAMES_PATH = Some lasts /\ lasts <> []
      /\ first_names self' = firsts /\ last_names self' = lasts
      /\ auto_generate self' = auto_generate self
      /\ user_count self' = user_count self)
  \/ (fst run
      = Raise (ValueError
                 "Failed to load first name database. Please check if First_Name_DB.csv exists.")
      /\ unusable Config.FIRST_NAMES_PATH)
  \/ (fst run
      = Raise (ValueError
                 "Failed to load last name database. Please check if Last_Name_DB.csv exists.")
      /\ ~ unusable Config.FIRST_NAMES_PATH
      /\ unusable Config.LAST_NAMES_PATH).
Proof.
  intros run unusable. subst run unusable.
  unfold _load_name_files, try_except, read_rows, bind, logger, modify, ret, raise.
  destruct (files Config.FIRST_NAMES_PATH) as [[|first firsts]|] eqn:Hfirst;
    cbn [fst snd any_exception].
  - right. left. auto.
  - destruct (files Config.LAST_NAMES_PATH) as [[|last lasts]|] eqn:Hlast;
      cbn [fst snd any_exception].
    + right. right. split; [reflexivity|]. split; [|auto].
      intros [H|H]; discriminate H.
    + left. exists (first :: firsts), (last :: lasts). eexists.
      split; [reflexivity|]. cbn. repeat split; auto; discriminate.
    + right. right. split; [reflexivity|]. split; [|auto].
      intros [H|H]; discriminate H.
  - right. left. auto.
Qed.

Lemma item_nth_error {A} (l : list A) (i : nat) :
  item l (Z.of_nat i) = nth_error l i.
Proof.
  unfold item. replace (0 <=? Z.of_nat i) with true by (symmetry; apply Z.leb_le; lia).
  rewrite Nat2Z.id. reflexivity.
Qed.

(** X9.  Reading a user from the loaded file is what the orchestrator's
    environment [with_users] answers: [get_user_data] of a manager that
    loads its users gives the dict of the row at the index (its first four
    cells and the fifth as manual username, if there is one), and [None]
    beyond the count, at an index that has no row, and for a row of fewer
    than four cells.  It never raises.  The two runs leave the same world
    but for the wording of the log, and log at the same levels. *)
Theorem get_user_data_from_file (fuel : nat) (self : manager) (index : Z)
    (E : env) (w : world) :
  auto_generate self = false ->
  let loaded := get_user_data fuel self index E w in
  let asked := UserManager.get_user_data index (with_users self E) w in
  fst loaded
  = match fst asked with
    | Ret found => Ret (option_map (fun u => mkDict u None) found)
    | Raise e => Raise e
    | OutOfFuel => OutOfFuel
    end
  /\ (forall e, fst loaded <> Raise e)
  /\ set_log [] (snd loaded) = set_log [] (snd asked)
  /\ map fst (log (snd loaded)) = map fst (log (snd asked)).
Proof.
  intros Hmode loaded asked. subst loaded asked.
  unfold get_user_data, UserManager.get_user_data, with_users, lookup_in_file.
  rewrite Hmode.
  unfold bind, ask, logger, modify, ret, raise, try_except.
  cbn [user_db fst snd].
  assert (Hlevels : forall (l : list (level * string)) (a b : string) (lv : level),
             map fst (l ++ [(lv, a)])%list = map fst (l ++ [(lv, b)])%list).
  { intros l a b lv. rewrite !map_app. reflexivity. }
  destruct (user_count self <=? index); cbn [fst snd].
  { split; [reflexivity|]. split; [discriminate|]. split; [reflexivity|].
    cbn [log set_log]. apply Hlevels. }
  destruct (item (user_infos self) index) as [row|]; cbn [fst snd].
  2:{ split; [reflexivity|]. split; [discriminate|]. split; [reflexivity|].
      cbn [log set_log]. apply Hlevels. }
  change 0 with (Z.of_nat 0). change 1 with (Z.of_nat 1).
  change 2 with (Z.of_nat 2). change 3 with (Z.of_nat 3).
  change 4 with (Z.of_nat 4). rewrite !item_nth_error.
  destruct row as [|c0 [|c1 [|c2 [|c3 rest]]]]; cbn [nth_error fst snd];
    try (split; [reflexivity|]; split; [discriminate|]; split; [reflexivity|];
         cbn [log set_log]; apply Hlevels).
  destruct rest as [|c4 rest].
  - cbn. split; [reflexivity|]. split; [discriminate|]. split; reflexivity.
  - replace (Z.of_nat 4 <? Z.of_nat (Datatypes.length (c0 :: c1 :: c2 :: c3 :: c4 :: rest)))
      with true by (symmetry; apply Z.ltb_lt; cbn [Datatypes.length]; lia).
    cbn [nth_error option_map fst snd].
    split; [reflexivity|]. split; [discriminate|]. split; reflexivity.
Qed.


Lemma get_user_data_from_file_witness :
  fst (get_user_data 1 Scenario.roster 0 Scenario.counting initial_world)
  = match fst (UserManager.get_user_data 0
                 (with_users Scenario.roster Scenario.counting) initial_world) with
    | Ret found => Ret (option_map (fun u => mkDict u None) found)
    | Raise e => Raise e
    | OutOfFuel => OutOfFuel
    end
  /\ (forall e, fst (get_user_data 1 Scenario.roster 0 Scenario.counting initial_world)
                <> Raise e)
  /\ set_log [] (snd (get_user_data 1 Scenario.roster 0 Scenario.counting initial_world))
     = set_log [] (snd (UserManager.get_user_data 0
                          (with_users Scenario.roster Scenario.counting) initial_world))
  /\ map fst (log (snd (get_user_data 1 Scenario.roster 0 Scenario.counting
                          initial_world)))
     = map fst (log (snd (UserManager.get_user_data 0
                            (with_users Scenario.roster Scenario.counting)
                            initial_world))).
Proof.
  apply (get_user_data_from_file 1 Scenario.roster 0 Scenario.counting initial_world).
  reflexivity.
Defined.

(** X10.  A row of fewer than four cells (a blank line of the file gives a row of
    none) is no user: [get_user_data] returns [None] for it, and the
    attempt of the orchestrator at that index counts one failure and moves
    on, without starting the browser, drawing a random number or pausing. *)
Theorem short_row_counts_as_failure (fuel : nat) (self : manager) (row : list string)
    (E : env) (w : world) :
  auto_generate self = false ->
  0 <= current_index w < user_count self ->
  item (user_infos self) (current_index w) = Some row ->
  (Datatypes.length row < 4)%nat ->
  fst (get_user_data fuel self (current_index w) E w) = Ret None
  /\ fst (AccountCreator.attempt fuel (with_users self E) w) = Ret tt
  /\ counters (snd (AccountCreator.attempt fuel (with_users self E) w))
     = (current_index w + 1, successful_accounts w, failed_accounts w + 1)
  /\ trace (snd (AccountCreator.attempt fuel (with_users self E) w)) = trace w
  /\ driver (snd (AccountCreator.attempt fuel (with_users self E) w)) = driver w
  /\ draws (snd (AccountCreator.attempt fuel (with_users self E) w)) = draws w.
Proof.
  intros Hmode Hindex Hrow Hshort.
  assert (Hcount : (user_count self <=? current_index w) = false)
    by (apply Z.leb_gt; lia).
  assert (Hmissing : lookup_in_file self (current_index w) = UserMissing).
  { unfold lookup_in_file. rewrite Hcount, Hrow.
    destruct row as [|c0 [|c1 [|c2 [|c3 rest]]]]; try reflexivity.
    cbn in Hshort. lia. }
  split.
  - unfold get_user_data. rewrite Hmode, Hcount.
    unfold bind, try_except. rewrite Hrow.
    change 0 with (Z.of_nat 0). change 1 with (Z.of_nat 1).
    change 2 with (Z.of_nat 2). change 3 with (Z.of_nat 3).
    rewrite !item_nth_error.
    destruct row as [|c0 [|c1 [|c2 [|c3 rest]]]]; try reflexivity.
    cbn in Hshort. lia.
  - unfold AccountCreator.attempt, try_except, AccountCreator.attempt_body,
      UserManager.get_user_data, with_users.
    unfold bind, ask, get, logger, modify, ret.
    cbn [user_db fst snd current_index set_log]. rewrite Hmissing.
    cbn. repeat split.
Qed.

Lemma short_row_counts_as_failure_witness :
  fst (get_user_data 1 Scenario.roster 1 Scenario.counting
         (set_current_index 1 initial_world)) = Ret None
  /\ fst (AccountCreator.attempt 1 (with_users Scenario.roster Scenario.counting)
            (set_current_index 1 initial_world)) = Ret tt
  /\ counters (snd (AccountCreator.attempt 1
                      (with_users Scenario.roster Scenario.counting)
                      (set_current_index 1 initial_world)))
     = (2, 0, 1)
  /\ trace (snd (AccountCreator.attempt 1
                   (with_users Scenario.roster Scenario.counting)
                   (set_current_index 1 initial_world))) = []
  /\ driver (snd (AccountCreator.attempt 1
                    (with_users Scenario.roster Scenario.counting)
                    (set_current_index 1 initial_world))) = false
  /\ draws (snd (AccountCreator.attempt 1
                   (with_users Scenario.roster Scenario.counting)
                   (set_current_index 1 initial_world))) = 0%nat.
Proof.
  apply (short_row_counts_as_failure 1 Scenario.roster ["John"; "Roe"]
           Scenario.counting (set_current_index 1 initial_world)).
  - reflexivity.
  - cbn. lia.
  - reflexivity.
  - cbn. lia.
Defined.

Lemma choose_name_inv (rows : list (list string)) (E : env) (w w' : world)
    (name : string) :
  choose_name rows E w = (Ret name, w') ->
  (exists cells, In (name :: cells) rows) /\ w' = set_draws (S (draws w)) w.
Proof.
  unfold choose_name. intros H.
  apply bind_Ret_inv in H. destruct H as (row & w1 & Hrow & H).
  destruct rows as [|r rows]; [discriminate Hrow|].
  destruct (random_choice_run (r :: rows) E w) as (x & Hx & Hin); [discriminate|].
  rewrite Hx in Hrow. inversion Hrow; subst x w1; clear Hrow Hx.
  destruct row as [|n cells]; [discriminate H|].
  inversion H; subst. split; [exists cells; exact Hin|reflexivity].
Qed.

(** X11.  What [get_user_data] generates.  When a manager that generates its
    users returns a dict, the index is below the count; the two names are
    first cells of rows of the name databases; the password has between 8
    and 12 characters; the birthday splits at "/" into three parts, so the
    birthday step can read month, day and year; the manual username is
    empty; and the username is none of those of the accounts created so
    far.  Only the random generator and the log have moved. *)
Theorem generated_user_data (fuel : nat) (self : manager) (index : Z) (E : env)
    (w w' : world) (d : user_dict) :
  auto_generate self = true ->
  get_user_data fuel self index E w = (Ret (Some d), w') ->
  index < user_count self
  /\ (exists cells, In (first_name (data d) :: cells) (first_names self))
  /\ (exists cells, In (last_name (data d) :: cells) (last_names self))
  /\ 8 <= Z.of_nat (String.length (password (data d))) <= 12
  /\ Datatypes.length (PyStr.split "/" (birthday (data d))) = 3%nat
  /\ manual_username (data d) = ""
  /\ (exists name,
         username d = Some name
         /\ ~ In name (map acc_username (created_accounts w)))
  /\ set_log [] (set_draws 0 w') = set_log [] (set_draws 0 w).
Proof.
  intros Hmode Hrun. unfold get_user_data in Hrun. rewrite Hmode in Hrun.
  destruct (user_count self <=? index) eqn:Hcount.
  { apply bind_Ret_inv in Hrun. destruct Hrun as (? & ? & _ & Hrun).
    discriminate Hrun. }
  apply Z.leb_gt in Hcount. split; [lia|].
  apply bind_Ret_inv in Hrun. destruct Hrun as (user & w6 & Hgen & Hrun).
  apply bind_Ret_inv in Hgen. destruct Hgen as (first & w1 & Hfirst & Hgen).
  apply bind_Ret_inv in Hgen. destruct Hgen as (last & w2 & Hlast & Hgen).
  apply bind_Ret_inv in Hgen. destruct Hgen as (pw & w3 & Hpw & Hgen).
  apply bind_Ret_inv in Hgen. destruct Hgen as (bd & w4 & Hbd & Hgen).
  apply bind_Ret_inv in Hgen. destruct Hgen as (existing & w5 & Hex & Hgen).
  apply bind_Ret_inv in Hgen. destruct Hgen as (name & w7 & Hname & Hgen).
  inversion Hgen; subst user w7; clear Hgen.
  apply bind_Ret_inv in Hrun. destruct Hrun as ([] & w8 & Hlog & Hrun).
  inversion Hrun; subst d w8; clear Hrun.
  inversion Hlog; subst w'; clear Hlog.
  inversion Hex; subst existing w5; clear Hex.
  apply choose_name_inv in Hfirst. destruct Hfirst as (Hfirst & ->).
  apply choose_name_inv in Hlast. destruct Hlast as (Hlast & ->).
  destruct (generate_password_run None None E
              (set_draws (S (draws (set_draws (S (draws w)) w)))
                         (set_draws (S (draws w)) w)))
    as (size & c1 & c2 & c3 & c4 & more & y & w3' & Hpw' & Hrange & _ & _ & _ & _
        & Hlen & _ & Hperm & Hw3).
  { unfold Config.PASSWORD_MIN_LENGTH, Config.PASSWORD_MAX_LENGTH. lia. }
  rewrite Hpw' in Hpw. inversion Hpw; subst pw w3'; clear Hpw.
  destruct (generate_random_birthday_run 1980 1999 E w3)
    as (month & day & year & Hbd' & _); [lia|].
  rewrite Hbd' in Hbd. inversion Hbd; subst bd w4; clear Hbd.
  apply generate_username_inv in Hname.
  destruct Hname as (_ & Hfresh & _ & Hw6).
  assert (Hsame : set_draws 0 w6 = set_draws 0 w).
  { rewrite Hw6. change (set_draws 0 (set_draws (draws w3 + 3) w3)) with (set_draws 0 w3).
    rewrite Hw3. reflexivity. }
  assert (Hcreated : created_accounts w3 = created_accounts w).
  { apply (f_equal created_accounts) in Hw3. exact Hw3. }
  cbn [data username first_name last_name password birthday manual_username].
  split; [exact Hfirst|]. split; [exact Hlast|].
  split.
  { rewrite length_string_of_list_ascii, <- (Permutation_length Hperm).
    cbn [Datatypes.length app]. rewrite Hlen.
    unfold Config.PASSWORD_MIN_LENGTH, Config.PASSWORD_MAX_LENGTH in Hrange. lia. }
  split; [exact (f_equal (@Datatypes.length _) (split_birthday month day year))|].
  split; [reflexivity|].
  split.
  { exists name. split; [reflexivity|].
    change (created_accounts (set_draws (draws w3 + 3) w3)) with (created_accounts w3)
      in Hfresh.
    rewrite Hcreated in Hfresh. apply (Hfresh _ eq_refl). }
  apply (f_equal (set_log [])) in Hsame. exact Hsame.
Qed.

Lemma generated_user_data_witness :
  0 < 1
  /\ (exists cells, In ("Jane" :: cells) [["Jane"]])
  /\ (exists cells, In ("Doe" :: cells) [["Doe"]])
  /\ 8 <= Z.of_nat (String.length "DeJHML5KI'") <= 12
  /\ Datatypes.length (PyStr.split "/" "11/24/1984") = 3%nat
  /\ "" = ""
  /\ (exists name,
         Some "jane.doe10025" = Some name
         /\ ~ In name (map acc_username (created_accounts initial_world)))
  /\ set_log [] (set_draws 0 (snd (get_user_data 1 Scenario.generator 0
                                     Scenario.counting initial_world)))
     = set_log [] (set_draws 0 initial_world).
Proof.
  apply (generated_user_data 1 Scenario.generator 0 Scenario.counting initial_world
           (snd (get_user_data 1 Scenario.generator 0 Scenario.counting initial_world))
           (mkDict (mkUser "Jane" "Doe" "DeJHML5KI'" "11/24/1984" "")
                   (Some "jane.doe10025"))).
  - reflexivity.
  - vm_compute. reflexivity.
Defined.

End UsersFacts.

(** ** proxy_manager.py *)

Module ProxyFacts.

Import ProxyManager.

Ltac proxy_step :=
  unfold pbind, ptry, FreeProxy_get, requests_get, note, pret;
  cbn [fst snd max_retries _current_proxy fetches probes journal any_exception].

Lemma verify_proxy_run (proxy : string) (N : net) (s : state) :
  exists r s',
    verify_proxy proxy N s = (r, s')
    /\ settings s' = settings s
    /\ fetches s' = fetches s
    /\ probes s' = S (probes s)
    /\ r <> OutOfFuel
    /\ (r = Ret true -> probe N (probes s) proxy = StatusCode 200)
    /\ (forall e, r = Raise e -> probe N (probes s) proxy = ProbeRaises e
                                 /\ is_RequestException e = false).
Proof.
  unfold verify_proxy. proxy_step.
  destruct (probe N (probes s) proxy) as [code|e] eqn:Hprobe.
  - destruct (code =? 200) eqn:Hcode; cbn [fst snd];
      eexists; eexists; (split; [reflexivity|]);
      (split; [reflexivity|]); (split; [reflexivity|]); (split; [reflexivity|]);
      (split; [discriminate|]); (split; [|intros e H; discriminate H]).
    + intros _. apply Z.eqb_eq in Hcode. congruence.
    + intros H. discriminate H.
  - destruct (is_RequestException e) eqn:Hclass; cbn [fst snd];
      eexists; eexists; (split; [reflexivity|]);
      (split; [reflexivity|]); (split; [reflexivity|]); (split; [reflexivity|]);
      (split; [discriminate|]); (split; [intros H; discriminate H|]).
    + intros e' H. discriminate H.
    + intros e' H. inversion H; subst. auto.
Qed.

(** The search loop. *)
Lemma get_working_proxy_loop_run (N : net) :
  forall (n : nat) (s : state),
  exists r s',
    get_working_proxy_loop n N s = (Ret r, s')
    /\ settings s' = settings s
    /\ (fetches s <= fetches s' <= fetches s + n)%nat
    /\ (probes s <= probes s')%nat
    /\ (probes s' + fetches s <= probes s + fetches s')%nat
    /\ match r with
       | Some p =>
           PyStr.truthy p = true
           /\ (fetches s < fetches s')%nat
           /\ free_proxy N (Nat.pred (fetches s')) = Fetched (Some p)
           /\ (probes s < probes s')%nat
           /\ probe N (Nat.pred (probes s')) p = StatusCode 200
       | None => fetches s' = (fetches s + n)%nat
       end.
Proof.
  induction n as [|n IH]; intros s.
  - exists None, s. cbn. repeat split; lia.
  - cbn [get_working_proxy_loop].
    assert (Hnext : forall s1,
               settings s1 = settings s ->
               fetches s1 = S (fetches s) ->
               (probes s <= probes s1 <= S (probes s))%nat ->
               exists r s',
                 get_working_proxy_loop n N s1 = (Ret r, s')
                 /\ settings s' = settings s
                 /\ (fetches s <= fetches s' <= fetches s + S n)%nat
                 /\ (probes s <= probes s')%nat
                 /\ (probes s' + fetches s <= probes s + fetches s')%nat
                 /\ match r with
                    | Some p =>
                        PyStr.truthy p = true
                        /\ (fetches s < fetches s')%nat
                        /\ free_proxy N (Nat.pred (fetches s')) = Fetched (Some p)
                        /\ (probes s < probes s')%nat
                        /\ probe N (Nat.pred (probes s')) p = StatusCode 200
                    | None => fetches s' = (fetches s + S n)%nat
                    end).
    { intros s1 Hset Hf Hp.
      destruct (IH s1) as (r & s' & Hrun & Hset' & Hf' & Hp' & Hpf & Hr).
      exists r, s'. split; [exact Hrun|]. split; [congruence|].
      split; [lia|]. split; [lia|]. split; [lia|].
      destruct r as [p|]; [|lia].
      destruct Hr as (Ht & Hlt & Hfetch & Hlt' & Hprobe).
      repeat split; auto; lia. }
    unfold pbind at 1. unfold ptry at 1. unfold pbind at 1. unfold FreeProxy_get at 1.
    destruct (free_proxy N (fetches s)) as [proxy|e] eqn:Hfetch.
    + destruct (PyStr.truthy_opt proxy) eqn:Htruthy; cbn [negb].
      * destruct proxy as [p|]; [|discriminate Htruthy]. cbn [PyStr.truthy_opt] in Htruthy.
        unfold pbind at 1. unfold note at 1. unfold pbind at 1.
        match goal with
        | |- context [verify_proxy p N ?s1] =>
            destruct (verify_proxy_run p N s1)
              as (r & s2 & Hv & Hset2 & Hf2 & Hp2 & Hfuel & Hok & Hraise);
            rewrite Hv
        end.
        unfold settings in Hset2. cbn in Hset2, Hf2, Hp2, Hok.
        injection Hset2 as Hmax Hcur.
        destruct r as [[|]|e|]; [| | |congruence].
        -- (* verified *)
           proxy_step. eexists. eexists. split; [reflexivity|].
           unfold settings. cbn. rewrite Hf2, Hp2, Hmax, Hcur.
           split; [reflexivity|].
           split; [lia|]. split; [lia|]. split; [lia|].
           split; [exact Htruthy|]. split; [lia|]. split; [exact Hfetch|].
           split; [lia|]. apply Hok. reflexivity.
        -- proxy_step. apply Hnext.
           ++ unfold settings. cbn. congruence.
           ++ cbn. exact Hf2.
           ++ cbn. lia.
        -- proxy_step. apply Hnext.
           ++ unfold settings. cbn. congruence.
           ++ cbn. exact Hf2.
           ++ cbn. lia.
      * proxy_step. apply Hnext; cbn; try reflexivity; lia.
    + proxy_step. apply Hnext; cbn; try reflexivity; lia.
Qed.


Lemma get_working_proxy_run (N : net) (s : state) :
  exists r s',
    get_working_proxy N s = (Ret r, s')
    /\ settings s' = settings s
    /\ (fetches s <= fetches s' <= fetches s + Z.to_nat (max_retries s))%nat
    /\ (probes s <= probes s')%nat
    /\ (probes s' + fetches s <= probes s + fetches s')%nat
    /\ match r with
       | Some p =>
           PyStr.truthy p = true
           /\ (fetches s < fetches s')%nat
           /\ free_proxy N (Nat.pred (fetches s')) = Fetched (Some p)
           /\ (probes s < probes s')%nat
           /\ probe N (Nat.pred (probes s')) p = StatusCode 200
       | None => fetches s' = (fetches s + Z.to_nat (max_retries s))%nat
       end.
Proof.
  unfold get_working_proxy, pbind, note. cbn [max_retries].
  match goal with
  | |- context [get_working_proxy_loop ?n N ?s1] =>
      destruct (get_working_proxy_loop_run N n s1)
        as (r & s' & Hrun & Hset & Hf & Hp & Hpf & Hr)
  end.
  rewrite Hrun.
  unfold settings in Hset. cbn in Hset, Hf, Hp, Hpf, Hr. injection Hset as Hmax Hcur.
  destruct r as [p|]; unfold pret; eexists; eexists; (split; [reflexivity|]);
    unfold settings; cbn; rewrite Hmax, Hcur; repeat split; try lia; apply Hr.
Qed.

(** X12.  [get_working_proxy] never raises, whatever the proxy service and the
    test request raise, and asks the service at most [max_retries] times,
    testing each proxy it is given at most once.  A proxy it returns is the
    last one the service gave and the last one tested, and the test
    answered with status 200; when it returns [None] it has used all its
    [max_retries] attempts.  It does not touch the proxy the manager
    holds. *)
Theorem get_working_proxy_bounded (N : net) (s : state) :
  exists r s',
    get_working_proxy N s = (Ret r, s')
    /\ (fetches s' <= fetches s + Z.to_nat (max_retries s))%nat
    /\ (probes s' - probes s <= fetches s' - fetches s)%nat
    /\ _current_proxy s' = _current_proxy s
    /\ (forall p, r = Some p ->
                  PyStr.truthy p = true
                  /\ free_proxy N (Nat.pred (fetches s')) = Fetched (Some p)
                  /\ probe N (Nat.pred (probes s')) p = StatusCode 200)
    /\ (r = None -> fetches s' = (fetches s + Z.to_nat (max_retries s))%nat).
Proof.
  destruct (get_working_proxy_run N s) as (r & s' & Hrun & Hset & Hf & Hp & Hpf & Hr).
  exists r, s'. split; [exact Hrun|]. split; [lia|]. split; [lia|].
  split; [unfold settings in Hset; congruence|].
  split.
  - intros p ->. destruct Hr as (Ht & _ & Hfetch & _ & Hprobe). auto.
  - intros ->. exact Hr.
Qed.

Lemma current_proxy_run (N : net) (s : state) :
  exists r s',
    current_proxy N s = (Ret r, s')
    /\ max_retries s' = max_retries s
    /\ _current_proxy s' = r
    /\ (r = None \/ PyStr.truthy_opt r = true)
    /\ (fetches s <= fetches s' <= fetches s + Z.to_nat (max_retries s))%nat
    /\ (PyStr.truthy_opt (_current_proxy s) = true -> s' = s)
    /\ (PyStr.truthy_opt (_current_proxy s) = false ->
        r = None -> fetches s' = (fetches s + Z.to_nat (max_retries s))%nat).
Proof.
  unfold current_proxy. unfold pbind at 1.
  destruct (PyStr.truthy_opt (_current_proxy s)) eqn:Hcached; cbn [negb].
  - exists (_current_proxy s), s. unfold pret.
    split; [reflexivity|]. split; [reflexivity|]. split; [reflexivity|].
    split; [right; exact Hcached|]. split; [lia|]. split; [reflexivity|].
    intros H. discriminate H.
  - destruct (get_working_proxy_run N s) as (r & s' & Hrun & Hset & Hf & Hp & Hpf & Hr).
    unfold pbind at 1. rewrite Hrun. unfold settings in Hset.
    injection Hset as Hmax Hcur.
    unfold pbind, set_proxy, pret. eexists. eexists. split; [reflexivity|].
    cbn. split; [exact Hmax|]. split; [reflexivity|].
    split; [destruct r as [p|]; [right; apply Hr|left; reflexivity]|].
    split; [lia|]. split; [discriminate|].
    intros _ ->. exact Hr.
Qed.

(** X13.  The property [current_proxy] remembers a proxy, not a failure.  Once
    an access has returned a proxy, the next access returns the same one
    and calls nothing.  After an access that returned [None] nothing is
    held, and the next access searches again: if it also returns [None],
    it has asked the service [max_retries] more times. *)
Theorem current_proxy_cached (N : net) (s : state) :
  exists r s',
    current_proxy N s = (Ret r, s')
    /\ (forall p, r = Some p -> current_proxy N s' = (Ret (Some p), s'))
    /\ (r = None ->
        _current_proxy s' = None
        /\ exists r2 s2,
             current_proxy N s' = (Ret r2, s2)
             /\ (r2 = None ->
                 fetches s2 = (fetches s' + Z.to_nat (max_retries s))%nat)).
Proof.
  destruct (current_proxy_run N s) as (r & s' & Hrun & Hmax & Hcur & Hr & Hf & _ & _).
  exists r, s'. split; [exact Hrun|]. split.
  - intros p ->. destruct Hr as [Hr|Hr]; [discriminate Hr|].
    unfold current_proxy, pbind, pret. rewrite Hcur, Hr. reflexivity.
  - intros ->. split; [exact Hcur|].
    destruct (current_proxy_run N s')
      as (r2 & s2 & Hrun2 & _ & _ & _ & _ & _ & Hnone).
    exists r2, s2. split; [exact Hrun2|]. intros H2. rewrite <- Hmax.
    apply Hnone; [rewrite Hcur; reflexivity|exact H2].
Qed.

Lemma get_proxy_options_run (N : net) (s : state) :
  exists options s',
    get_proxy_options N s = (Ret options, s')
    /\ max_retries s' = max_retries s
    /\ (fetches s <= fetches s' <= fetches s + Z.to_nat (max_retries s))%nat
    /\ ((options = [("no_proxy", Some "localhost,127.0.0.1")]
         /\ _current_proxy s' = None
         /\ (PyStr.truthy_opt (_current_proxy s) = false ->
             fetches s' = (fetches s + Z.to_nat (max_retries s))%nat))
        \/ (exists p,
               PyStr.truthy p = true
               /\ options = [("no_proxy", Some "localhost,127.0.0.1");
                             ("http", Some p); ("https", Some p)]
               /\ _current_proxy s' = Some p)).
Proof.
  unfold get_proxy_options.
  destruct (current_proxy_run N s)
    as (r & s' & Hrun & Hmax & Hcur & Hr & Hf & Hcached & Hnone).
  unfold pbind at 1. rewrite Hrun.
  destruct Hr as [->|Hr].
  - cbn [PyStr.truthy_opt]. unfold pret. eexists. eexists. split; [reflexivity|].
    split; [exact Hmax|]. split; [exact Hf|]. left.
    split; [reflexivity|]. split; [exact Hcur|].
    intros H. apply Hnone; [exact H|reflexivity].
  - rewrite Hr. destruct r as [p|]; [|discriminate Hr].
    assert (Hagain : current_proxy N s' = (Ret (Some p), s')).
    { unfold current_proxy, pbind, pret. rewrite Hcur, Hr. reflexivity. }
    unfold pbind. rewrite Hagain, Hagain. unfold pret.
    eexists. eexists. split; [reflexivity|].
    split; [exact Hmax|]. split; [exact Hf|]. right.
    exists p. cbn. auto.
Qed.

(** X14.  [get_proxy_options] reads [current_proxy] up to three times and
    searches at most once.  The dict it returns has the key 'no_proxy'
    alone, and then the manager holds no proxy; or it has the keys 'http'
    and 'https' as well, both set to the same non-empty proxy, which the
    manager holds. *)
Theorem get_proxy_options_shape (N : net) (s : state) :
  exists options s',
    get_proxy_options N s = (Ret options, s')
    /\ (fetches s' <= fetches s + Z.to_nat (max_retries s))%nat
    /\ ((options = [("no_proxy", Some "localhost,127.0.0.1")]
         /\ _current_proxy s' = None)
        \/ (exists p,
               PyStr.truthy p = true
               /\ options = [("no_proxy", Some "localhost,127.0.0.1");
                             ("http", Some p); ("https", Some p)]
               /\ _current_proxy s' = Some p)).
Proof.
  destruct (get_proxy_options_run N s) as (options & s' & Hrun & _ & Hf & Hshape).
  exists options, s'. split; [exact Hrun|]. split; [lia|].
  destruct Hshape as [(Ho & Hc & _)|Hp]; [left|right]; auto.
Qed.

(** X15.  The proxy lines of [initialize_driver] read [current_proxy] once more
    for the log.  When [get_proxy_options] found no proxy, that read
    searches a second time: a manager that held no proxy has then asked the
    service between [max_retries] and twice [max_retries] times, and
    exactly twice [max_retries] times if it still holds none.  The options
    handed to the browser stay without a proxy whatever the second search
    finds.  When the options have a proxy, it is the one the manager
    holds, and one search at most was made. *)
Theorem initialize_driver_proxy_searches (N : net) (s : state) :
  PyStr.truthy_opt (_current_proxy s) = false ->
  exists options s',
    initialize_driver_proxy true N s = (Ret (Some options), s')
    /\ ((options = [("no_proxy", Some "localhost,127.0.0.1")]
         /\ (fetches s + Z.to_nat (max_retries s) <= fetches s'
             <= fetches s + 2 * Z.to_nat (max_retries s))%nat
         /\ (_current_proxy s' = None ->
             fetches s' = (fetches s + 2 * Z.to_nat (max_retries s))%nat))
        \/ (exists p,
               options = [("no_proxy", Some "localhost,127.0.0.1");
                          ("http", Some p); ("https", Some p)]
               /\ _current_proxy s' = Some p
               /\ (fetches s' <= fetches s + Z.to_nat (max_retries s))%nat)).
Proof.
  intros Hnone. unfold initialize_driver_proxy.
  destruct (get_proxy_options_run N s) as (options & s1 & Hrun & Hmax & Hf & Hshape).
  unfold pbind at 1. rewrite Hrun.
  destruct (current_proxy_run N s1)
    as (r & s2 & Hrun2 & Hmax2 & Hcur2 & Hr & Hf2 & Hcached & Hnone2).
  unfold pbind at 1. rewrite Hrun2. proxy_step.
  eexists. eexists. split; [reflexivity|]. cbn [fetches _current_proxy].
  rewrite Hmax in Hf2, Hnone2.
  destruct Hshape as [(Ho & Hc & Hall)|(p & Ht & Ho & Hc)].
  - left. split; [exact Ho|]. specialize (Hall Hnone). split; [lia|].
    intros H2. rewrite Hcur2 in H2. rewrite Hnone2; [lia| |exact H2].
    rewrite Hc. reflexivity.
  - right. exists p. split; [exact Ho|].
    assert (Hsame : s2 = s1) by (apply Hcached; rewrite Hc; exact Ht).
    subst s2. split; [exact Hc|lia].
Qed.

Lemma initialize_driver_proxy_searches_witness :
  exists options s',
    initialize_driver_proxy true Scenario.no_proxies __init__ = (Ret (Some options), s')
    /\ ((options = [("no_proxy", Some "localhost,127.0.0.1")]
         /\ (0 + 3 <= fetches s' <= 0 + 2 * 3)%nat
         /\ (_current_proxy s' = None -> fetches s' = (0 + 2 * 3)%nat))
        \/ (exists p,
               options = [("no_proxy", Some "localhost,127.0.0.1");
                          ("http", Some p); ("https", Some p)]
               /\ _current_proxy s' = Some p
               /\ (fetches s' <= 0 + 3)%nat)).
Proof.
  apply (initialize_driver_proxy_searches Scenario.no_proxies __init__).
  reflexivity.
Defined.

End ProxyFacts.

(** ** The browser helpers and the signup steps *)

Module PageFacts.

Import BrowserManager AccountCreator.

Lemma human_like_delay_run (min_time max_time : Q) (E : env) (w : world) :
  (0 <= min_time)%Q ->
  (min_time < max_time)%Q ->
  exists d,
    human_like_delay min_time max_time E w
    = (Ret tt, set_trace (trace w ++ [EvSleep d]) (set_draws (S (draws w)) w))
    /\ (min_time * inject_Z Config.WAIT <= d /\ d < max_time * inject_Z Config.WAIT)%Q.
Proof.
  intros Hpos Hlt. unfold human_like_delay. unfold bind at 1.
  destruct (random_uniform_range min_time max_time E w Hlt) as (u & Hu & Hrange).
  rewrite Hu. unfold Config.WAIT. change (inject_Z 4) with (4 # 1)%Q.
  rewrite sleep_emit by nra.
  eexists. split; [reflexivity|]. split; nra.
Qed.

Lemma human_like_delay0_run (E : env) (w : world) :
  exists d,
    human_like_delay0 E w
    = (Ret tt, set_trace (trace w ++ [EvSleep d]) (set_draws (S (draws w)) w)).
Proof.
  destruct (human_like_delay_run (1 # 2) 2 E w) as (d & Hd & _);
    [discriminate|reflexivity|].
  exists d. exact Hd.
Qed.

(** X16.  [human_like_typing] sends the characters of the text to the element,
    one Selenium call each and in order, with a pause of at least 0.05
    seconds after each one; it stops at the first call that raises, and
    raises what that call raised.  (How close to 0.2 seconds a pause can
    get is a matter of floating-point rounding, and is not stated.) *)
Theorem typing_sends_the_text (element : selector) (text : string) (E : env) :
  forall w : world,
  exists t,
    trace (snd (human_like_typing element text E w)) = (trace w ++ t)%list
    /\ Forall (fun d => (1 # 20 <= d)%Q) (sleeps t)
    /\ (fst (human_like_typing element text E w) = Ret tt ->
        keys_sent t = map (pair element) (list_ascii_of_string text)
        /\ calls t = map (SendKeys element) (list_ascii_of_string text)
        /\ raised t = []
        /\ Datatypes.length (sleeps t) = String.length text)
    /\ (forall e, fst (human_like_typing element text E w) = Raise e ->
        exists sent c rest,
          list_ascii_of_string text = (sent ++ c :: rest)%list
          /\ keys_sent t = map (pair element) (sent ++ [c])%list
          /\ raised t = [(SendKeys element c, e)]
          /\ Datatypes.length (sleeps t) = Datatypes.length sent)
    /\ fst (human_like_typing element text E w) <> OutOfFuel.
Proof.
  induction text as [|c text IH]; intros w.
  - exists []. cbn. rewrite app_nil_r.
    split; [reflexivity|]. split; [constructor|]. split; [auto|].
    split; [intros e H; discriminate H|discriminate].
  - destruct (human_like_typing element (String c text) E w) as [r w'] eqn:Hrun.
    cbn [fst snd]. cbn [human_like_typing] in Hrun.
    unfold bind at 1 in Hrun. rewrite BrowserFacts.selenium_run in Hrun.
    destruct (browser E (ticks w) (SendKeys element c)) as [e|] eqn:Hcall.
    + inversion Hrun; subst r w'; clear Hrun.
      exists [EvBrowser (SendKeys element c) (Some e)]. cbn.
      split; [reflexivity|]. split; [constructor|].
      split; [intros H; discriminate H|]. split; [|discriminate].
      intros e' He. inversion He; subst e'.
      exists [], c, (list_ascii_of_string text). repeat split.
    + unfold bind at 1 in Hrun.
      match type of Hrun with
      | context [random_uniform _ _ E ?w1] =>
          destruct (random_uniform_range (1 # 20) (1 # 5) E w1) as (d & Hd & Hrange);
          [reflexivity|rewrite Hd in Hrun]
      end.
      unfold bind at 1 in Hrun. rewrite (sleep_emit d) in Hrun by lra.
      cbn [emit modify] in Hrun.
      match type of Hrun with
      | human_like_typing element text E ?w2 = _ =>
          destruct (IH w2) as (t & Htrace & Hsleeps & Hret & Hraise & Hfuel)
      end.
      rewrite Hrun in Htrace, Hret, Hraise, Hfuel. cbn [fst snd] in *.
      cbn [trace set_trace set_draws set_ticks] in Htrace.
      exists (EvBrowser (SendKeys element c) None :: EvSleep d :: t).
      unfold keys_sent, calls, raised, sleeps in *.
      split; [rewrite Htrace, <- !app_assoc; reflexivity|].
      split; [cbn [flat_map app]; constructor; [apply Hrange|exact Hsleeps]|].
      split; [|split; [|exact Hfuel]].
      * intros H. destruct (Hret H) as (Hk & Hc & Hr & Hl).
        cbn [flat_map app list_ascii_of_string map Datatypes.length String.length].
        rewrite Hk, Hc, Hl, Hr. repeat split.
      * intros e H. destruct (Hraise e H) as (sent & c' & rest & Htext & Hk & Hr & Hl).
        exists (c :: sent), c', rest.
        cbn [flat_map app list_ascii_of_string map Datatypes.length String.length].
        rewrite Htext, Hk, Hl, Hr. repeat split.
Qed.


Lemma click_next_button_for_run (selectors : list selector) (E : env) :
  forall w : world,
  exists r w',
    _click_next_button_for selectors E w = (Ret r, w')
    /\ (r = Some true \/ r = None).
Proof.
  induction selectors as [|s rest IH]; intros w.
  - exists None, w. auto.
  - cbn [_click_next_button_for]. unfold bind at 1. unfold try_except at 1.
    unfold bind at 1.
    pose proof (BrowserFacts.wait_for_element_settles s (Some 5) true E w) as Hsettles.
    destruct (wait_for_element s (Some 5) true E w) as [[el|e|] w1];
      [|cbn [any_exception]; apply IH|exfalso; apply Hsettles; reflexivity].
    unfold bind at 1. rewrite BrowserFacts.selenium_run.
    destruct (browser E (ticks w1) (Click el)) as [e|];
      [cbn [any_exception]; apply IH|].
    unfold bind at 1.
    match goal with
    | |- context [human_like_delay0 E ?w2] =>
        destruct (human_like_delay0_run E w2) as (d & Hd); rewrite Hd
    end.
    cbn. eexists. eexists. split; [reflexivity|]. auto.
Qed.

(** X17.  Whatever goes wrong while the "Next" button is looked for and clicked
    (a timeout, a Selenium error, a browser that was never started),
    [_click_next_button] shows its caller one exception only,
    [ValueError("Could not click next button")]; otherwise it returns
    [True]. *)
Theorem click_next_button_outcomes (E : env) (w : world) :
  fst (_click_next_button E w) = Ret true
  \/ fst (_click_next_button E w) = Raise (ValueError "Could not click next button").
Proof.
  unfold _click_next_button. unfold bind. cbn [logger modify].
  match goal with
  | |- context [_click_next_button_for NEXT_BUTTONS E ?w1] =>
      destruct (click_next_button_for_run NEXT_BUTTONS E w1) as (r & w2 & Hrun & Hr);
      rewrite Hrun
  end.
  destruct Hr as [->| ->]; [left; reflexivity|].
  unfold try_except. cbn [logger modify]. rewrite BrowserFacts.selenium_run.
  destruct (browser E _ (ExecuteScript ClickFirstButton)) as [e|].
  - right. reflexivity.
  - match goal with
    | |- context [human_like_delay0 E ?w3] =>
        destruct (human_like_delay0_run E w3) as (d & Hd); rewrite Hd
    end.
    left. reflexivity.
Qed.

(** X18.  When the wait for a clickable button times out but the button is on
    the page, the fallback of [wait_for_element] clicks it by script, and
    the caller, which was handed the element, clicks it again: the button
    is clicked twice. *)
Theorem fallback_clicks_twice (s : selector) (rest : list selector) (E : env)
    (w : world) :
  driver w = true ->
  browser E (ticks w) (Until s 5 true) = Some TimeoutException ->
  browser E (1 + ticks w) (FindElement s) = None ->
  browser E (2 + ticks w) (ExecuteScript (ScrollIntoView s)) = None ->
  browser E (3 + ticks w) (ExecuteScript (JsClick s)) = None ->
  browser E (4 + ticks w) (Click s) = None ->
  fst (_click_next_button_for (s :: rest) E w) = Ret (Some true)
  /\ exists d,
       trace (snd (_click_next_button_for (s :: rest) E w))
       = (trace w
          ++ [EvBrowser (Until s 5 true) (Some TimeoutException);
              EvBrowser (FindElement s) None;
              EvBrowser (ExecuteScript (ScrollIntoView s)) None;
              EvBrowser (ExecuteScript (JsClick s)) None;
              EvBrowser (Click s) None;
              EvSleep d])%list.
Proof.
  intros Hdriver Hwait Hfind Hscroll Hjs Hclick.
  cbn [Nat.add] in Hfind, Hscroll, Hjs, Hclick.
  destruct (_click_next_button_for (s :: rest) E w) as [r w'] eqn:Hrun.
  cbn [_click_next_button_for] in Hrun.
  unfold bind at 1 in Hrun. unfold try_except at 1 in Hrun. unfold bind at 1 in Hrun.
  assert (Hel : wait_for_element s (Some 5) true E w
                = (Ret s,
                   set_trace (trace w
                              ++ [EvBrowser (Until s 5 true) (Some TimeoutException);
                                  EvBrowser (FindElement s) None;
                                  EvBrowser (ExecuteScript (ScrollIntoView s)) None;
                                  EvBrowser (ExecuteScript (JsClick s)) None])%list
                     (set_ticks (S (S (S (S (ticks w)))))
                        (set_log (log w ++ [(WARNING, "Element not found with normal wait, trying JavaScript fallback")]) w)))).
  { unfold wait_for_element, bind, get, try_except. rewrite Hdriver. cbn [negb].
    rewrite BrowserFacts.selenium_run, Hwait. cbn [is_TimeoutException fst snd].
    unfold logger, modify. rewrite BrowserFacts.selenium_run.
    cbn [ticks set_ticks set_trace set_log trace log]. rewrite Hfind.
    rewrite BrowserFacts.selenium_run.
    cbn [ticks set_ticks set_trace set_log trace log]. rewrite Hscroll.
    rewrite BrowserFacts.selenium_run.
    cbn [ticks set_ticks set_trace set_log trace log]. rewrite Hjs.
    unfold ret. f_equal. rewrite <- !app_assoc. reflexivity. }
  rewrite Hel in Hrun. unfold bind at 1 in Hrun.
  rewrite BrowserFacts.selenium_run in Hrun.
  cbn [ticks set_ticks set_trace set_log trace log] in Hrun. rewrite Hclick in Hrun.
  unfold bind at 1 in Hrun.
  match type of Hrun with
  | context [human_like_delay0 E ?w2] =>
      destruct (human_like_delay0_run E w2) as (d & Hd); rewrite Hd in Hrun
  end.
  cbn in Hrun. inversion Hrun; subst r w'; clear Hrun.
  split; [reflexivity|]. exists d. cbn. rewrite <- !app_assoc. reflexivity.
Qed.

Lemma fallback_clicks_twice_witness :
  fst (_click_next_button_for NEXT_BUTTONS Scenario.slow_page Scenario.browsing)
  = Ret (Some true)
  /\ exists d,
       trace (snd (_click_next_button_for NEXT_BUTTONS Scenario.slow_page
                     Scenario.browsing))
       = ([]
          ++ [EvBrowser (Until NEXT_BUTTONS_1 5 true) (Some TimeoutException);
              EvBrowser (FindElement NEXT_BUTTONS_1) None;
              EvBrowser (ExecuteScript (ScrollIntoView NEXT_BUTTONS_1)) None;
              EvBrowser (ExecuteScript (JsClick NEXT_BUTTONS_1)) None;
              EvBrowser (Click NEXT_BUTTONS_1) None;
              EvSleep d])%list.
Proof.
  apply (fallback_clicks_twice NEXT_BUTTONS_1 [NEXT_BUTTONS_2; NEXT_BUTTONS_3]
           Scenario.slow_page Scenario.browsing); reflexivity.
Defined.


Lemma take_screenshot_run (name : string) (E : env) (w : world) :
  exists t w',
    take_screenshot name E w = (Ret tt, w')
    /\ trace w' = (trace w ++ t)%list
    /\ (t = [] \/ exists r, t = [EvBrowser (SaveScreenshot name) r]).
Proof.
  unfold take_screenshot, bind, get. destruct (driver w); cbn [negb].
  - unfold try_except, bind. rewrite BrowserFacts.selenium_run.
    destruct (browser E (ticks w) (SaveScreenshot name)) as [e|] eqn:Hshot; cbn;
      eexists; eexists; (split; [reflexivity|]); cbn;
      (split; [reflexivity|]); right; eexists; reflexivity.
  - exists [], w. rewrite app_nil_r. auto.
Qed.

(** X19.  A birthday with fewer than three parts between its "/" makes
    [_fill_second_step] raise [UnboundLocalError]: reading the missing part
    raises [IndexError] inside the [try], and the handler's fallback reads
    [day] and [year], of which one at least was never bound.  No field of
    the page is touched: the only Selenium calls are the screenshots. *)
Theorem short_birthday_raises_unbound (user : user_data) (E : env) (w : world) :
  (Datatypes.length (PyStr.split "/" (birthday user)) < 3)%nat ->
  fst (_fill_second_step user E w) = Raise UnboundLocalError
  /\ exists t,
       trace (snd (_fill_second_step user E w)) = (trace w ++ t)%list
       /\ Forall (fun a => exists name, a = SaveScreenshot name) (calls t).
Proof.
  intros Hshort.
  assert (Hyear : nth_error (PyStr.split "/" (birthday user)) 2 = None)
    by (apply nth_error_None; lia).
  destruct (_fill_second_step user E w) as [r w'] eqn:Hrun. cbn [fst snd].
  unfold _fill_second_step in Hrun. cbv zeta in Hrun. rewrite Hyear in Hrun.
  unfold bind at 1 in Hrun. cbn [logger modify] in Hrun.
  unfold bind at 1 in Hrun.
  match type of Hrun with
  | context [human_like_delay 2 3 E ?w1] =>
      destruct (human_like_delay_run 2 3 E w1 ltac:(discriminate)) as (d & Hd & _);
      [reflexivity|rewrite Hd in Hrun]
  end.
  unfold bind at 1 in Hrun. rewrite (sleep_emit 3) in Hrun by discriminate.
  cbn [emit modify] in Hrun.
  unfold bind at 1 in Hrun.
  match type of Hrun with
  | context [take_screenshot ?n E ?w2] =>
      destruct (take_screenshot_run n E w2) as (t1 & w3 & H1 & Ht1 & Hs1);
      rewrite H1 in Hrun
  end.
  unfold try_except at 1 in Hrun.
  assert (Hbody : forall (k : string -> string -> string -> M unit),
             match nth_error (PyStr.split "/" (birthday user)) 0,
                   nth_error (PyStr.split "/" (birthday user)) 1,
                   @None string with
             | Some month, Some day, Some year => k month day year
             | _, _, _ => raise IndexError
             end = raise IndexError).
  { intros k. destruct (nth_error _ 0), (nth_error _ 1); reflexivity. }
  rewrite Hbody in Hrun; [|exact (fun _ _ _ => ret tt)].
  cbn [raise any_exception] in Hrun.
  unfold bind at 1 in Hrun. cbn [logger modify] in Hrun.
  unfold bind at 1 in Hrun.
  match type of Hrun with
  | context [take_screenshot ?n E ?w4] =>
      destruct (take_screenshot_run n E w4) as (t2 & w5 & H2 & Ht2 & Hs2);
      rewrite H2 in Hrun
  end.
  unfold try_except at 1 in Hrun. unfold bind at 1 in Hrun.
  cbn [logger modify] in Hrun.
  assert (Hfallback : forall (k : string -> string -> string -> M unit),
             match nth_error (PyStr.split "/" (birthday user)) 1,
                   nth_error (PyStr.split "/" (birthday user)) 0,
                   @None string with
             | Some day, Some month, Some year => k day month year
             | _, _, _ => raise UnboundLocalError
             end = raise UnboundLocalError).
  { intros k. destruct (nth_error _ 1), (nth_error _ 0); reflexivity. }
  rewrite Hfallback in Hrun; [|exact (fun _ _ _ => ret tt)].
  cbn [raise any_exception] in Hrun.
  unfold bind at 1 in Hrun. cbn [logger modify raise] in Hrun.
  inversion Hrun; subst r w'; clear Hrun.
  split; [reflexivity|].
  exists ((EvSleep d :: EvSleep 3 :: t1) ++ t2)%list.
  cbn [trace set_log set_trace set_draws] in Ht1, Ht2 |- *.
  split.
  - rewrite Ht2, Ht1. rewrite <- !app_assoc. reflexivity.
  - unfold calls. rewrite flat_map_app. cbn [flat_map app].
    apply Forall_app. split.
    + destruct Hs1 as [->|[r ->]]; cbn.
      * constructor.
      * constructor; [eexists; reflexivity|constructor].
    + destruct Hs2 as [->|[r ->]]; cbn.
      * constructor.
      * constructor; [eexists; reflexivity|constructor].
Qed.

Lemma short_birthday_raises_unbound_witness :
  fst (_fill_second_step Scenario.undated Scenario.slow_page Scenario.browsing)
  = Raise UnboundLocalError
  /\ exists t,
       trace (snd (_fill_second_step Scenario.undated Scenario.slow_page
                     Scenario.browsing))
       = ([] ++ t)%list
       /\ Forall (fun a => exists name, a = SaveScreenshot name) (calls t).
Proof.
  apply (short_birthday_raises_unbound Scenario.undated Scenario.slow_page
           Scenario.browsing).
  cbn. lia.
Defined.

(** X20.  The retry of [_fill_username_step] sits inside the [try] whose bare
    [except] stands for "no warning": when the warning is found and the
    retry raises, the exception is taken for an accepted username, and the
    step returns the username that was refused. *)
Theorem failed_retry_returns_refused_name (fuel : nat) (E : env) (user : user_data)
    (w w1 w2 : world) (name : string) (el : selector) (e : exn) :
  enter_username user E w = (Ret name, w1) ->
  wait_for_element USERNAME_WARNING (Some 3) false E w1 = (Ret el, w2) ->
  fst (_fill_username_step fuel (clear_manual_username user) E
         (snd (logger WARNING "Username was invalid or already taken" E w2)))
  = Raise e ->
  fst (_fill_username_step (S fuel) user E w) = Ret name
  /\ last (log (snd (_fill_username_step (S fuel) user E w))) (INFO, "")
     = (INFO, "Username accepted").
Proof.
  intros Hfirst Hwarned Hretry.
  destruct (_fill_username_step (S fuel) user E w) as [r w'] eqn:Hrun.
  cbn [_fill_username_step] in Hrun.
  unfold bind at 1 in Hrun. rewrite Hfirst in Hrun.
  unfold bind at 1 in Hrun. unfold try_except at 1 in Hrun.
  unfold bind at 1 in Hrun. rewrite Hwarned in Hrun.
  unfold bind at 1 in Hrun. cbn [logger modify] in Hrun.
  cbn [logger modify snd] in Hretry.
  unfold bind at 1 in Hrun.
  match type of Hrun with
  | context [_fill_username_step fuel ?u E ?w3] =>
      destruct (_fill_username_step fuel u E w3) as [[again|e'|] w4]
  end; cbn [fst] in Hretry; try discriminate Hretry.
  cbn [any_exception] in Hrun. unfold bind at 1 in Hrun.
  cbn [logger modify ret] in Hrun.
  inversion Hrun; subst r w'; clear Hrun.
  split; [reflexivity|]. cbn [snd log set_log]. apply last_last.
Qed.

Lemma failed_retry_returns_refused_name_witness :
  fst (_fill_username_step 2 Scenario.jane_taken Scenario.vanishing_page
         Scenario.browsing)
  = Ret "taken.name"
  /\ last (log (snd (_fill_username_step 2 Scenario.jane_taken Scenario.vanishing_page
                       Scenario.browsing))) (INFO, "")
     = (INFO, "Username accepted").
Proof.
  set (E := Scenario.vanishing_page).
  set (w := Scenario.browsing).
  set (w1 := snd (enter_username Scenario.jane_taken E w)).
  set (w2 := snd (wait_for_element USERNAME_WARNING (Some 3) false E w1)).
  apply (failed_retry_returns_refused_name 1 E Scenario.jane_taken w w1 w2
           "taken.name" USERNAME_WARNING NoSuchElementException).
  - vm_compute. reflexivity.
  - vm_compute. reflexivity.
  - vm_compute. reflexivity.
Defined.

End PageFacts.

(** ** The bookkeeping of the multi-account loop *)

Module LedgerFacts.

Import BrowserManager AccountCreator.

Ltac untouched := intros; reflexivity.

Lemma saves_bind {A} (m : M A) (k : A -> M bool) (P : A -> Prop) :
  keeps created_accounts m ->
  (forall E w a w', m E w = (Ret a, w') -> P a) ->
  (forall a, P a -> saves_when_true (k a)) ->
  saves_when_true (bind m k).
Proof.
  intros Hm HP Hk E w. unfold bind.
  specialize (Hm E w). specialize (HP E w).
  destruct (m E w) as [[a|e|] w1]; cbn [fst snd] in *.
  - rewrite <- Hm. apply Hk. apply (HP a w1). reflexivity.
  - split; [intros H; discriminate H|auto].
  - split; [intros H; discriminate H|auto].
Qed.

Lemma saves_then {A} (m : M A) (k : A -> M bool) :
  keeps created_accounts m ->
  (forall a, saves_when_true (k a)) ->
  saves_when_true (bind m k).
Proof.
  intros Hm Hk. apply (saves_bind m k (fun _ => True)); auto.
Qed.

Lemma saves_ret_false : saves_when_true (ret false).
Proof. intros E w. cbn. split; [intros H; discriminate H|auto]. Qed.

Lemma account_steps_saves (fuel : nat) (user : user_data) :
  saves_when_true (account_steps fuel user).
Proof.
  unfold account_steps.
  apply saves_then; [apply keeps__navigate_to_account_creation; untouched|intros _].
  apply saves_then; [apply keeps__fill_first_step; untouched|intros _].
  apply saves_then; [apply keeps__fill_second_step; untouched|intros _].
  apply saves_then; [apply keeps__fill_username_step; untouched|intros username].
  apply saves_then; [apply keeps__fill_password_step; untouched|intros _].
  apply saves_then; [apply keeps__requires_phone_verification; untouched|intros required].
  apply (saves_bind _ _ (fun r => fst r = Some false \/ fst r = None)).
  - destruct required; [|apply keeps_ret].
    apply keeps_bind; [apply keeps__handle_phone_verification; untouched|].
    intros [success phone_number]. destruct success; cbn [negb]; [apply keeps_ret|].
    apply keeps_bind; [apply keeps_logger; untouched|intros _; apply keeps_ret].
  - intros E w [returned phone_number] w' Hrun. cbn [fst].
    destruct required; [|inversion Hrun; auto].
    apply bind_Ret_inv in Hrun. destruct Hrun as ([success number] & w1 & _ & Hrun).
    destruct success; cbn [negb] in Hrun; [inversion Hrun; auto|].
    apply bind_Ret_inv in Hrun. destruct Hrun as (? & ? & _ & Hrun).
    inversion Hrun; auto.
  - intros [returned phone_number] Hreturned. cbn [fst] in Hreturned.
    destruct Hreturned as [-> | ->]; [apply saves_ret_false|].
    apply saves_then; [apply keeps__complete_final_steps; untouched|intros completed].
    destruct completed; cbn [negb].
    + intros E w. unfold bind, UserManager.save_created_account, bind, modify, emit,
        logger, modify, ret. cbn.
      split; [intros _; eexists; reflexivity|intros H; exfalso; apply H; reflexivity].
    + apply saves_then; [apply keeps_logger; untouched|intros _; apply saves_ret_false].
Qed.

Lemma create_single_account_saves (fuel : nat) (user : user_data) :
  saves_when_true (_create_single_account fuel user).
Proof.
  intros E w. unfold _create_single_account, try_except.
  destruct (account_steps_saves fuel user E w) as [Htrue Hother].
  destruct (account_steps fuel user E w) as [[b|e|] w1]; cbn [fst snd] in *;
    [split; assumption| |split; assumption].
  cbn [any_exception].
  assert (Hkeep : keeps created_accounts
                    (logger ERROR "Error creating account" ;;
                     take_screenshot "error_create_account" ;;
                     ret false)).
  { apply keeps_bind; [apply keeps_logger; untouched|intros _].
    apply keeps_bind; [apply keeps_take_screenshot; untouched|intros _; apply keeps_ret]. }
  specialize (Hkeep E w1).
  assert (Hfalse : fst ((logger ERROR "Error creating account" ;;
                         take_screenshot "error_create_account" ;;
                         ret false) E w1) <> Ret true).
  { unfold bind. cbn [logger modify].
    match goal with
    | |- context [take_screenshot ?n E ?w2] =>
        destruct (BrowserFacts.take_screenshot_returns n E w2) as [w3 H3]; rewrite H3
    end.
    cbn. discriminate. }
  split; [intros H; exfalso; apply Hfalse; exact H|].
  intros _. rewrite Hkeep. apply Hother. discriminate.
Qed.


Lemma after_account_keeps_ledger (fuel : nat) (user : user_data) :
  keeps ledger
    (success <- _create_single_account fuel user ;;
     (if success : bool
      then modify (fun w => set_successful_accounts (successful_accounts w + 1) w)
      else modify (fun w => set_failed_accounts (failed_accounts w + 1) w)) ;;
     close ;;
     modify (fun w => set_current_index (current_index w + 1) w) ;;
     delay <- random_uniform 5 15 ;;
     logger INFO "Waiting before next account" ;;
     sleep delay).
Proof.
  intros E w.
  assert (Htail : keeps ledger
                    (close ;;
                     modify (fun w => set_current_index (current_index w + 1) w) ;;
                     delay <- random_uniform 5 15 ;;
                     logger INFO "Waiting before next account" ;;
                     sleep delay)).
  { apply keeps_bind; [apply keeps_close; untouched|intros _].
    apply keeps_bind; [apply keeps_modify; untouched|intros _].
    apply keeps_bind; [apply keeps_random_uniform; untouched|intros delay].
    apply keeps_bind; [apply keeps_logger; untouched|intros _].
    apply keeps_sleep; untouched. }
  destruct (create_single_account_saves fuel user E w) as [Htrue Hother].
  pose proof (AttemptFacts.create_single_account_keeps_counters fuel user E w) as Hc.
  unfold bind at 1.
  destruct (_create_single_account fuel user E w) as [[success|e|] w1];
    cbn [fst snd] in *.
  - unfold bind at 1.
    destruct success; cbn [modify]; rewrite Htail.
    + destruct (Htrue eq_refl) as [account Hsaved].
      unfold ledger. cbn [created_accounts successful_accounts set_successful_accounts].
      rewrite Hsaved, length_app. unfold counters in Hc. injection Hc as _ Hs _.
      rewrite Hs. cbn [Datatypes.length]. lia.
    + unfold ledger. cbn [created_accounts successful_accounts set_failed_accounts].
      rewrite Hother by discriminate. unfold counters in Hc. injection Hc as _ Hs _.
      rewrite Hs. reflexivity.
  - unfold ledger. rewrite Hother by discriminate.
    unfold counters in Hc. injection Hc as _ Hs _. rewrite Hs. reflexivity.
  - unfold ledger. rewrite Hother by discriminate.
    unfold counters in Hc. injection Hc as _ Hs _. rewrite Hs. reflexivity.
Qed.

Lemma attempt_keeps_ledger (fuel : nat) : keeps ledger (attempt fuel).
Proof.
  unfold attempt. apply keeps_try_except.
  - unfold attempt_body.
    apply keeps_bind; [apply keeps_logger; untouched|intros _].
    apply keeps_bind; [apply keeps_get|intros index].
    apply keeps_bind; [apply keeps_get_user_data; untouched|intros [user|]].
    + apply keeps_bind; [apply keeps_initialize_driver; untouched|intros _].
      apply after_account_keeps_ledger.
    + apply keeps_bind; [apply keeps_logger; untouched|intros _].
      apply keeps_bind; [|intros _]; apply keeps_modify; untouched.
  - intros e. unfold attempt_handler.
    apply keeps_bind; [apply keeps_logger; untouched|intros _].
    apply keeps_bind; [apply keeps_modify; untouched|intros _].
    apply keeps_bind; [apply keeps_modify; untouched|intros _].
    apply keeps_bind; [apply keeps_close; untouched|intros _].
    apply keeps_bind; [apply keeps_random_uniform; untouched|intros delay].
    apply keeps_sleep; untouched.
Qed.

Lemma create_accounts_loop_keeps_ledger (fuel : nat) (count : Z) :
  forall rounds : nat, keeps ledger (create_accounts_loop rounds fuel count).
Proof.
  induction rounds as [|rounds IH]; cbn [create_accounts_loop];
    (apply keeps_bind; [apply keeps_get|intros index]);
    destruct (index <? count).
  - apply keeps_out_of_fuel.
  - apply keeps_bind; [apply keeps_logger; untouched|intros _; apply keeps_get].
  - apply keeps_bind; [apply attempt_keeps_ledger|intros _; apply IH].
  - apply keeps_bind; [apply keeps_logger; untouched|intros _; apply keeps_get].
Qed.

Lemma create_accounts_loop_result (fuel : nat) (E : env) (count : Z) :
  forall (rounds : nat) (w w' : world) (n : Z),
    create_accounts_loop rounds fuel count E w = (Ret n, w') ->
    n = successful_accounts w'
    /\ current_index w' = Z.max (current_index w) count
    /\ (successful_accounts w' - successful_accounts w)
       + (failed_accounts w' - failed_accounts w)
       = Z.max 0 (count - current_index w)
    /\ successful_accounts w <= successful_accounts w'
    /\ failed_accounts w <= failed_accounts w'.
Proof.
  induction rounds as [|rounds IH]; intros w w' n Hret;
    cbn [create_accounts_loop] in Hret;
    unfold bind at 1 in Hret; cbn [get] in Hret;
    destruct (current_index w <? count) eqn:Hlt.
  - discriminate Hret.
  - apply Z.ltb_ge in Hlt. unfold bind, logger, modify, get in Hret.
    inversion Hret; subst n w'; clear Hret.
    cbn [current_index successful_accounts failed_accounts set_log].
    repeat split; lia.
  - apply Z.ltb_lt in Hlt.
    unfold bind at 1 in Hret.
    pose proof (LeaseFacts.attempt_counts_once fuel E w) as Honce.
    destruct (attempt fuel E w) as [[[]|e|] w1]; cbn [fst snd] in *;
      try discriminate Hret.
    destruct (Honce eq_refl) as (Hindex & Hcount).
    destruct (IH w1 w' n Hret) as (Hn & Hi & Hsum & Hs & Hf).
    split; [exact Hn|]. rewrite Hi, Hindex.
    destruct Hcount as [[Hs1 Hf1]|[Hs1 Hf1]]; repeat split; lia.
  - apply Z.ltb_ge in Hlt. unfold bind, logger, modify, get in Hret.
    inversion Hret; subst n w'; clear Hret.
    cbn [current_index successful_accounts failed_accounts set_log].
    repeat split; lia.
Qed.

(** X21.  When [create_accounts] returns, every user from the current index up
    to the count has been counted once, as a success or as a failure: the
    index stands at the count (or where it was, if already beyond), the two
    counters have grown by the number of users in between, and neither has
    gone down.  The value returned is the number of successes. *)
Theorem create_accounts_counts_every_user (fuel : nat) (E : env) (w : world) (n : Z) :
  fst (create_accounts fuel E w) = Ret n ->
  n = successful_accounts (snd (create_accounts fuel E w))
  /\ current_index (snd (create_accounts fuel E w))
     = Z.max (current_index w) (user_count E)
  /\ (successful_accounts (snd (create_accounts fuel E w)) - successful_accounts w)
     + (failed_accounts (snd (create_accounts fuel E w)) - failed_accounts w)
     = Z.max 0 (user_count E - current_index w)
  /\ successful_accounts w <= successful_accounts (snd (create_accounts fuel E w))
  /\ failed_accounts w <= failed_accounts (snd (create_accounts fuel E w)).
Proof.
  intros Hret.
  destruct (create_accounts fuel E w) as [r w'] eqn:Hrun. cbn [fst snd] in *.
  subst r.
  unfold create_accounts, UserManager.get_user_count in Hrun.
  unfold bind at 1 in Hrun. cbn [ask] in Hrun.
  unfold bind at 1 in Hrun. cbn [logger modify] in Hrun.
  unfold bind at 1 in Hrun. cbn [get] in Hrun.
  apply create_accounts_loop_result in Hrun.
  cbn [current_index successful_accounts failed_accounts set_log] in Hrun.
  exact Hrun.
Qed.

Lemma create_accounts_counts_every_user_witness :
  0 = successful_accounts (snd (create_accounts 1 Scenario.browser_down initial_world))
  /\ current_index (snd (create_accounts 1 Scenario.browser_down initial_world))
     = Z.max (current_index initial_world) (user_count Scenario.browser_down)
  /\ (successful_accounts (snd (create_accounts 1 Scenario.browser_down initial_world))
      - successful_accounts initial_world)
     + (failed_accounts (snd (create_accounts 1 Scenario.browser_down initial_world))
        - failed_accounts initial_world)
     = Z.max 0 (user_count Scenario.browser_down - current_index initial_world)
  /\ successful_accounts initial_world
     <= successful_accounts (snd (create_accounts 1 Scenario.browser_down initial_world))
  /\ failed_accounts initial_world
     <= failed_accounts (snd (create_accounts 1 Scenario.browser_down initial_world)).
Proof.
  apply (create_accounts_counts_every_user 1 Scenario.browser_down initial_world 0).
  vm_compute. reflexivity.
Defined.

(** X22.  The accounts saved are the successes counted: at every point where
    [create_accounts] can stop (returning, or with a loop of a step still
    running), the number of accounts added to [created_accounts] is the
    number added to [successful_accounts].  An account is saved by the
    attempt that returns [True] and by nothing else. *)
Theorem saved_accounts_are_the_successes (fuel : nat) (E : env) (w : world) :
  Z.of_nat (Datatypes.length (created_accounts (snd (create_accounts fuel E w))))
  - Z.of_nat (Datatypes.length (created_accounts w))
  = successful_accounts (snd (create_accounts fuel E w)) - successful_accounts w.
Proof.
  assert (Hkeep : keeps ledger (create_accounts fuel)).
  { unfold create_accounts, UserManager.get_user_count.
    apply keeps_bind; [apply keeps_ask|intros count].
    apply keeps_bind; [apply keeps_logger; untouched|intros _].
    apply keeps_bind; [apply keeps_get|intros index].
    apply create_accounts_loop_keeps_ledger. }
  specialize (Hkeep E w). unfold ledger in Hkeep. lia.
Qed.


(** *** The provider is called for a phone challenge only *)

Lemma steady_bind {X A B} (view : world -> X) (m : M A) (k : A -> M B) (E : env)
    (P : A -> Prop) :
  (forall w, view (snd (m E w)) = view w) ->
  (forall w a w', m E w = (Ret a, w') -> P a) ->
  (forall a, P a -> forall w, view (snd (k a E w)) = view w) ->
  forall w, view (snd (bind m k E w)) = view w.
Proof.
  intros Hm HP Hk w. unfold bind.
  specialize (Hm w). specialize (HP w).
  destruct (m E w) as [[a|e|] w1]; cbn [snd] in *; try exact Hm.
  rewrite Hk; [exact Hm|]. apply (HP a w1). reflexivity.
Qed.

Lemma steady_then {X A B} (view : world -> X) (m : M A) (k : A -> M B) (E : env) :
  keeps view m ->
  (forall a w, view (snd (k a E w)) = view w) ->
  forall w, view (snd (bind m k E w)) = view w.
Proof.
  intros Hm Hk. apply (steady_bind view m k E (fun _ => True)); auto.
Qed.

Lemma wait_for_element_absent (s : selector) (E : env) :
  (forall n t c, browser E n (Until s t c) <> None) ->
  (forall n, browser E n (FindElement s) <> None) ->
  forall t c w el, fst (wait_for_element s t c E w) <> Ret el.
Proof.
  intros Huntil Hfind t c w el.
  unfold wait_for_element. unfold bind at 1. cbn [get].
  destruct (driver w); cbn [negb]; [|discriminate].
  unfold try_except at 1. unfold bind at 1. rewrite BrowserFacts.selenium_run.
  match goal with
  | |- context [browser E ?n (Until s ?t' c)] =>
      pose proof (Huntil n t' c) as Hno;
      destruct (browser E n (Until s t' c)) as [e|]; [|congruence]
  end.
  cbn [fst snd]. destruct (is_TimeoutException e); [|discriminate].
  unfold try_except at 1. unfold bind at 1. cbn [logger modify].
  unfold bind at 1. rewrite BrowserFacts.selenium_run.
  match goal with
  | |- context [browser E ?n (FindElement s)] =>
      pose proof (Hfind n) as Hno';
      destruct (browser E n (FindElement s)) as [e'|]; [|congruence]
  end.
  cbn [fst snd any_exception]. unfold bind at 1. cbn [logger modify].
  unfold bind at 1.
  match goal with
  | |- context [take_screenshot ?name E ?w1] =>
      destruct (BrowserFacts.take_screenshot_returns name E w1) as [w2 H2]; rewrite H2
  end.
  discriminate.
Qed.

Lemma requires_phone_absent (E : env) :
  (forall n t c, browser E n (Until PHONE_NUMBER t c) <> None) ->
  (forall n, browser E n (FindElement PHONE_NUMBER) <> None) ->
  forall w required w',
    _requires_phone_verification E w = (Ret required, w') -> required = false.
Proof.
  intros Huntil Hfind w required w' Hrun.
  unfold _requires_phone_verification in Hrun.
  unfold bind at 1 in Hrun. cbn [logger modify] in Hrun.
  unfold try_except at 1 in Hrun. unfold bind at 1 in Hrun.
  destruct (wait_for_element ACC_DAY (Some 3) false E _) as [[el|e|] w1].
  - unfold bind, logger, modify, ret in Hrun. inversion Hrun. reflexivity.
  - cbn [any_exception] in Hrun. unfold try_except at 1 in Hrun.
    unfold bind at 1 in Hrun.
    pose proof (wait_for_element_absent PHONE_NUMBER E Huntil Hfind (Some 5) false w1)
      as Habsent.
    destruct (wait_for_element PHONE_NUMBER (Some 5) false E w1) as [[el|e'|] w2].
    + exfalso. apply (Habsent el). reflexivity.
    + cbn [any_exception] in Hrun. unfold bind, logger, modify, ret in Hrun.
      inversion Hrun. reflexivity.
    + discriminate Hrun.
  - discriminate Hrun.
Qed.

(** X23.  A signup that is never shown the phone field costs nothing: when no
    wait for the phone field and no search for it succeeds,
    [_create_single_account] makes no request to the SMS provider and
    leaves the lease as it was, whatever else happens. *)
Theorem no_phone_field_no_provider_call (fuel : nat) (user : user_data) (E : env)
    (w : world) :
  (forall n t c, browser E n (Until PHONE_NUMBER t c) <> None) ->
  (forall n, browser E n (FindElement PHONE_NUMBER) <> None) ->
  billing (snd (_create_single_account fuel user E w)) = billing w.
Proof.
  intros Huntil Hfind. revert w.
  assert (Hsteps : forall w, billing (snd (account_steps fuel user E w)) = billing w).
  { unfold account_steps.
    apply steady_then; [apply keeps__navigate_to_account_creation; untouched|intros _].
    apply steady_then; [apply keeps__fill_first_step; untouched|intros _].
    apply steady_then; [apply keeps__fill_second_step; untouched|intros _].
    apply steady_then; [apply keeps__fill_username_step; untouched|intros username].
    apply steady_then; [apply keeps__fill_password_step; untouched|intros _].
    apply (steady_bind billing _ _ E (fun required => required = false)).
    - intros w. apply keeps__requires_phone_verification; untouched.
    - intros w required w'. apply requires_phone_absent; assumption.
    - intros required ->.
      apply steady_then; [apply keeps_ret|intros [returned phone_number]].
      destruct returned as [v|]; [intros w; reflexivity|].
      apply steady_then; [apply keeps__complete_final_steps; untouched|intros completed].
      destruct completed; cbn [negb].
      + apply steady_then; [apply keeps_save_created_account; untouched|intros _].
        apply steady_then; [apply keeps_logger; untouched|intros _ w; reflexivity].
      + apply steady_then; [apply keeps_logger; untouched|intros _ w; reflexivity]. }
  intros w. unfold _create_single_account, try_except.
  specialize (Hsteps w).
  destruct (account_steps fuel user E w) as [[b|e|] w1]; cbn [snd] in *;
    try exact Hsteps.
  cbn [any_exception]. rewrite <- Hsteps.
  assert (Hkeep : keeps billing
                    (logger ERROR "Error creating account" ;;
                     take_screenshot "error_create_account" ;;
                     ret false)).
  { apply keeps_bind; [apply keeps_logger; untouched|intros _].
    apply keeps_bind; [apply keeps_take_screenshot; untouched|intros _; apply keeps_ret]. }
  apply Hkeep.
Qed.

Lemma no_phone_field_no_provider_call_witness :
  billing (snd (_create_single_account 1 Scenario.jane Scenario.unchallenged
                  Scenario.browsing))
  = billing Scenario.browsing.
Proof.
  apply (no_phone_field_no_provider_call 1 Scenario.jane Scenario.unchallenged
           Scenario.browsing).
  - intros n t c H. discriminate H.
  - intros n H. discriminate H.
Defined.

End LedgerFacts.
